(** * Futures engine: PDF text-layer parser, spot loader and report merger

    A shallow embedding of [crypto_vat_app/engines/futures_engine.py]:
    [TokenData], [PDFParser] ([FINANCIAL_PATTERN], [_clean_ticker_strict],
    [_parse_page_smart], [extract]) and [DataProcessor] ([load_spot],
    [generate_report]), together with the parts of the Python runtime the
    code leans on: [str] as a sequence of code points, the backtracking
    matcher behind [re.search], [float()] on strings, exceptions, and a
    small table model of pandas frames. *)

From Stdlib Require Import String Ascii.
From Stdlib Require Import List NArith ZArith QArith Bool Lia Arith.
Import ListNotations.
Close Scope Q_scope.

Set Implicit Arguments.

(** ** Python strings: sequences of Unicode code points *)

Module PyStr.
Local Open Scope N_scope.

Definition char := N.
Definition pystr := list char.

(** String literals of this file are UTF-8 in the source text; a Python
    [str] holds the decoded code points. *)
Definition byte_list (s : string) : list N :=
  map N_of_ascii (list_ascii_of_string s).

Fixpoint decode_utf8 (bs : list N) : pystr :=
  match bs with
  | [] => []
  | b0 :: r0 =>
    if (b0 <? 128)%N then b0 :: decode_utf8 r0
    else if (b0 <? 224)%N then
      match r0 with
      | b1 :: r1 => ((b0 mod 32) * 64 + b1 mod 64)%N :: decode_utf8 r1
      | _ => []
      end
    else if (b0 <? 240)%N then
      match r0 with
      | b1 :: b2 :: r2 =>
        ((b0 mod 16) * 4096 + (b1 mod 64) * 64 + b2 mod 64)%N :: decode_utf8 r2
      | _ => []
      end
    else
      match r0 with
      | b1 :: b2 :: b3 :: r3 =>
        ((b0 mod 8) * 262144 + (b1 mod 64) * 4096 + (b2 mod 64) * 64 + b3 mod 64)%N
          :: decode_utf8 r3
      | _ => []
      end
  end.

Definition py (s : string) : pystr := decode_utf8 (byte_list s).

Definition chr (a : ascii) : char := N_of_ascii a.

Definition in_range (lo hi c : char) : bool := ((lo <=? c) && (c <=? hi))%N.

Definition str_eqb (a b : pystr) : bool :=
  if list_eq_dec N.eq_dec a b then true else false.

(** *** Character database

    The tables of CPython's [unicodetype_db.h]. *)

(** [Py_UNICODE_ISSPACE]: what [\s] matches in a [str] pattern and what
    [str.strip()] removes. *)
Definition uni_isspace (c : char) : bool :=
  in_range 9 13 c || in_range 28 32 c || (c =? 133)%N || (c =? 160)%N
  || (c =? 5760)%N || in_range 8192 8202 c || (c =? 8232)%N || (c =? 8233)%N
  || (c =? 8239)%N || (c =? 8287)%N || (c =? 12288)%N.

(** First code point of every run of ten decimal digits (category Nd,
    Unicode 15). *)
Definition decimal_zeros : list char :=
  [ 0x30; 0x660; 0x6F0; 0x7C0; 0x966; 0x9E6; 0xA66; 0xAE6; 0xB66; 0xBE6;
    0xC66; 0xCE6; 0xD66; 0xDE6; 0xE50; 0xED0; 0xF20; 0x1040; 0x1090; 0x17E0;
    0x1810; 0x1946; 0x19D0; 0x1A80; 0x1A90; 0x1B50; 0x1BB0; 0x1C40; 0x1C50;
    0xA620; 0xA8D0; 0xA900; 0xA9D0; 0xA9F0; 0xAA50; 0xABF0; 0xFF10; 0x104A0;
    0x10D30; 0x11066; 0x110F0; 0x11136; 0x111D0; 0x112F0; 0x11450; 0x114D0;
    0x11650; 0x116C0; 0x11730; 0x118E0; 0x11950; 0x11C50; 0x11D50; 0x11DA0;
    0x11F50; 0x16A60; 0x16AC0; 0x16B50; 0x1D7CE; 0x1D7D8; 0x1D7E2; 0x1D7EC;
    0x1D7F6; 0x1E140; 0x1E2F0; 0x1E4F0; 0x1E950; 0x1FBF0 ]%N.

(** [Py_UNICODE_TODECIMAL]: the digit value of a decimal digit. *)
Fixpoint decimal_in (zeros : list char) (c : char) : option N :=
  match zeros with
  | [] => None
  | z :: zs => if in_range z (z + 9) c then Some (c - z)%N else decimal_in zs c
  end.

Definition uni_todecimal (c : char) : option N := decimal_in decimal_zeros c.

(** [Py_UNICODE_ISDECIMAL]: what [\d] matches in a [str] pattern. *)
Definition uni_isdecimal (c : char) : bool :=
  match uni_todecimal c with Some _ => true | None => false end.

(** Digits that are not decimal digits (superscripts, circled digits, ...). *)
Definition other_digit_ranges : list (char * char) :=
  [ (0xB2, 0xB3); (0xB9, 0xB9); (0x1369, 0x1371); (0x19DA, 0x19DA);
    (0x2070, 0x2070); (0x2074, 0x2079); (0x2080, 0x2089); (0x2460, 0x2468);
    (0x2474, 0x247C); (0x2488, 0x2490); (0x24EA, 0x24EA); (0x24F5, 0x24FD);
    (0x24FF, 0x24FF); (0x2776, 0x277E); (0x2780, 0x2788); (0x278A, 0x2792);
    (0x10A40, 0x10A43); (0x10E60, 0x10E68); (0x11052, 0x1105A);
    (0x1F100, 0x1F10A) ]%N.

(** [Py_UNICODE_ISDIGIT], one character of [str.isdigit()]. *)
Definition uni_isdigit (c : char) : bool :=
  uni_isdecimal c || existsb (fun r => in_range (fst r) (snd r) c) other_digit_ranges.

(** [str.isdigit()]: non-empty and every character a digit. *)
Definition isdigit (s : pystr) : bool :=
  match s with [] => false | _ => forallb uni_isdigit s end.

(** [str.upper()], character by character.  The table lists every
    character whose upper-case form contains an ASCII character; the
    upper-case form of any other character is made of non-ASCII characters
    only, and the model leaves such a character in place (the code only
    ever deletes them afterwards). *)
Definition upper_char (c : char) : pystr :=
  if in_range 97 122 c then [(c - 32)%N]
  else if (c =? 0xDF)%N then py "SS"
  else if (c =? 0x131)%N then py "I"
  else if (c =? 0x17F)%N then py "S"
  else if (c =? 0x149)%N then [0x2BC; 78]%N
  else if (c =? 0x1F0)%N then [74; 0x30C]%N
  else if (c =? 0x1E96)%N then [72; 0x331]%N
  else if (c =? 0x1E97)%N then [84; 0x308]%N
  else if (c =? 0x1E98)%N then [87; 0x30A]%N
  else if (c =? 0x1E99)%N then [89; 0x30A]%N
  else if (c =? 0x1E9A)%N then [65; 0x2BE]%N
  else if (c =? 0xFB00)%N then py "FF"
  else if (c =? 0xFB01)%N then py "FI"
  else if (c =? 0xFB02)%N then py "FL"
  else if (c =? 0xFB03)%N then py "FFI"
  else if (c =? 0xFB04)%N then py "FFL"
  else if (c =? 0xFB05)%N then py "ST"
  else if (c =? 0xFB06)%N then py "ST"
  else [c].

Definition upper (s : pystr) : pystr := flat_map upper_char s.

(** [str.lower()] (the case tables of Unicode 14, as in CPython 3.11).

    [lower_runs] lists the characters that have a lower-case form of their
    own: [(lo, hi, step, lo')] maps [lo], [lo + step], ..., [hi] to [lo'],
    [lo' + step], ...  U+0130 is the one character whose lower-case form has
    two characters.  The lower-case form of U+03A3 depends on its
    neighbours, see [final_sigma]. *)
Definition lower_runs : list (char * char * N * char) :=
  [
    (0x41, 0x5A, 1, 0x61); (0xC0, 0xD6, 1, 0xE0); (0xD8, 0xDE, 1, 0xF8);
    (0x100, 0x12E, 2, 0x101); (0x132, 0x136, 2, 0x133);
    (0x139, 0x147, 2, 0x13A); (0x14A, 0x176, 2, 0x14B);
    (0x178, 0x178, 1, 0xFF); (0x179, 0x17D, 2, 0x17A);
    (0x181, 0x181, 1, 0x253); (0x182, 0x184, 2, 0x183);
    (0x186, 0x186, 1, 0x254); (0x187, 0x187, 1, 0x188);
    (0x189, 0x18A, 1, 0x256); (0x18B, 0x18B, 1, 0x18C);
    (0x18E, 0x18E, 1, 0x1DD); (0x18F, 0x18F, 1, 0x259);
    (0x190, 0x190, 1, 0x25B); (0x191, 0x191, 1, 0x192);
    (0x193, 0x193, 1, 0x260); (0x194, 0x194, 1, 0x263);
    (0x196, 0x196, 1, 0x269); (0x197, 0x197, 1, 0x268);
    (0x198, 0x198, 1, 0x199); (0x19C, 0x19C, 1, 0x26F);
    (0x19D, 0x19D, 1, 0x272); (0x19F, 0x19F, 1, 0x275);
    (0x1A0, 0x1A4, 2, 0x1A1); (0x1A6, 0x1A6, 1, 0x280);
    (0x1A7, 0x1A7, 1, 0x1A8); (0x1A9, 0x1A9, 1, 0x283);
    (0x1AC, 0x1AC, 1, 0x1AD); (0x1AE, 0x1AE, 1, 0x288);
    (0x1AF, 0x1AF, 1, 0x1B0); (0x1B1, 0x1B2, 1, 0x28A);
    (0x1B3, 0x1B5, 2, 0x1B4); (0x1B7, 0x1B7, 1, 0x292);
    (0x1B8, 0x1B8, 1, 0x1B9); (0x1BC, 0x1BC, 1, 0x1BD);
    (0x1C4, 0x1C4, 1, 0x1C6); (0x1C5, 0x1C5, 1, 0x1C6);
    (0x1C7, 0x1C7, 1, 0x1C9); (0x1C8, 0x1C8, 1, 0x1C9);
    (0x1CA, 0x1CA, 1, 0x1CC); (0x1CB, 0x1DB, 2, 0x1CC);
    (0x1DE, 0x1EE, 2, 0x1DF); (0x1F1, 0x1F1, 1, 0x1F3);
    (0x1F2, 0x1F4, 2, 0x1F3); (0x1F6, 0x1F6, 1, 0x195);
    (0x1F7, 0x1F7, 1, 0x1BF); (0x1F8, 0x21E, 2, 0x1F9);
    (0x220, 0x220, 1, 0x19E); (0x222, 0x232, 2, 0x223);
    (0x23A, 0x23A, 1, 0x2C65); (0x23B, 0x23B, 1, 0x23C);
    (0x23D, 0x23D, 1, 0x19A); (0x23E, 0x23E, 1, 0x2C66);
    (0x241, 0x241, 1, 0x242); (0x243, 0x243, 1, 0x180);
    (0x244, 0x244, 1, 0x289); (0x245, 0x245, 1, 0x28C);
    (0x246, 0x24E, 2, 0x247); (0x370, 0x372, 2, 0x371);
    (0x376, 0x376, 1, 0x377); (0x37F, 0x37F, 1, 0x3F3);
    (0x386, 0x386, 1, 0x3AC); (0x388, 0x38A, 1, 0x3AD);
    (0x38C, 0x38C, 1, 0x3CC); (0x38E, 0x38F, 1, 0x3CD);
    (0x391, 0x3A1, 1, 0x3B1); (0x3A3, 0x3AB, 1, 0x3C3);
    (0x3CF, 0x3CF, 1, 0x3D7); (0x3D8, 0x3EE, 2, 0x3D9);
    (0x3F4, 0x3F4, 1, 0x3B8); (0x3F7, 0x3F7, 1, 0x3F8);
    (0x3F9, 0x3F9, 1, 0x3F2); (0x3FA, 0x3FA, 1, 0x3FB);
    (0x3FD, 0x3FF, 1, 0x37B); (0x400, 0x40F, 1, 0x450);
    (0x410, 0x42F, 1, 0x430); (0x460, 0x480, 2, 0x461);
    (0x48A, 0x4BE, 2, 0x48B); (0x4C0, 0x4C0, 1, 0x4CF);
    (0x4C1, 0x4CD, 2, 0x4C2); (0x4D0, 0x52E, 2, 0x4D1);
    (0x531, 0x556, 1, 0x561); (0x10A0, 0x10C5, 1, 0x2D00);
    (0x10C7, 0x10C7, 1, 0x2D27); (0x10CD, 0x10CD, 1, 0x2D2D);
    (0x13A0, 0x13EF, 1, 0xAB70); (0x13F0, 0x13F5, 1, 0x13F8);
    (0x1C90, 0x1CBA, 1, 0x10D0); (0x1CBD, 0x1CBF, 1, 0x10FD);
    (0x1E00, 0x1E94, 2, 0x1E01); (0x1E9E, 0x1E9E, 1, 0xDF);
    (0x1EA0, 0x1EFE, 2, 0x1EA1); (0x1F08, 0x1F0F, 1, 0x1F00);
    (0x1F18, 0x1F1D, 1, 0x1F10); (0x1F28, 0x1F2F, 1, 0x1F20);
    (0x1F38, 0x1F3F, 1, 0x1F30); (0x1F48, 0x1F4D, 1, 0x1F40);
    (0x1F59, 0x1F5F, 2, 0x1F51); (0x1F68, 0x1F6F, 1, 0x1F60);
    (0x1F88, 0x1F8F, 1, 0x1F80); (0x1F98, 0x1F9F, 1, 0x1F90);
    (0x1FA8, 0x1FAF, 1, 0x1FA0); (0x1FB8, 0x1FB9, 1, 0x1FB0);
    (0x1FBA, 0x1FBB, 1, 0x1F70); (0x1FBC, 0x1FBC, 1, 0x1FB3);
    (0x1FC8, 0x1FCB, 1, 0x1F72); (0x1FCC, 0x1FCC, 1, 0x1FC3);
    (0x1FD8, 0x1FD9, 1, 0x1FD0); (0x1FDA, 0x1FDB, 1, 0x1F76);
    (0x1FE8, 0x1FE9, 1, 0x1FE0); (0x1FEA, 0x1FEB, 1, 0x1F7A);
    (0x1FEC, 0x1FEC, 1, 0x1FE5); (0x1FF8, 0x1FF9, 1, 0x1F78);
    (0x1FFA, 0x1FFB, 1, 0x1F7C); (0x1FFC, 0x1FFC, 1, 0x1FF3);
    (0x2126, 0x2126, 1, 0x3C9); (0x212A, 0x212A, 1, 0x6B);
    (0x212B, 0x212B, 1, 0xE5); (0x2132, 0x2132, 1, 0x214E);
    (0x2160, 0x216F, 1, 0x2170); (0x2183, 0x2183, 1, 0x2184);
    (0x24B6, 0x24CF, 1, 0x24D0); (0x2C00, 0x2C2F, 1, 0x2C30);
    (0x2C60, 0x2C60, 1, 0x2C61); (0x2C62, 0x2C62, 1, 0x26B);
    (0x2C63, 0x2C63, 1, 0x1D7D); (0x2C64, 0x2C64, 1, 0x27D);
    (0x2C67, 0x2C6B, 2, 0x2C68); (0x2C6D, 0x2C6D, 1, 0x251);
    (0x2C6E, 0x2C6E, 1, 0x271); (0x2C6F, 0x2C6F, 1, 0x250);
    (0x2C70, 0x2C70, 1, 0x252); (0x2C72, 0x2C72, 1, 0x2C73);
    (0x2C75, 0x2C75, 1, 0x2C76); (0x2C7E, 0x2C7F, 1, 0x23F);
    (0x2C80, 0x2CE2, 2, 0x2C81); (0x2CEB, 0x2CED, 2, 0x2CEC);
    (0x2CF2, 0x2CF2, 1, 0x2CF3); (0xA640, 0xA66C, 2, 0xA641);
    (0xA680, 0xA69A, 2, 0xA681); (0xA722, 0xA72E, 2, 0xA723);
    (0xA732, 0xA76E, 2, 0xA733); (0xA779, 0xA77B, 2, 0xA77A);
    (0xA77D, 0xA77D, 1, 0x1D79); (0xA77E, 0xA786, 2, 0xA77F);
    (0xA78B, 0xA78B, 1, 0xA78C); (0xA78D, 0xA78D, 1, 0x265);
    (0xA790, 0xA792, 2, 0xA791); (0xA796, 0xA7A8, 2, 0xA797);
    (0xA7AA, 0xA7AA, 1, 0x266); (0xA7AB, 0xA7AB, 1, 0x25C);
    (0xA7AC, 0xA7AC, 1, 0x261); (0xA7AD, 0xA7AD, 1, 0x26C);
    (0xA7AE, 0xA7AE, 1, 0x26A); (0xA7B0, 0xA7B0, 1, 0x29E);
    (0xA7B1, 0xA7B1, 1, 0x287); (0xA7B2, 0xA7B2, 1, 0x29D);
    (0xA7B3, 0xA7B3, 1, 0xAB53); (0xA7B4, 0xA7C2, 2, 0xA7B5);
    (0xA7C4, 0xA7C4, 1, 0xA794); (0xA7C5, 0xA7C5, 1, 0x282);
    (0xA7C6, 0xA7C6, 1, 0x1D8E); (0xA7C7, 0xA7C9, 2, 0xA7C8);
    (0xA7D0, 0xA7D0, 1, 0xA7D1); (0xA7D6, 0xA7D8, 2, 0xA7D7);
    (0xA7F5, 0xA7F5, 1, 0xA7F6); (0xFF21, 0xFF3A, 1, 0xFF41);
    (0x10400, 0x10427, 1, 0x10428); (0x104B0, 0x104D3, 1, 0x104D8);
    (0x10570, 0x1057A, 1, 0x10597); (0x1057C, 0x1058A, 1, 0x105A3);
    (0x1058C, 0x10592, 1, 0x105B3); (0x10594, 0x10595, 1, 0x105BB);
    (0x10C80, 0x10CB2, 1, 0x10CC0); (0x118A0, 0x118BF, 1, 0x118C0);
    (0x16E40, 0x16E5F, 1, 0x16E60); (0x1E900, 0x1E921, 1, 0x1E922) ]%N.

Fixpoint lower_in (runs : list (char * char * N * char)) (c : char) : option char :=
  match runs with
  | [] => None
  | (lo, hi, step, lo') :: runs' =>
    if in_range lo hi c && ((c - lo) mod step =? 0) then Some (lo' + (c - lo))
    else lower_in runs' c
  end.

Definition lower_char (c : char) : pystr :=
  if c =? 0x130 then [105; 0x307]
  else match lower_in lower_runs c with
       | Some l => [l]
       | None => [c]
       end.

(** [_PyUnicode_IsCased]: the characters with the property Cased. *)
Definition cased_ranges : list (char * char) :=
  [
    (0x41, 0x5A); (0x61, 0x7A); (0xAA, 0xAA); (0xB5, 0xB5); (0xBA, 0xBA);
    (0xC0, 0xD6); (0xD8, 0xF6); (0xF8, 0x1BA); (0x1BC, 0x1BF);
    (0x1C4, 0x293); (0x295, 0x2B8); (0x2C0, 0x2C1); (0x2E0, 0x2E4);
    (0x345, 0x345); (0x370, 0x373); (0x376, 0x377); (0x37A, 0x37D);
    (0x37F, 0x37F); (0x386, 0x386); (0x388, 0x38A); (0x38C, 0x38C);
    (0x38E, 0x3A1); (0x3A3, 0x3F5); (0x3F7, 0x481); (0x48A, 0x52F);
    (0x531, 0x556); (0x560, 0x588); (0x10A0, 0x10C5); (0x10C7, 0x10C7);
    (0x10CD, 0x10CD); (0x10D0, 0x10FA); (0x10FD, 0x10FF); (0x13A0, 0x13F5);
    (0x13F8, 0x13FD); (0x1C80, 0x1C88); (0x1C90, 0x1CBA); (0x1CBD, 0x1CBF);
    (0x1D00, 0x1DBF); (0x1E00, 0x1F15); (0x1F18, 0x1F1D); (0x1F20, 0x1F45);
    (0x1F48, 0x1F4D); (0x1F50, 0x1F57); (0x1F59, 0x1F59); (0x1F5B, 0x1F5B);
    (0x1F5D, 0x1F5D); (0x1F5F, 0x1F7D); (0x1F80, 0x1FB4); (0x1FB6, 0x1FBC);
    (0x1FBE, 0x1FBE); (0x1FC2, 0x1FC4); (0x1FC6, 0x1FCC); (0x1FD0, 0x1FD3);
    (0x1FD6, 0x1FDB); (0x1FE0, 0x1FEC); (0x1FF2, 0x1FF4); (0x1FF6, 0x1FFC);
    (0x2071, 0x2071); (0x207F, 0x207F); (0x2090, 0x209C); (0x2102, 0x2102);
    (0x2107, 0x2107); (0x210A, 0x2113); (0x2115, 0x2115); (0x2119, 0x211D);
    (0x2124, 0x2124); (0x2126, 0x2126); (0x2128, 0x2128); (0x212A, 0x212D);
    (0x212F, 0x2134); (0x2139, 0x2139); (0x213C, 0x213F); (0x2145, 0x2149);
    (0x214E, 0x214E); (0x2160, 0x217F); (0x2183, 0x2184); (0x24B6, 0x24E9);
    (0x2C00, 0x2CE4); (0x2CEB, 0x2CEE); (0x2CF2, 0x2CF3); (0x2D00, 0x2D25);
    (0x2D27, 0x2D27); (0x2D2D, 0x2D2D); (0xA640, 0xA66D); (0xA680, 0xA69D);
    (0xA722, 0xA787); (0xA78B, 0xA78E); (0xA790, 0xA7CA); (0xA7D0, 0xA7D1);
    (0xA7D3, 0xA7D3); (0xA7D5, 0xA7D9); (0xA7F5, 0xA7F6); (0xA7F8, 0xA7FA);
    (0xAB30, 0xAB5A); (0xAB5C, 0xAB68); (0xAB70, 0xABBF); (0xFB00, 0xFB06);
    (0xFB13, 0xFB17); (0xFF21, 0xFF3A); (0xFF41, 0xFF5A); (0x10400, 0x1044F);
    (0x104B0, 0x104D3); (0x104D8, 0x104FB); (0x10570, 0x1057A);
    (0x1057C, 0x1058A); (0x1058C, 0x10592); (0x10594, 0x10595);
    (0x10597, 0x105A1); (0x105A3, 0x105B1); (0x105B3, 0x105B9);
    (0x105BB, 0x105BC); (0x10780, 0x10780); (0x10783, 0x10785);
    (0x10787, 0x107B0); (0x107B2, 0x107BA); (0x10C80, 0x10CB2);
    (0x10CC0, 0x10CF2); (0x118A0, 0x118DF); (0x16E40, 0x16E7F);
    (0x1D400, 0x1D454); (0x1D456, 0x1D49C); (0x1D49E, 0x1D49F);
    (0x1D4A2, 0x1D4A2); (0x1D4A5, 0x1D4A6); (0x1D4A9, 0x1D4AC);
    (0x1D4AE, 0x1D4B9); (0x1D4BB, 0x1D4BB); (0x1D4BD, 0x1D4C3);
    (0x1D4C5, 0x1D505); (0x1D507, 0x1D50A); (0x1D50D, 0x1D514);
    (0x1D516, 0x1D51C); (0x1D51E, 0x1D539); (0x1D53B, 0x1D53E);
    (0x1D540, 0x1D544); (0x1D546, 0x1D546); (0x1D54A, 0x1D550);
    (0x1D552, 0x1D6A5); (0x1D6A8, 0x1D6C0); (0x1D6C2, 0x1D6DA);
    (0x1D6DC, 0x1D6FA); (0x1D6FC, 0x1D714); (0x1D716, 0x1D734);
    (0x1D736, 0x1D74E); (0x1D750, 0x1D76E); (0x1D770, 0x1D788);
    (0x1D78A, 0x1D7A8); (0x1D7AA, 0x1D7C2); (0x1D7C4, 0x1D7CB);
    (0x1DF00, 0x1DF09); (0x1DF0B, 0x1DF1E); (0x1E900, 0x1E943);
    (0x1F130, 0x1F149); (0x1F150, 0x1F169); (0x1F170, 0x1F189) ]%N.

Definition cased (c : char) : bool :=
  existsb (fun r => in_range (fst r) (snd r) c) cased_ranges.

(** [_PyUnicode_IsCaseIgnorable]: the characters with the property
    Case_Ignorable. *)
Definition case_ignorable_ranges : list (char * char) :=
  [
    (0x27, 0x27); (0x2E, 0x2E); (0x3A, 0x3A); (0x5E, 0x5E); (0x60, 0x60);
    (0xA8, 0xA8); (0xAD, 0xAD); (0xAF, 0xAF); (0xB4, 0xB4); (0xB7, 0xB8);
    (0x2B0, 0x36F); (0x374, 0x375); (0x37A, 0x37A); (0x384, 0x385);
    (0x387, 0x387); (0x483, 0x489); (0x559, 0x559); (0x55F, 0x55F);
    (0x591, 0x5BD); (0x5BF, 0x5BF); (0x5C1, 0x5C2); (0x5C4, 0x5C5);
    (0x5C7, 0x5C7); (0x5F4, 0x5F4); (0x600, 0x605); (0x610, 0x61A);
    (0x61C, 0x61C); (0x640, 0x640); (0x64B, 0x65F); (0x670, 0x670);
    (0x6D6, 0x6DD); (0x6DF, 0x6E8); (0x6EA, 0x6ED); (0x70F, 0x70F);
    (0x711, 0x711); (0x730, 0x74A); (0x7A6, 0x7B0); (0x7EB, 0x7F5);
    (0x7FA, 0x7FA); (0x7FD, 0x7FD); (0x816, 0x82D); (0x859, 0x85B);
    (0x888, 0x888); (0x890, 0x891); (0x898, 0x89F); (0x8C9, 0x902);
    (0x93A, 0x93A); (0x93C, 0x93C); (0x941, 0x948); (0x94D, 0x94D);
    (0x951, 0x957); (0x962, 0x963); (0x971, 0x971); (0x981, 0x981);
    (0x9BC, 0x9BC); (0x9C1, 0x9C4); (0x9CD, 0x9CD); (0x9E2, 0x9E3);
    (0x9FE, 0x9FE); (0xA01, 0xA02); (0xA3C, 0xA3C); (0xA41, 0xA42);
    (0xA47, 0xA48); (0xA4B, 0xA4D); (0xA51, 0xA51); (0xA70, 0xA71);
    (0xA75, 0xA75); (0xA81, 0xA82); (0xABC, 0xABC); (0xAC1, 0xAC5);
    (0xAC7, 0xAC8); (0xACD, 0xACD); (0xAE2, 0xAE3); (0xAFA, 0xAFF);
    (0xB01, 0xB01); (0xB3C, 0xB3C); (0xB3F, 0xB3F); (0xB41, 0xB44);
    (0xB4D, 0xB4D); (0xB55, 0xB56); (0xB62, 0xB63); (0xB82, 0xB82);
    (0xBC0, 0xBC0); (0xBCD, 0xBCD); (0xC00, 0xC00); (0xC04, 0xC04);
    (0xC3C, 0xC3C); (0xC3E, 0xC40); (0xC46, 0xC48); (0xC4A, 0xC4D);
    (0xC55, 0xC56); (0xC62, 0xC63); (0xC81, 0xC81); (0xCBC, 0xCBC);
    (0xCBF, 0xCBF); (0xCC6, 0xCC6); (0xCCC, 0xCCD); (0xCE2, 0xCE3);
    (0xD00, 0xD01); (0xD3B, 0xD3C); (0xD41, 0xD44); (0xD4D, 0xD4D);
    (0xD62, 0xD63); (0xD81, 0xD81); (0xDCA, 0xDCA); (0xDD2, 0xDD4);
    (0xDD6, 0xDD6); (0xE31, 0xE31); (0xE34, 0xE3A); (0xE46, 0xE4E);
    (0xEB1, 0xEB1); (0xEB4, 0xEBC); (0xEC6, 0xEC6); (0xEC8, 0xECD);
    (0xF18, 0xF19); (0xF35, 0xF35); (0xF37, 0xF37); (0xF39, 0xF39);
    (0xF71, 0xF7E); (0xF80, 0xF84); (0xF86, 0xF87); (0xF8D, 0xF97);
    (0xF99, 0xFBC); (0xFC6, 0xFC6); (0x102D, 0x1030); (0x1032, 0x1037);
    (0x1039, 0x103A); (0x103D, 0x103E); (0x1058, 0x1059); (0x105E, 0x1060);
    (0x1071, 0x1074); (0x1082, 0x1082); (0x1085, 0x1086); (0x108D, 0x108D);
    (0x109D, 0x109D); (0x10FC, 0x10FC); (0x135D, 0x135F); (0x1712, 0x1714);
    (0x1732, 0x1733); (0x1752, 0x1753); (0x1772, 0x1773); (0x17B4, 0x17B5);
    (0x17B7, 0x17BD); (0x17C6, 0x17C6); (0x17C9, 0x17D3); (0x17D7, 0x17D7);
    (0x17DD, 0x17DD); (0x180B, 0x180F); (0x1843, 0x1843); (0x1885, 0x1886);
    (0x18A9, 0x18A9); (0x1920, 0x1922); (0x1927, 0x1928); (0x1932, 0x1932);
    (0x1939, 0x193B); (0x1A17, 0x1A18); (0x1A1B, 0x1A1B); (0x1A56, 0x1A56);
    (0x1A58, 0x1A5E); (0x1A60, 0x1A60); (0x1A62, 0x1A62); (0x1A65, 0x1A6C);
    (0x1A73, 0x1A7C); (0x1A7F, 0x1A7F); (0x1AA7, 0x1AA7); (0x1AB0, 0x1ACE);
    (0x1B00, 0x1B03); (0x1B34, 0x1B34); (0x1B36, 0x1B3A); (0x1B3C, 0x1B3C);
    (0x1B42, 0x1B42); (0x1B6B, 0x1B73); (0x1B80, 0x1B81); (0x1BA2, 0x1BA5);
    (0x1BA8, 0x1BA9); (0x1BAB, 0x1BAD); (0x1BE6, 0x1BE6); (0x1BE8, 0x1BE9);
    (0x1BED, 0x1BED); (0x1BEF, 0x1BF1); (0x1C2C, 0x1C33); (0x1C36, 0x1C37);
    (0x1C78, 0x1C7D); (0x1CD0, 0x1CD2); (0x1CD4, 0x1CE0); (0x1CE2, 0x1CE8);
    (0x1CED, 0x1CED); (0x1CF4, 0x1CF4); (0x1CF8, 0x1CF9); (0x1D2C, 0x1D6A);
    (0x1D78, 0x1D78); (0x1D9B, 0x1DFF); (0x1FBD, 0x1FBD); (0x1FBF, 0x1FC1);
    (0x1FCD, 0x1FCF); (0x1FDD, 0x1FDF); (0x1FED, 0x1FEF); (0x1FFD, 0x1FFE);
    (0x200B, 0x200F); (0x2018, 0x2019); (0x2024, 0x2024); (0x2027, 0x2027);
    (0x202A, 0x202E); (0x2060, 0x2064); (0x2066, 0x206F); (0x2071, 0x2071);
    (0x207F, 0x207F); (0x2090, 0x209C); (0x20D0, 0x20F0); (0x2C7C, 0x2C7D);
    (0x2CEF, 0x2CF1); (0x2D6F, 0x2D6F); (0x2D7F, 0x2D7F); (0x2DE0, 0x2DFF);
    (0x2E2F, 0x2E2F); (0x3005, 0x3005); (0x302A, 0x302D); (0x3031, 0x3035);
    (0x303B, 0x303B); (0x3099, 0x309E); (0x30FC, 0x30FE); (0xA015, 0xA015);
    (0xA4F8, 0xA4FD); (0xA60C, 0xA60C); (0xA66F, 0xA672); (0xA674, 0xA67D);
    (0xA67F, 0xA67F); (0xA69C, 0xA69F); (0xA6F0, 0xA6F1); (0xA700, 0xA721);
    (0xA770, 0xA770); (0xA788, 0xA78A); (0xA7F2, 0xA7F4); (0xA7F8, 0xA7F9);
    (0xA802, 0xA802); (0xA806, 0xA806); (0xA80B, 0xA80B); (0xA825, 0xA826);
    (0xA82C, 0xA82C); (0xA8C4, 0xA8C5); (0xA8E0, 0xA8F1); (0xA8FF, 0xA8FF);
    (0xA926, 0xA92D); (0xA947, 0xA951); (0xA980, 0xA982); (0xA9B3, 0xA9B3);
    (0xA9B6, 0xA9B9); (0xA9BC, 0xA9BD); (0xA9CF, 0xA9CF); (0xA9E5, 0xA9E6);
    (0xAA29, 0xAA2E); (0xAA31, 0xAA32); (0xAA35, 0xAA36); (0xAA43, 0xAA43);
    (0xAA4C, 0xAA4C); (0xAA70, 0xAA70); (0xAA7C, 0xAA7C); (0xAAB0, 0xAAB0);
    (0xAAB2, 0xAAB4); (0xAAB7, 0xAAB8); (0xAABE, 0xAABF); (0xAAC1, 0xAAC1);
    (0xAADD, 0xAADD); (0xAAEC, 0xAAED); (0xAAF3, 0xAAF4); (0xAAF6, 0xAAF6);
    (0xAB5B, 0xAB5F); (0xAB69, 0xAB6B); (0xABE5, 0xABE5); (0xABE8, 0xABE8);
    (0xABED, 0xABED); (0xFB1E, 0xFB1E); (0xFBB2, 0xFBC2); (0xFE00, 0xFE0F);
    (0xFE13, 0xFE13); (0xFE20, 0xFE2F); (0xFE52, 0xFE52); (0xFE55, 0xFE55);
    (0xFEFF, 0xFEFF); (0xFF07, 0xFF07); (0xFF0E, 0xFF0E); (0xFF1A, 0xFF1A);
    (0xFF3E, 0xFF3E); (0xFF40, 0xFF40); (0xFF70, 0xFF70); (0xFF9E, 0xFF9F);
    (0xFFE3, 0xFFE3); (0xFFF9, 0xFFFB); (0x101FD, 0x101FD);
    (0x102E0, 0x102E0); (0x10376, 0x1037A); (0x10780, 0x10785);
    (0x10787, 0x107B0); (0x107B2, 0x107BA); (0x10A01, 0x10A03);
    (0x10A05, 0x10A06); (0x10A0C, 0x10A0F); (0x10A38, 0x10A3A);
    (0x10A3F, 0x10A3F); (0x10AE5, 0x10AE6); (0x10D24, 0x10D27);
    (0x10EAB, 0x10EAC); (0x10F46, 0x10F50); (0x10F82, 0x10F85);
    (0x11001, 0x11001); (0x11038, 0x11046); (0x11070, 0x11070);
    (0x11073, 0x11074); (0x1107F, 0x11081); (0x110B3, 0x110B6);
    (0x110B9, 0x110BA); (0x110BD, 0x110BD); (0x110C2, 0x110C2);
    (0x110CD, 0x110CD); (0x11100, 0x11102); (0x11127, 0x1112B);
    (0x1112D, 0x11134); (0x11173, 0x11173); (0x11180, 0x11181);
    (0x111B6, 0x111BE); (0x111C9, 0x111CC); (0x111CF, 0x111CF);
    (0x1122F, 0x11231); (0x11234, 0x11234); (0x11236, 0x11237);
    (0x1123E, 0x1123E); (0x112DF, 0x112DF); (0x112E3, 0x112EA);
    (0x11300, 0x11301); (0x1133B, 0x1133C); (0x11340, 0x11340);
    (0x11366, 0x1136C); (0x11370, 0x11374); (0x11438, 0x1143F);
    (0x11442, 0x11444); (0x11446, 0x11446); (0x1145E, 0x1145E);
    (0x114B3, 0x114B8); (0x114BA, 0x114BA); (0x114BF, 0x114C0);
    (0x114C2, 0x114C3); (0x115B2, 0x115B5); (0x115BC, 0x115BD);
    (0x115BF, 0x115C0); (0x115DC, 0x115DD); (0x11633, 0x1163A);
    (0x1163D, 0x1163D); (0x1163F, 0x11640); (0x116AB, 0x116AB);
    (0x116AD, 0x116AD); (0x116B0, 0x116B5); (0x116B7, 0x116B7);
    (0x1171D, 0x1171F); (0x11722, 0x11725); (0x11727, 0x1172B);
    (0x1182F, 0x11837); (0x11839, 0x1183A); (0x1193B, 0x1193C);
    (0x1193E, 0x1193E); (0x11943, 0x11943); (0x119D4, 0x119D7);
    (0x119DA, 0x119DB); (0x119E0, 0x119E0); (0x11A01, 0x11A0A);
    (0x11A33, 0x11A38); (0x11A3B, 0x11A3E); (0x11A47, 0x11A47);
    (0x11A51, 0x11A56); (0x11A59, 0x11A5B); (0x11A8A, 0x11A96);
    (0x11A98, 0x11A99); (0x11C30, 0x11C36); (0x11C38, 0x11C3D);
    (0x11C3F, 0x11C3F); (0x11C92, 0x11CA7); (0x11CAA, 0x11CB0);
    (0x11CB2, 0x11CB3); (0x11CB5, 0x11CB6); (0x11D31, 0x11D36);
    (0x11D3A, 0x11D3A); (0x11D3C, 0x11D3D); (0x11D3F, 0x11D45);
    (0x11D47, 0x11D47); (0x11D90, 0x11D91); (0x11D95, 0x11D95);
    (0x11D97, 0x11D97); (0x11EF3, 0x11EF4); (0x13430, 0x13438);
    (0x16AF0, 0x16AF4); (0x16B30, 0x16B36); (0x16B40, 0x16B43);
    (0x16F4F, 0x16F4F); (0x16F8F, 0x16F9F); (0x16FE0, 0x16FE1);
    (0x16FE3, 0x16FE4); (0x1AFF0, 0x1AFF3); (0x1AFF5, 0x1AFFB);
    (0x1AFFD, 0x1AFFE); (0x1BC9D, 0x1BC9E); (0x1BCA0, 0x1BCA3);
    (0x1CF00, 0x1CF2D); (0x1CF30, 0x1CF46); (0x1D167, 0x1D169);
    (0x1D173, 0x1D182); (0x1D185, 0x1D18B); (0x1D1AA, 0x1D1AD);
    (0x1D242, 0x1D244); (0x1DA00, 0x1DA36); (0x1DA3B, 0x1DA6C);
    (0x1DA75, 0x1DA75); (0x1DA84, 0x1DA84); (0x1DA9B, 0x1DA9F);
    (0x1DAA1, 0x1DAAF); (0x1E000, 0x1E006); (0x1E008, 0x1E018);
    (0x1E01B, 0x1E021); (0x1E023, 0x1E024); (0x1E026, 0x1E02A);
    (0x1E130, 0x1E13D); (0x1E2AE, 0x1E2AE); (0x1E2EC, 0x1E2EF);
    (0x1E8D0, 0x1E8D6); (0x1E944, 0x1E94B); (0x1F3FB, 0x1F3FF);
    (0xE0001, 0xE0001); (0xE0020, 0xE007F); (0xE0100, 0xE01EF) ]%N.

Definition case_ignorable (c : char) : bool :=
  existsb (fun r => in_range (fst r) (snd r) c) case_ignorable_ranges.

Fixpoint skip_ignorable (s : pystr) : pystr :=
  match s with
  | c :: s' => if case_ignorable c then skip_ignorable s' else s
  | [] => []
  end.

(** The first character that is not case-ignorable is there and is cased. *)
Definition cased_next (s : pystr) : bool :=
  match skip_ignorable s with
  | c :: _ => cased c
  | [] => false
  end.

(** [handle_capital_sigma]: U+03A3 ends a word when a cased character
    stands before it and none after it, case-ignorable characters apart;
    [before] is the text before it, nearest character first. *)
Definition final_sigma (before after : pystr) : bool :=
  cased_next before && negb (cased_next after).

Fixpoint lower_from (before s : pystr) : pystr :=
  match s with
  | [] => []
  | c :: s' =>
    (if c =? 0x3A3 then [if final_sigma before s' then 0x3C2 else 0x3C3]
     else lower_char c)
    ++ lower_from (c :: before) s'
  end.

Definition lower (s : pystr) : pystr := lower_from [] s.

(** [sub in s] for strings. *)
Fixpoint starts_with (p s : pystr) : bool :=
  match p, s with
  | [], _ => true
  | a :: p', b :: s' => (a =? b)%N && starts_with p' s'
  | _ :: _, [] => false
  end.

Fixpoint contains (sub s : pystr) : bool :=
  starts_with sub s ||
  match s with
  | [] => false
  | _ :: s' => contains sub s'
  end.

(** [s.replace(c, '')] for a one-character [c]. *)
Definition remove_char (c : char) (s : pystr) : pystr :=
  filter (fun x => negb (x =? c)%N) s.

(** [str.strip()]. *)
Fixpoint lstrip (s : pystr) : pystr :=
  match s with
  | c :: s' => if uni_isspace c then lstrip s' else s
  | [] => []
  end.

Definition strip (s : pystr) : pystr := rev (lstrip (rev (lstrip s))).

(** [s.split("\n")]. *)
Fixpoint split_lines_acc (cur : pystr) (s : pystr) : list pystr :=
  match s with
  | [] => [rev cur]
  | c :: s' =>
    if (c =? 10)%N then rev cur :: split_lines_acc [] s'
    else split_lines_acc (c :: cur) s'
  end.

Definition split_lines (s : pystr) : list pystr := split_lines_acc [] s.

End PyStr.
Import PyStr.


(** ** Exceptions and results

    A call either returns, raises, or (for the one [while] loop, which the
    model runs on fuel) is cut short. *)

Module Exc.

Inductive exn : Type :=
| ValueError
| KeyError
| IndexError
| AttributeError
| TypeError
| MergeError                 (* pandas.errors.MergeError *)
| LibraryError (code : N).   (* whatever pypdf or pandas raise on bad input *)

Inductive outcome (A : Type) : Type :=
| Ok (a : A)
| Raise (e : exn)
| OutOfFuel.

Arguments Ok {A} a.
Arguments Raise {A} e.
Arguments OutOfFuel {A}.

Definition bind {A B} (c : outcome A) (k : A -> outcome B) : outcome B :=
  match c with
  | Ok a => k a
  | Raise e => Raise e
  | OutOfFuel => OutOfFuel
  end.

(** [try: body / except: handler] (every [exn] of the model is an
    [Exception], so [except Exception] and a bare [except] agree). *)
Definition try_except {A} (body : outcome A) (handler : exn -> outcome A) : outcome A :=
  match body with
  | Raise e => handler e
  | o => o
  end.

(** A call into a library (pypdf, pandas): it returns or raises. *)
Definition call {A} (r : exn + A) : outcome A :=
  match r with
  | inl e => Raise e
  | inr a => Ok a
  end.

(** [xs[i]]. *)
Definition getitem {A} (xs : list A) (i : nat) : outcome A :=
  match nth_error xs i with
  | Some x => Ok x
  | None => Raise IndexError
  end.

(** A [for] loop whose body may raise, threading the loop state. *)
Fixpoint for_each {A S} (body : S -> A -> outcome S) (xs : list A) (st : S) : outcome S :=
  match xs with
  | [] => Ok st
  | x :: xs' => bind (body st x) (for_each body xs')
  end.

End Exc.
Import Exc.

Declare Scope py_scope.
Delimit Scope py_scope with py_.
Notation "x <- c ;; k" := (bind c (fun x => k))
  (at level 61, c at next level, right associativity) : py_scope.
Notation "' pat <- c ;; k" := (bind c (fun x => match x with pat => k end))
  (at level 61, pat pattern, c at next level, right associativity) : py_scope.
Open Scope py_scope.

(** ** Regular expressions: the backtracking matcher of [re]

    The fragment of the pattern language that [FINANCIAL_PATTERN] and the
    ticker clean-up use: character sets, literals, concatenation,
    alternation, greedy [?], greedy [*] and [+] over a character set, and
    numbered capturing groups.  The matcher tries alternatives in the order
    of [re] (longest repetition first, left alternative first, an optional
    part before its absence) and returns the first success. *)

Module Re.

Inductive citem : Type :=
| One (c : char)
| Range (lo hi : char)
| ClassD                       (* \d *)
| ClassS.                      (* \s *)

Record cset : Type := { negated : bool; items : list citem }.

Definition cls (l : list citem) : cset := {| negated := false; items := l |}.
Definition ncls (l : list citem) : cset := {| negated := true; items := l |}.
Definition chars (s : string) : list citem := map One (py s).

Definition citem_mem (it : citem) (c : char) : bool :=
  match it with
  | One x => (c =? x)%N
  | Range lo hi => in_range lo hi c
  | ClassD => uni_isdecimal c
  | ClassS => uni_isspace c
  end.

Definition cset_mem (cs : cset) (c : char) : bool :=
  xorb (negated cs) (existsb (fun it => citem_mem it c) (items cs)).

Inductive regex : Type :=
| Lit (s : pystr)
| Cls (cs : cset)
| Cat (r1 r2 : regex)
| Alt (r1 r2 : regex)
| Opt (r : regex)
| Star (cs : cset)
| Plus (cs : cset)
| Group (i : nat) (r : regex).

Definition groups := nat -> option pystr.
Definition no_groups : groups := fun _ => None.
Definition set_group (i : nat) (w : pystr) (g : groups) : groups :=
  fun j => if Nat.eqb j i then Some w else g j.

(** The text between the position [s] and the later position [s']. *)
Definition consumed (s s' : pystr) : pystr :=
  firstn (length s - length s') s.

Fixpoint greedy {A} (cs : cset) (s : pystr) (k : pystr -> option A) : option A :=
  match s with
  | c :: s' =>
    if cset_mem cs c then
      match greedy cs s' k with
      | Some a => Some a
      | None => k s
      end
    else k s
  | [] => k []
  end.

Fixpoint rmatch {A} (r : regex) (s : pystr) (g : groups)
         (k : pystr -> groups -> option A) : option A :=
  match r with
  | Lit p => if starts_with p s then k (skipn (length p) s) g else None
  | Cls cs =>
    match s with
    | c :: s' => if cset_mem cs c then k s' g else None
    | [] => None
    end
  | Cat r1 r2 => rmatch r1 s g (fun s' g' => rmatch r2 s' g' k)
  | Alt r1 r2 =>
    match rmatch r1 s g k with
    | Some a => Some a
    | None => rmatch r2 s g k
    end
  | Opt r1 =>
    match rmatch r1 s g k with
    | Some a => Some a
    | None => k s g
    end
  | Star cs => greedy cs s (fun s' => k s' g)
  | Plus cs =>
    match s with
    | c :: s' => if cset_mem cs c then greedy cs s' (fun s'' => k s'' g) else None
    | [] => None
    end
  | Group i r1 =>
    rmatch r1 s g (fun s' g' => k s' (set_group i (consumed s s') g'))
  end.

(** A compiled pattern and [Match.groups()]: groups are numbered from 1. *)
Record pattern : Type := { body : regex; ngroups : nat }.

Definition match_groups (n : nat) (g : groups) : list (option pystr) :=
  map g (seq 1 n).

(** [pattern.search(s)]: the first position at which the pattern matches. *)
Fixpoint search_from (r : regex) (n : nat) (s : pystr) : option (list (option pystr)) :=
  match rmatch r s no_groups (fun _ g => Some (match_groups n g)) with
  | Some m => Some m
  | None =>
    match s with
    | [] => None
    | _ :: s' => search_from r n s'
    end
  end.

Definition search (p : pattern) (s : pystr) : option (list (option pystr)) :=
  search_from (body p) (ngroups p) s.

(** [re.sub(cs, '', s)] for a one-character-set pattern [cs]. *)
Definition sub_delete (cs : cset) (s : pystr) : pystr :=
  filter (fun c => negb (cset_mem cs c)) s.

(** The language of a regex, for reasoning about what a match captured. *)
Inductive matches : regex -> pystr -> Prop :=
| MLit p : matches (Lit p) p
| MCls cs c : cset_mem cs c = true -> matches (Cls cs) [c]
| MCat r1 r2 w1 w2 : matches r1 w1 -> matches r2 w2 -> matches (Cat r1 r2) (w1 ++ w2)
| MAltL r1 r2 w : matches r1 w -> matches (Alt r1 r2) w
| MAltR r1 r2 w : matches r2 w -> matches (Alt r1 r2) w
| MOptSome r w : matches r w -> matches (Opt r) w
| MOptNone r : matches (Opt r) []
| MStar cs w : Forall (fun c => cset_mem cs c = true) w -> matches (Star cs) w
| MPlus cs c w : cset_mem cs c = true -> Forall (fun c => cset_mem cs c = true) w ->
                 matches (Plus cs) (c :: w)
| MGroup i r w : matches r w -> matches (Group i r) w.

(** The group numbers a regex may set. *)
Fixpoint groups_of (r : regex) : list nat :=
  match r with
  | Lit _ | Cls _ | Star _ | Plus _ => []
  | Cat r1 r2 | Alt r1 r2 => groups_of r1 ++ groups_of r2
  | Opt r1 => groups_of r1
  | Group i r1 => i :: groups_of r1
  end.

End Re.
Import Re.

Notation "r1 ~~ r2" := (Cat r1 r2) (at level 60, right associativity).

(** ** [float(str)] *)

Module PyFloat.
Local Open Scope N_scope.

(** A Python [float] is a binary64 number.  A finite one is kept as the
    rational it is equal to, in lowest terms; [Finite 0] is the zero of
    positive sign. *)
Inductive pyfloat : Type :=
| Finite (q : Q)
| NegZero
| Infinity (negative : bool)
| NaN.

(** The integer nearest to [a / b] for [b > 0], a tie going to the even
    one. *)
Definition round_half_even (a b : Z) : Z :=
  let q := (a / b)%Z in
  match (2 * (a mod b) ?= b)%Z with
  | Lt => q
  | Gt => (q + 1)%Z
  | Eq => if Z.even q then q else (q + 1)%Z
  end.

(** [floor (log2 (a / d))] for [a, d > 0]. *)
Definition floor_log2 (a d : Z) : Z :=
  let e := (Z.log2 a - Z.log2 d)%Z in
  if (if 0 <=? e then d * 2 ^ e <=? a else d <=? a * 2 ^ (- e))%Z then e
  else (e - 1)%Z.

(** The binary64 number nearest to a rational, as [strtod] of the C library
    and [float()] return it: 53 bits of precision, exponents of the last bit
    from -1074 to 971, ties to even, infinity from [2^1024 - 2^970] on. *)
Definition binary64 (q : Q) : pyfloat :=
  let n := Qnum q in
  let d := Zpos (Qden q) in
  if (n =? 0)%Z then Finite 0
  else
    let a := Z.abs n in
    let p := Z.max (floor_log2 a d - 52) (-1074) in
    let m := if (0 <=? p)%Z then round_half_even a (d * 2 ^ p)
             else round_half_even (a * 2 ^ (- p)) d in
    if (0 <=? p)%Z && (2 ^ 1024 <=? m * 2 ^ p)%Z then Infinity (n <? 0)%Z
    else if (m =? 0)%Z && (n <? 0)%Z then NegZero
    else
      let v := if (0 <=? p)%Z then inject_Z (m * 2 ^ p)
               else Qmake m (Z.to_pos (2 ^ (- p))) in
      Finite (Qred (if (n <? 0)%Z then Qopp v else v)).

(** [-x] *)
Definition float_neg (x : pyfloat) : pyfloat :=
  match x with
  | Finite q => if Qeq_bool q 0 then NegZero else Finite (Qopp q)
  | NegZero => Finite 0
  | Infinity negative => Infinity (negb negative)
  | NaN => NaN
  end.

(** [_PyUnicode_TransformDecimalAndSpaceToASCII]. *)
Definition to_ascii_char (c : char) : char :=
  if c <=? 127 then c
  else if uni_isspace c then 32
  else match uni_todecimal c with
       | Some d => 48 + d
       | None => 63
       end.

Definition is_ascii_digit (c : char) : bool := in_range 48 57 c.

(** [_Py_string_to_number_with_underscores]: an underscore is dropped when
    it stands between two digits and is an error anywhere else. *)
Fixpoint drop_underscores (prev : char) (s : pystr) : option pystr :=
  match s with
  | [] => if prev =? 95 then None else Some []
  | c :: s' =>
    if c =? 95 then
      if is_ascii_digit prev then drop_underscores c s' else None
    else if (prev =? 95) && negb (is_ascii_digit c) then None
    else option_map (cons c) (drop_underscores c s')
  end.

(** [Py_ISSPACE] and the stripping done by [float_from_string_inner]. *)
Definition ascii_isspace (c : char) : bool := in_range 9 13 c || (c =? 32).

Fixpoint ascii_lstrip (s : pystr) : pystr :=
  match s with
  | c :: s' => if ascii_isspace c then ascii_lstrip s' else s
  | [] => []
  end.

Definition ascii_strip (s : pystr) : pystr :=
  rev (ascii_lstrip (rev (ascii_lstrip s))).

(** The longest prefix of ASCII digits, and what follows it. *)
Fixpoint span_digits (s : pystr) : pystr * pystr :=
  match s with
  | c :: s' =>
    if is_ascii_digit c then let (d, r) := span_digits s' in (c :: d, r)
    else ([], s)
  | [] => ([], [])
  end.

Definition digits_value (ds : pystr) : Z :=
  fold_left (fun acc c => (acc * 10 + (Z.of_N c - 48))%Z) ds 0%Z.

(** [m * 10^e], the number that the digits denote, in lowest terms. *)
Definition scale10 (m e : Z) : Q :=
  Qred (if (0 <=? e)%Z then inject_Z (m * 10 ^ e)
        else Qmake m (Z.to_pos (10 ^ (- e)))).

Definition split_sign (s : pystr) : bool * pystr :=
  match s with
  | c :: r => if c =? 45 then (true, r) else if c =? 43 then (false, r) else (false, s)
  | [] => (false, [])
  end.

(** The exponent part [e[sign]digits]; a malformed one is not consumed. *)
Definition parse_exponent (s : pystr) : Z * pystr :=
  match s with
  | c :: r =>
    if (c =? 101) || (c =? 69) then
      let (neg, r1) := split_sign r in
      match span_digits r1 with
      | ([], _) => (0%Z, s)
      | (ds, r2) => ((if neg then - digits_value ds else digits_value ds)%Z, r2)
      end
    else (0%Z, s)
  | [] => (0%Z, [])
  end.

(** [digits [. digits] [exponent]] with at least one mantissa digit. *)
Definition parse_decimal (s : pystr) : option (Q * pystr) :=
  let (ip, r1) := span_digits s in
  let (fp, r2) := match r1 with
                  | c :: r => if c =? 46 then span_digits r else ([], r1)
                  | [] => ([], [])
                  end in
  match ip ++ fp with
  | [] => None
  | ds =>
    let (e, r3) := parse_exponent r2 in
    Some (scale10 (digits_value ds) (e - Z.of_nat (length fp)), r3)
  end.

(** [_Py_parse_inf_or_nan], after the sign. *)
Definition parse_inf_nan (neg : bool) (s : pystr) : option (pyfloat * pystr) :=
  let l := lower s in
  if starts_with (py "infinity") l then Some (Infinity neg, skipn 8 s)
  else if starts_with (py "inf") l then Some (Infinity neg, skipn 3 s)
  else if starts_with (py "nan") l then Some (NaN, skipn 3 s)
  else None.

Definition parse_float (s : pystr) : option (pyfloat * pystr) :=
  let (neg, r) := split_sign s in
  match parse_decimal r with
  | Some (q, rest) => Some (if neg then float_neg (binary64 q) else binary64 q, rest)
  | None => parse_inf_nan neg r
  end.

(** [float(s)] for a [str] argument: the whole stripped text must be one
    literal, otherwise [ValueError]. *)
Definition py_float (s : pystr) : outcome pyfloat :=
  match drop_underscores 0 (map to_ascii_char s) with
  | None => Raise ValueError
  | Some t =>
    match parse_float (ascii_strip t) with
    | Some (v, []) => Ok v
    | _ => Raise ValueError
    end
  end.

End PyFloat.
Import PyFloat.

(** ** A table model of pandas frames *)

Module Pandas.

(** A cell of a frame. *)
Inductive value : Type :=
| VStr (s : pystr)
| VFloat (x : pyfloat)
| VNone.

(** A column label as [read_html] may produce it: a string, or something
    else (a position, a tuple of a multi-level header). *)
Inductive label : Type :=
| LStr (s : pystr)
| LOther (n : Z).

(** A frame: column labels in order, and the rows in index order. *)
Record Frame (L : Type) : Type := { columns : list L; rows : list (list value) }.

(** Frames whose labels are all strings: every frame the code holds after
    it has lower-cased the labels. *)
Definition DataFrame : Type := Frame pystr.

(** [pd.DataFrame()] *)
Definition empty_frame : DataFrame := {| columns := []; rows := [] |}.

(** [df.empty]: some axis has length 0. *)
Definition df_empty (df : DataFrame) : bool :=
  match columns df, rows df with
  | [], _ => true
  | _, [] => true
  | _, _ => false
  end.

Definition float_eqb (x y : pyfloat) : bool :=
  match x, y with
  | Finite p, Finite q => Qeq_bool p q
  | Finite p, NegZero | NegZero, Finite p => Qeq_bool p 0
  | NegZero, NegZero => true
  | Infinity a, Infinity b => Bool.eqb a b
  | NaN, NaN => true
  | _, _ => false
  end.

(** Equality of join keys. *)
Definition value_eqb (a b : value) : bool :=
  match a, b with
  | VStr s, VStr t => str_eqb s t
  | VFloat x, VFloat y => float_eqb x y
  | VNone, VNone => true
  | _, _ => false
  end.

Fixpoint index_of (c : pystr) (cols : list pystr) : option nat :=
  match cols with
  | [] => None
  | x :: xs => if str_eqb x c then Some 0 else option_map S (index_of c xs)
  end.

Definition has_column (c : pystr) (cols : list pystr) : bool :=
  existsb (fun x => str_eqb x c) cols.

Fixpoint set_nth {A} (n : nat) (x : A) (l : list A) : list A :=
  match l, n with
  | [], _ => []
  | _ :: t, O => x :: t
  | h :: t, S n' => h :: set_nth n' x t
  end.

Fixpoint remove_nth {A} (n : nat) (l : list A) : list A :=
  match l, n with
  | [], _ => []
  | _ :: t, O => t
  | h :: t, S n' => h :: remove_nth n' t
  end.

(** [df.rename(columns={old: new}, inplace=True)]: every label equal to
    [old] is replaced. *)
Definition rename_column (old new : pystr) (df : DataFrame) : DataFrame :=
  {| columns := map (fun x => if str_eqb x old then new else x) (columns df);
     rows := rows df |}.

(** [df[c] = df[c].apply(f)].  A missing label is a [KeyError].  With a
    repeated label [df[c]] is a frame, [apply] works column-wise and the
    assignment of its result fails on the duplicate axis. *)
Definition apply_column (c : pystr) (f : value -> value) (df : DataFrame)
  : outcome DataFrame :=
  match index_of c (columns df) with
  | None => Raise KeyError
  | Some j =>
    if 1 <? count_occ (list_eq_dec N.eq_dec) (columns df) c then Raise ValueError
    else Ok {| columns := columns df;
               rows := map (fun row => match nth_error row j with
                                       | Some v => set_nth j (f v) row
                                       | None => row
                                       end) (rows df) |}
  end.

(** The position of the join key among the labels of a frame,
    [_get_label_or_level_values]: a missing label is a [KeyError], a
    repeated one a [ValueError]. *)
Definition key_position (key : pystr) (cols : list pystr) : outcome nat :=
  match index_of key cols with
  | None => Raise KeyError
  | Some j =>
    if 1 <? count_occ (list_eq_dec N.eq_dec) cols key then Raise ValueError
    else Ok j
  end.

(** The labels of [pd.merge(left, right, on=key, suffixes=(ls, rs))]: the
    left labels, then the right labels without the key; a label other than
    the key that both sides have gets its side's suffix. *)
Definition left_labels (key : pystr) (ls : pystr) (lcols rcols : list pystr)
  : list pystr :=
  map (fun c => if negb (str_eqb c key) && has_column c rcols then c ++ ls else c) lcols.

Definition right_labels (key : pystr) (rs : pystr) (lcols rcols : list pystr)
  : list pystr :=
  map (fun c => if has_column c lcols then c ++ rs else c)
      (filter (fun c => negb (str_eqb c key)) rcols).

Definition merged_columns (key : pystr) (ls rs : pystr) (lcols rcols : list pystr)
  : list pystr :=
  left_labels key ls lcols rcols ++ right_labels key rs lcols rcols.

(** The labels that a suffix has turned into duplicates
    ([_items_overlap_with_suffix]): a renamed label that stood earlier among
    the renamed labels of its side, where the label it comes from had not
    stood earlier among the labels of that side. *)
Fixpoint suffix_dups (seen seen' labels labels' : list pystr) : list pystr :=
  match labels, labels' with
  | c :: rest, c' :: rest' =>
    (if has_column c' seen' && negb (has_column c seen) then [c'] else [])
    ++ suffix_dups (c :: seen) (c' :: seen') rest rest'
  | _, _ => []
  end.

Definition suffix_clash (key : pystr) (ls rs : pystr) (lcols rcols : list pystr) : bool :=
  match suffix_dups [] [] lcols (left_labels key ls lcols rcols)
        ++ suffix_dups [] [] (filter (fun c => negb (str_eqb c key)) rcols)
                       (right_labels key rs lcols rcols) with
  | [] => false
  | _ :: _ => true
  end.

(** [pd.merge(left, right, on=key, how='inner', suffixes=(ls, rs))], as
    pandas does it from version 2.2 on.  The key is looked up in the right
    frame, then in the left one.  The rows keep the order of the left keys:
    for every left row in order, every right row in order with an equal key
    (the frames that the report merges hold strings in their key columns).
    Labels that the suffixes duplicate are a [MergeError]. *)
Definition merge_inner (left right : DataFrame) (key : pystr) (ls rs : pystr)
  : outcome DataFrame :=
  j <- key_position key (columns right) ;;
  i <- key_position key (columns left) ;;
  if suffix_clash key ls rs (columns left) (columns right) then Raise MergeError
  else
    Ok {| columns := merged_columns key ls rs (columns left) (columns right);
          rows := flat_map
                    (fun l => map (fun r => l ++ remove_nth j r)
                                  (filter (fun r => value_eqb (nth i l VNone) (nth j r VNone))
                                          (rows right)))
                    (rows left) |}.

End Pandas.
Import Pandas.

(** ** [TokenData] and [PDFParser] *)

(** A Python value that is a [str] or [None]. *)
Definition opt_str := option pystr.

Record TokenData : Type := {
  ticker : pystr;
  name : pystr;
  market_cap : pystr;
  volume : pystr;
  vtmr : pyfloat;
  funding : opt_str;
  oiss : opt_str
}.

(** The dataclass constructor: [funding] and [oiss] are keyword arguments
    with the default ["-"], which applies only when the argument is left
    out ([None] here); an argument that is passed is stored as it is, also
    when it is Python's [None]. *)
Definition new_TokenData (ticker name market_cap volume : pystr) (vtmr : pyfloat)
           (funding oiss : option opt_str) : TokenData :=
  {| ticker := ticker; name := name; market_cap := market_cap; volume := volume;
     vtmr := vtmr;
     funding := match funding with Some v => v | None => Some (py "-") end;
     oiss := match oiss with Some v => v | None => Some (py "-") end |}.

Module PDFParser.

(** [\$?[+-]?[\d,\.]+[kKmMbB]?] *)
Definition money : regex :=
  Opt (Lit (py "$")) ~~ Opt (Cls (cls (chars "+-")))
  ~~ Plus (cls (ClassD :: chars ",.")) ~~ Opt (Cls (cls (chars "kKmMbB"))).

(** [[+\-]?[\d\.\,]+\%?|[\-\‚Äì\‚Äî]|N\/A], with the characters of the
    second alternative exactly as the source file has them. *)
Definition percent_or_placeholder : regex :=
  Alt (Opt (Cls (cls (chars "+-"))) ~~ Plus (cls (ClassD :: chars ".,"))
       ~~ Opt (Lit (py "%")))
      (Alt (Cls (cls (chars "-‚Äì‚Äî")))
           (Lit (py "N/A"))).

Definition spaces : regex := Plus (cls [ClassS]).

(** [\d*\.?\d+] *)
Definition trailing_decimal : regex :=
  Star (cls [ClassD]) ~~ Opt (Lit (py ".")) ~~ Plus (cls [ClassD]).

Definition FINANCIAL_PATTERN : pattern :=
  {| body :=
       Group 1 money ~~ spaces
       ~~ Group 2 money ~~ spaces
       ~~ Opt (Group 3 percent_or_placeholder ~~ spaces)
       ~~ Opt (Group 4 percent_or_placeholder ~~ spaces)
       ~~ Group 5 trailing_decimal;
     ngroups := 5 |}.

Definition IGNORE_KEYWORDS : list pystr :=
  [ py "page"; py "coinalyze"; py "contract"; py "filter"; py "column";
    py "mkt cap"; py "vol 24h" ].

(** [re.sub(r'[^A-Z0-9]', '', str(x).upper())], the ticker normalizer. *)
Definition normalize_ticker (x : pystr) : pystr :=
  sub_delete (ncls [Range (chr "A") (chr "Z"); Range (chr "0") (chr "9")]) (upper x).

Definition _clean_ticker_strict (text : pystr) : opt_str :=
  if 15 <? length text then None
  else
    let cleaned := normalize_ticker text in
    if (2 <=? length cleaned) && (length cleaned <=? 12) then Some cleaned
    else None.

(** [if o:] for an [Optional[str]]: the branch is taken when [o] is a
    non-empty string, which the branch then uses. *)
Definition truthy (o : opt_str) : option pystr :=
  match o with
  | Some (c :: t) => Some (c :: t)
  | _ => None
  end.

(** A method call [o.m(...)] on a value that may be [None]. *)
Definition on_str (o : opt_str) (m : pystr -> pystr) : outcome pystr :=
  match o with
  | Some s => Ok (m s)
  | None => Raise AttributeError
  end.

(** [float(o)]. *)
Definition float_of (o : opt_str) : outcome pyfloat :=
  match o with
  | Some s => py_float s
  | None => Raise TypeError
  end.

(** [(mc, vol, vtmr, oi_str, fund_str)] *)
Definition fin_tuple : Type := pystr * pystr * opt_str * opt_str * opt_str.

Definition page_state : Type := list fin_tuple * list pystr.

(** The body of the first loop, on the state [(financials, raw_text_lines)]. *)
Definition classify_line (st : page_state) (line : pystr) : outcome page_state :=
  let (financials, raw_text_lines) := st in
  if existsb (fun k => contains k (lower line)) IGNORE_KEYWORDS then Ok st
  else
    match search FINANCIAL_PATTERN line with
    | Some groups =>
      g0 <- getitem groups 0 ;;
      mc <- on_str g0 (fun s => remove_char (chr ",") (remove_char (chr "$") s)) ;;
      g1 <- getitem groups 1 ;;
      vol <- on_str g1 (fun s => remove_char (chr ",") (remove_char (chr "$") s)) ;;
      oi_str <- getitem groups 2 ;;
      fund_str <- getitem groups 3 ;;
      vtmr <- getitem groups 4 ;;
      try_except
        (_ <- float_of vtmr ;;
         Ok (financials ++ [(mc, vol, vtmr, oi_str, fund_str)], raw_text_lines))
        (fun _ => Ok (financials, raw_text_lines ++ [line]))
    | None =>
      if negb (isdigit line) && (1 <? length line)
      then Ok (financials, raw_text_lines ++ [line])
      else Ok st
    end.

(** The [while i < len(raw_text_lines)] loop, on the state
    [(i, token_pairs)]. *)
Fixpoint pair_loop (fuel : nat) (raw_text_lines : list pystr) (i : nat)
         (token_pairs : list (pystr * pystr)) : outcome (list (pystr * pystr)) :=
  if i <? length raw_text_lines then
    match fuel with
    | O => OutOfFuel
    | S fuel' =>
      line <- getitem raw_text_lines i ;;
      let clean_current := _clean_ticker_strict line in
      (* the first [if]: [Some pair] when it reaches its [continue] *)
      first <-
        match truthy clean_current with
        | Some _ =>
          if i + 1 <? length raw_text_lines then
            next_line <- getitem raw_text_lines (i + 1) ;;
            let clean_next := _clean_ticker_strict next_line in
            match truthy clean_next with
            | Some t => Ok (Some (line, t))
            | None => Ok None
            end
          else Ok None
        | None => Ok None
        end ;;
      match first with
      | Some p => pair_loop fuel' raw_text_lines (i + 2) (token_pairs ++ [p])
      | None =>
        if i + 1 <? length raw_text_lines then
          name_candidate <- getitem raw_text_lines i ;;
          ticker_candidate_raw <- getitem raw_text_lines (i + 1) ;;
          let ticker := _clean_ticker_strict ticker_candidate_raw in
          match truthy ticker with
          | Some t =>
            pair_loop fuel' raw_text_lines (i + 2) (token_pairs ++ [(name_candidate, t)])
          | None => pair_loop fuel' raw_text_lines (i + 1) token_pairs
          end
        else pair_loop fuel' raw_text_lines (i + 1) token_pairs
      end
    end
  else Ok token_pairs.

(** The body of the last loop: [tokens.append(TokenData(...))] for index [k]. *)
Definition build_token (token_pairs : list (pystr * pystr)) (financials : list fin_tuple)
           (tokens : list TokenData) (k : nat) : outcome (list TokenData) :=
  '(name, ticker) <- getitem token_pairs k ;;
  '(mc, vol, vtmr, oi_pct, fund_pct) <- getitem financials k ;;
  v <- float_of vtmr ;;
  Ok (tokens ++ [new_TokenData ticker name mc vol v (Some fund_pct) (Some oi_pct)]).

Definition _parse_page_smart (lines : list pystr) : outcome (list TokenData) :=
  '(financials, raw_text_lines) <- for_each classify_line lines ([], []) ;;
  token_pairs <- pair_loop (length raw_text_lines) raw_text_lines 0 [] ;;
  let limit := Nat.min (length token_pairs) (length financials) in
  for_each (build_token token_pairs financials) (seq 0 limit) [].

(** [vars(t)]: the fields in declaration order. *)
Definition token_columns : list pystr :=
  [ py "ticker"; py "name"; py "market_cap"; py "volume"; py "vtmr";
    py "funding"; py "oiss" ].

Definition opt_value (o : opt_str) : value :=
  match o with
  | Some s => VStr s
  | None => VNone
  end.

Definition token_row (t : TokenData) : list value :=
  [ VStr (ticker t); VStr (name t); VStr (market_cap t); VStr (volume t);
    VFloat (vtmr t); opt_value (funding t); opt_value (oiss t) ].

(** [pd.DataFrame([vars(t) for t in data])]: no record, no column. *)
Definition frame_of_tokens (data : list TokenData) : DataFrame :=
  match data with
  | [] => empty_frame
  | _ => {| columns := token_columns; rows := map token_row data |}
  end.

Section Extract.

(** The runtime around the parser: the type of paths, [pypdf] (absent when
    its import failed; otherwise [PdfReader(path).pages], each page with
    the result of its [extract_text()]), and [str()] of a float. *)
Variable Path : Type.
Variable pypdf : option (Path -> exn + list (exn + opt_str)).
Variable float_repr : pyfloat -> pystr.

(** [str(x)] *)
Definition py_str (x : value) : pystr :=
  match x with
  | VStr s => s
  | VFloat f => float_repr f
  | VNone => py "None"
  end.

(** [lambda x: re.sub(r'[^A-Z0-9]', '', str(x).upper())] *)
Definition normalize_cell (x : value) : value := VStr (normalize_ticker (py_str x)).

(** The stripped, non-empty lines of [text or empty], split at newlines. *)
Definition page_lines (text : opt_str) : list pystr :=
  let text := match text with Some t => t | None => [] end in
  map strip (filter (fun ln => match strip ln with [] => false | _ => true end)
                    (split_lines text)).

Definition extract (path : Path) : outcome DataFrame :=
  match pypdf with
  | None => Ok empty_frame
  | Some PdfReader =>
    (* [None] stands for the [return] inside the handler *)
    parsed <- try_except
                (pages <- call (PdfReader path) ;;
                 data <- for_each (fun data page =>
                                     text <- call page ;;
                                     tokens <- _parse_page_smart (page_lines text) ;;
                                     Ok (data ++ tokens))
                                  pages [] ;;
                 Ok (Some data))
                (fun _ => Ok None) ;;
    match parsed with
    | None => Ok empty_frame
    | Some data =>
      let df := frame_of_tokens data in
      if negb (df_empty df) then apply_column (py "ticker") normalize_cell df
      else Ok df
    end
  end.

End Extract.

End PDFParser.
Import PDFParser.


(** ** [DataProcessor] *)

Module DataProcessor.

Section Runtime.

(** [pd.read_html(path)], [str()] of a float and [DataFrame.to_html()]. *)
Variable Path : Type.
Variable read_html : Path -> exn + list (Frame label).
Variable float_repr : pyfloat -> pystr.
Variable to_html : DataFrame -> pystr.

(** [c.lower()] on a column label. *)
Definition label_lower (c : label) : outcome pystr :=
  match c with
  | LStr s => Ok (lower s)
  | LOther _ => Raise AttributeError
  end.

Fixpoint lower_all (cs : list label) : outcome (list pystr) :=
  match cs with
  | [] => Ok []
  | c :: cs' => x <- label_lower c ;; xs <- lower_all cs' ;; Ok (x :: xs)
  end.

(** [for c in df.columns: if 'tick' in c or 'sym' in c: rename; break] *)
Fixpoint rename_ticker_column (cs : list pystr) (df : DataFrame) : DataFrame :=
  match cs with
  | [] => df
  | c :: cs' =>
    if contains (py "tick") c || contains (py "sym") c
    then rename_column c (py "ticker") df
    else rename_ticker_column cs' df
  end.

Definition load_spot (path : Path) : outcome DataFrame :=
  try_except
    (tables <- call (read_html path) ;;
     t <- getitem tables 0 ;;
     cols <- lower_all (columns t) ;;
     let df : DataFrame := {| columns := cols; rows := rows t |} in
     let df := if negb (has_column (py "ticker") (columns df))
               then rename_ticker_column (columns df) df
               else df in
     if has_column (py "ticker") (columns df)
     then apply_column (py "ticker") (normalize_cell float_repr) df
     else Ok df)
    (fun _ => Ok empty_frame).

Definition dq : pystr := [34%N].
Definition nl : pystr := [10%N].

Definition report_heading (user_id : pystr) : pystr :=
  py "<h1>Analysis Report for " ++ user_id ++ py "</h1>".

Definition report_footer : pystr :=
  py "<div style=" ++ dq ++ py "background:#ecf0f1;padding:15px;" ++ dq
  ++ py "><h2>OISS & Funding Cheat Sheet</h2>" ++ nl
  ++ py "        <ul><li><strong>Bullish Squeeze:</strong> OI+ Fund-</li><li><strong>Uptrend:</strong> OI+ Fund+</li></ul></div>".

(** The frame that the report renders. *)
Definition merged_frame (futures_df spot_df : DataFrame) : outcome DataFrame :=
  merge_inner spot_df futures_df (py "ticker") (py "_spot") (py "_fut").

Definition generate_report (futures_df spot_df : DataFrame) (user_id : pystr)
  : outcome (option pystr) :=
  if df_empty futures_df || df_empty spot_df then Ok None
  else
    merged <- merged_frame futures_df spot_df ;;
    let html := report_heading user_id in
    let html := html ++ to_html merged in
    let html := html ++ report_footer in
    Ok (Some html).

End Runtime.

End DataProcessor.
Import DataProcessor.

(** ** Rendering and the analysis run

    [convert_html_to_pdf] and [run_futures_analysis].  Their effects on the
    outside (the request to the rendering service, the file written, the
    upload) are recorded as a trace, in the order in which they are
    attempted; what the outside answers is a parameter.  Printing is left
    out, as in the loaders. *)

Module Delivery.

(** The request that [SESSION.post] sends: the address, the two entries of
    the JSON body and the content-type header. *)
Record request : Type := {
  url : pystr;
  json_html : pystr;
  json_apiKey : pystr;
  content_type : pystr
}.

(** The part of the response that the code reads. *)
Record response : Type := { status_code : Z; content : list N }.

Section World.

Variable Path : Type.

Inductive event : Type :=
| Posted (r : request)                   (* SESSION.post(...) *)
| Wrote (p : Path) (bytes : list N)      (* open(p, "wb") ... f.write(bytes) *)
| Uploaded (user_id : pystr) (p : Path). (* FirebaseHelper.upload_report(user_id, p) *)

(** A computation with its trace of attempted effects. *)
Definition io (A : Type) : Type := list event * outcome A.

Definition io_ret {A} (a : A) : io A := ([], Ok a).

Definition io_bind {A B} (c : io A) (k : A -> io B) : io B :=
  match c with
  | (t, Ok a) => let (t', r) := k a in (t ++ t', r)
  | (t, Raise e) => (t, Raise e)
  | (t, OutOfFuel) => (t, OutOfFuel)
  end.

(** An effect: it is attempted, then returns or raises. *)
Definition io_call {A} (ev : event) (r : exn + A) : io A := ([ev], call r).

(** A computation without effects. *)
Definition io_lift {A} (o : outcome A) : io A := ([], o).

(** [try: body / except: handler]; what the body did before it raised
    stays done. *)
Definition io_try {A} (body : io A) (handler : exn -> io A) : io A :=
  match body with
  | (t, Raise e) => let (t', r) := handler e in (t ++ t', r)
  | c => c
  end.

(** The outside: [p / name], [p.exists()], [config.UPLOAD_FOLDER],
    [config.HTML2PDF_API_KEY], [SESSION.post], writing a file in binary
    mode, [config.FirebaseHelper.upload_report], and the runtime of the
    loaders. *)
Variable joinpath : Path -> pystr -> Path.
Variable path_exists : Path -> bool.
Variable UPLOAD_FOLDER : Path.
Variable HTML2PDF_API_KEY : pystr.
Variable SESSION_post : request -> exn + response.
Variable write_bytes : Path -> list N -> exn + unit.
Variable upload_report : pystr -> Path -> exn + opt_str.
Variable pypdf : option (Path -> exn + list (exn + opt_str)).
Variable read_html : Path -> exn + list (Frame label).
Variable float_repr : pyfloat -> pystr.
Variable to_html : DataFrame -> pystr.

Definition render_request (html : pystr) : request :=
  {| url := py "https://api.html2pdf.app/v1/generate";
     json_html := html;
     json_apiKey := HTML2PDF_API_KEY;
     content_type := py "application/json" |}.

Definition convert_html_to_pdf (html : pystr) (output_dir : Path) (user_id : pystr)
  : io (option Path) :=
  let pdf_path := joinpath output_dir (user_id ++ py "_analysis_report.pdf") in
  io_try
    (io_bind (io_call (Posted (render_request html)) (SESSION_post (render_request html)))
       (fun resp =>
          if (status_code resp =? 200)%Z then
            io_bind (io_call (Wrote pdf_path (content resp))
                             (write_bytes pdf_path (content resp)))
              (fun _ =>
                 io_bind (io_call (Uploaded user_id pdf_path)
                                  (upload_report user_id pdf_path))
                   (fun _ => io_ret (Some pdf_path)))
          else io_ret None))
    (fun _ => io_ret None).

Definition run_futures_analysis (user_id : pystr) : io unit :=
  let spot_file := joinpath UPLOAD_FOLDER (user_id ++ py "_Volumed_Spot_Tokens.html") in
  let futures_file := joinpath UPLOAD_FOLDER (user_id ++ py "_futures.pdf") in
  if negb (path_exists spot_file) || negb (path_exists futures_file) then io_ret tt
  else
    io_bind (io_lift (extract pypdf float_repr futures_file))
      (fun f_df =>
         io_bind (io_lift (load_spot read_html float_repr spot_file))
           (fun s_df =>
              io_bind (io_lift (generate_report to_html f_df s_df user_id))
                (fun html =>
                   match html with
                   | Some (c :: h) =>
                     io_bind (convert_html_to_pdf (c :: h) UPLOAD_FOLDER user_id)
                             (fun _ => io_ret tt)
                   | _ => io_ret tt
                   end))).

End World.

Arguments Posted {Path} r.
Arguments Wrote {Path} p bytes.
Arguments Uploaded {Path} user_id p.

End Delivery.
Import Delivery.

(** ** [state.py]: the shared progress table and the log catcher

    The module keeps two dictionaries, [USER_LOGS] and [USER_PROGRESS], and
    replaces [sys.stdout] by a [LogCatcher].  The model threads them, and
    what the original stream received, through every call; each call is
    taken as a whole (the lock and the interleaving of threads are outside
    the model). *)

Module State.

(** A [dict] with string keys, in insertion order. *)
Definition dict (V : Type) : Type := list (pystr * V).

Fixpoint dict_get {V} (d : dict V) (k : pystr) : option V :=
  match d with
  | [] => None
  | (k', v) :: d' => if str_eqb k' k then Some v else dict_get d' k
  end.

(** [d[k] = v] *)
Fixpoint dict_set {V} (d : dict V) (k : pystr) (v : V) : dict V :=
  match d with
  | [] => [(k, v)]
  | (k', v') :: d' => if str_eqb k' k then (k, v) :: d' else (k', v') :: dict_set d' k v
  end.

(** [s.replace(old, new)] for a non-empty [old]: the occurrences of [old]
    are replaced from left to right, without overlap; [skip] counts the
    characters of an occurrence still to be passed over. *)
Fixpoint replace_from (old new : pystr) (skip : nat) (s : pystr) : pystr :=
  match s with
  | [] => []
  | c :: s' =>
    match skip with
    | S k => replace_from old new k s'
    | O =>
      if starts_with old s then new ++ replace_from old new (length old - 1) s'
      else c :: replace_from old new 0 s'
    end
  end.

Definition replace (old new s : pystr) : pystr := replace_from old new 0 s.

(** [{"percent": ..., "text": ..., "status": ...}] *)
Record progress : Type := { percent : Z; text : pystr; status : pystr }.

Record globals : Type := {
  USER_LOGS : dict (list pystr);
  USER_PROGRESS : dict progress;
  terminal : list pystr          (* what the original stream was given *)
}.

(** The state when the module has just been imported. *)
Definition initial : globals :=
  {| USER_LOGS := []; USER_PROGRESS := []; terminal := [] |}.

Definition get_progress (st : globals) (uid : pystr) : progress :=
  match dict_get (USER_PROGRESS st) uid with
  | Some p => p
  | None => {| percent := 0; text := py "System Idle"; status := py "idle" |}
  end.

Definition update_progress (uid : pystr) (percent : Z) (text status : pystr)
           (st : globals) : globals :=
  {| USER_LOGS := USER_LOGS st;
     USER_PROGRESS := dict_set (USER_PROGRESS st) uid
                               {| percent := percent; text := text; status := status |};
     terminal := terminal st |}.

(** [msg and msg.strip()] *)
Definition nonblank (msg : pystr) : bool :=
  match strip msg with
  | [] => false
  | _ => true
  end.

(** The [if]/[elif] chain on the lower-cased message. *)
Definition progress_step (uid text : pystr) (st : globals) : globals :=
  if contains (py "scanning coingecko") text then
    update_progress uid 10 (py "Fetching CoinGecko Data...") (py "active") st
  else if contains (py "scanning livecoinwatch") text then
    update_progress uid 30 (py "Fetching LiveCoinWatch...") (py "active") st
  else if contains (py "parsing spot file") text then
    update_progress uid 50 (py "Analyzing Spot Volumes...") (py "active") st
  else if contains (py "parsing futures pdf") text then
    update_progress uid 70 (py "Parsing Futures PDF...") (py "active") st
  else if contains (py "converting to pdf") text then
    update_progress uid 90 (py "Compiling Report...") (py "active") st
  else if contains (py "completed") text || contains (py "pdf saved") text then
    update_progress uid 100 (py "Task Completed Successfully") (py "success") st
  else if contains (py "error") text then
    update_progress uid 0 (py "Error Occurred") (py "error") st
  else st.

(** [USER_LOGS[uid].append(msg)], after creating the list if need be, and
    [pop(0)] when the list has grown beyond 500 entries. *)
Definition append_log (uid msg : pystr) (st : globals) : globals :=
  let logs := match dict_get (USER_LOGS st) uid with
              | Some l => l
              | None => []
              end in
  let logs := logs ++ [msg] in
  let logs := if 500 <? length logs then tl logs else logs in
  {| USER_LOGS := dict_set (USER_LOGS st) uid logs;
     USER_PROGRESS := USER_PROGRESS st;
     terminal := terminal st |}.

(** [LogCatcher.write(msg)] on the thread named [thread_name]. *)
Definition write (thread_name msg : pystr) (st : globals) : globals :=
  let st := {| USER_LOGS := USER_LOGS st; USER_PROGRESS := USER_PROGRESS st;
               terminal := terminal st ++ [msg] |} in
  if nonblank msg then
    if starts_with (py "user_") thread_name then
      let uid := replace (py "user_") [] thread_name in
      let st := append_log uid msg st in
      let text := lower msg in
      progress_step uid text st
    else st
  else st.

(** A series of writes, each with its thread name, in the order given. *)
Definition writes (ws : list (pystr * pystr)) (st : globals) : globals :=
  fold_left (fun st w => write (fst w) (snd w) st) ws st.

End State.

(** ** The specification's wording of the resolver and of ticker validity *)

Module Spec.

(** "raw length at most 15 and normalized length between 2 and 12" *)
Definition is_strict_ticker (text : pystr) : bool :=
  (length text <=? 15) && (2 <=? length (normalize_ticker text))
  && (length (normalize_ticker text) <=? 12).

(** "emit (line[i], normalized(line[i+1])) and advance by 2 whenever
    line[i+1] validates as a strict ticker, advance by 1 otherwise" *)
Fixpoint resolve_pairs (lines : list pystr) : list (pystr * pystr) :=
  match lines with
  | l0 :: tl =>
    match tl with
    | l1 :: rest =>
      if is_strict_ticker l1 then (l0, normalize_ticker l1) :: resolve_pairs rest
      else resolve_pairs tl
    | [] => []
    end
  | [] => []
  end.

(** "the inner join on ticker": of all pairs of a left row and a right
    row, those with equal keys, each laid out as the left row followed by
    the right row without its key. *)
Definition inner_join_rows (i j : nat) (left right : list (list value))
  : list (list value) :=
  map (fun p => fst p ++ remove_nth j (snd p))
      (filter (fun p => value_eqb (nth i (fst p) VNone) (nth j (snd p) VNone))
              (list_prod left right)).

(** ASCII letters and digits. *)
Definition ascii_alnum (c : char) : bool :=
  in_range (chr "A") (chr "Z") c || in_range (chr "a") (chr "z") c
  || in_range (chr "0") (chr "9") c.

End Spec.

(** ** Vocabulary of the statements *)

(** Digits and dots pass the underscore check and the stripping untouched. *)
Definition plain (c : char) : bool := is_ascii_digit c || (c =? 46)%N.

(** The test of the noise filter. *)
Definition is_noise (line : pystr) : bool :=
  existsb (fun k => contains k (lower line)) IGNORE_KEYWORDS.

(** [s.replace('$', '').replace(',', '')] *)
Definition strip_money (s : pystr) : pystr :=
  remove_char (chr ",") (remove_char (chr "$") s).

(** The label test of the [else] branch. *)
Definition is_label (line : pystr) : bool := negb (isdigit line) && (1 <? length line).

(** Every stored tuple carries a text that [float()] accepts. *)
Definition vtmr_parses (t : fin_tuple) : Prop :=
  match t with
  | (_, _, vtmr, _, _) => exists v, float_of vtmr = Ok v
  end.

(** The record that [TokenData(...)] builds from a pair and a tuple. *)
Definition record_of (t : TokenData) (pf : (pystr * pystr) * fin_tuple) : Prop :=
  match pf with
  | ((name0, ticker0), (mc, vol, vtmr0, oi_pct, fund_pct)) =>
    exists v, float_of vtmr0 = Ok v /\
              t = {| ticker := ticker0; name := name0; market_cap := mc; volume := vol;
                     vtmr := v; funding := fund_pct; oiss := oi_pct |}
  end.

(** The normalizer keeps the character [c], as one character. *)
Definition keeps_one (c : char) : bool :=
  match normalize_ticker [c] with
  | [_] => true
  | _ => false
  end.

(** A line is classified as financial when the loop body appends a tuple
    for it to [financials]. *)
Definition classified_financial (line : pystr) : Prop :=
  exists t, forall fins raws,
      classify_line (fins, raws) line = Ok (fins ++ [t], raws).

(** The pattern matches the line and [float()] accepts the trailing group. *)
Definition pattern_and_float (line : pystr) : Prop :=
  exists groups w v,
    search FINANCIAL_PATTERN line = Some groups /\
    nth_error groups 4 = Some (Some w) /\
    py_float w = Ok v.

(** A page with three label pairs and two financial lines. *)
Definition page_3_pairs_2_financials : list pystr :=
  [ py "Bitcoin"; py "BTC"; py "1.2M 500K - - 0.87";
    py "Ethereum"; py "ETH"; py "$2,000.5M 1M +1.5% -0.01% 0.5";
    py "Solana"; py "SOL" ].

(** A computation that comes to an end: it returns or raises. *)
Definition terminates {A} (o : outcome A) : Prop := o <> OutOfFuel.

(** The body of the page loop of [extract]. *)
Definition page_step (data : list TokenData) (page : exn + opt_str)
  : outcome (list TokenData) :=
  text <- call page ;;
  tokens <- _parse_page_smart (page_lines text) ;;
  Ok (data ++ tokens).

(** The test of the renaming loop. *)
Definition is_ticker_like (c : pystr) : bool :=
  contains (py "tick") c || contains (py "sym") c.

(** What [df['ticker'].apply(...)] does to one row when the ticker column
    is column [j]. *)
Definition normalize_at (float_repr : pyfloat -> pystr) (j : nat) (row : list value)
  : list value :=
  match nth_error row j with
  | Some v => set_nth j (VStr (normalize_ticker (py_str float_repr v))) row
  | None => row
  end.

(** A spot table with a [Sym.] column and no [ticker] column. *)
Definition sym_table : Frame label :=
  {| columns := [LStr (py "Name"); LStr (py "Sym."); LStr (py "Price")];
     rows := [ [VStr (py "Bitcoin"); VStr (py "btc-usd"); VStr (py "64,000")];
               [VStr (py "Ether"); VStr (py "eth"); VStr (py "3,000")] ] |}.

(** A spot table with two columns whose names differ in case only, and one
    with two names that differ in case beyond ASCII. *)
Definition sym_twice_table : Frame label :=
  {| columns := [LStr (py "Sym"); LStr (py "SYM"); LStr (py "Note")];
     rows := [ [VStr (py "btc"); VStr (py "BTC"); VStr (py "x")] ] |}.

Definition sym_accent_table : Frame label :=
  {| columns := [LStr (py "SYMÉ"); LStr (py "symé")];
     rows := [ [VStr (py "btc"); VStr (py "BTC")] ] |}.

(** A frame keyed by ticker, as the loaders produce it and as the model of
    [pd.merge] expects it: distinct labels, a [ticker] column at index [j],
    rows of full width whose ticker cell is a string. *)
Definition keyed_by_ticker (df : DataFrame) (j : nat) : Prop :=
  NoDup (columns df) /\
  index_of (py "ticker") (columns df) = Some j /\
  Forall (fun row => length row = length (columns df) /\
                     exists s, nth_error row j = Some (VStr s)) (rows df).

(** A frame with exactly one column labelled [ticker], at index [j], whose
    cells are strings. *)
Definition ticker_keyed (df : DataFrame) (j : nat) : Prop :=
  key_position (py "ticker") (columns df) = Ok j /\
  Forall (fun row => exists s, nth_error row j = Some (VStr s)) (rows df).

(** Two records as [_parse_page_smart] builds them. *)
Definition btc_token : TokenData :=
  {| ticker := py "BTC"; name := py "Bitcoin"; market_cap := py "1.2M";
     volume := py "500K"; vtmr := binary64 (87 # 100);
     funding := Some (py "-"); oiss := Some (py "-") |}.

Definition eth_token : TokenData :=
  {| ticker := py "ETH"; name := py "Ethereum"; market_cap := py "2000.5M";
     volume := py "1M"; vtmr := Finite (1 # 2);
     funding := Some (py "-0.01%"); oiss := Some (py "+1.5%") |}.

(** Futures records for BTC and ETH, spot rows for BTC and SOL. *)
Definition futures_btc_eth : DataFrame := frame_of_tokens [btc_token; eth_token].

Definition spot_btc_sol : DataFrame :=
  {| columns := [py "ticker"; py "name"; py "price"];
     rows := [ [VStr (py "BTC"); VStr (py "Bitcoin"); VStr (py "64000")];
               [VStr (py "SOL"); VStr (py "Solana"); VStr (py "150")] ] |}.

(** A spot frame without a ticker column, as [load_spot] returns it for a
    table headed [Coin], [Price]; and one whose label [name_spot] is what the
    suffix makes of its label [name]. *)
Definition spot_coin : DataFrame :=
  {| columns := [py "coin"; py "price"];
     rows := [ [VStr (py "btc"); VStr (py "64,000")] ] |}.

Definition spot_name_clash : DataFrame :=
  {| columns := [py "ticker"; py "name"; py "name_spot"];
     rows := [ [VStr (py "BTC"); VStr (py "Bitcoin"); VStr (py "bitcoin")] ] |}.

(** Their inner join on [ticker]. *)
Definition merged_btc : DataFrame :=
  {| columns := [py "ticker"; py "name_spot"; py "price"; py "name_fut";
                 py "market_cap"; py "volume"; py "vtmr"; py "funding"; py "oiss"];
     rows := [ [VStr (py "BTC"); VStr (py "Bitcoin"); VStr (py "64000");
                VStr (py "Bitcoin"); VStr (py "1.2M"); VStr (py "500K");
                VFloat (binary64 (87 # 100)); VStr (py "-"); VStr (py "-")] ] |}.

(** ** Vocabulary of the further properties *)

(** The characters that the ticker normalizer keeps. *)
Definition is_ticker_char (c : char) : bool :=
  in_range (chr "A") (chr "Z") c || in_range (chr "0") (chr "9") c.

(** The tuple that the first loop stores for a line, if it stores one. *)
Definition line_tuple (line : pystr) : option fin_tuple :=
  if is_noise line then None
  else match search FINANCIAL_PATTERN line with
       | Some [Some w1; Some w2; o3; o4; Some w5] =>
         Some (strip_money w1, strip_money w2, Some w5, o3, o4)
       | _ => None
       end.

(** The lines for which the first loop stores a tuple. *)
Definition is_financial_line (line : pystr) : bool :=
  match line_tuple line with
  | Some _ => true
  | None => false
  end.

(** The lines that the first loop keeps as label lines. *)
Definition is_label_line (line : pystr) : bool :=
  negb (is_noise line)
  && match search FINANCIAL_PATTERN line with
     | Some _ => false
     | None => is_label line
     end.

(** The records of a page, for a page text as [extract_text()] returns it. *)
Definition page_tokens (text : opt_str) : list TokenData :=
  match _parse_page_smart (page_lines text) with
  | Ok tokens => tokens
  | _ => []
  end.

(** An optional value as a list of at most one element. *)
Definition opt_list {A} (o : option A) : list A :=
  match o with
  | Some a => [a]
  | None => []
  end.

(** A float that is not negative: a finite one from zero on, the zero
    being that of positive sign, or positive infinity. *)
Definition float_nonneg (v : pyfloat) : Prop :=
  match v with
  | Finite q => (0 <= q)%Q
  | Infinity negative => negative = false
  | NegZero | NaN => False
  end.

(** What the first loop knows about a tuple it stored. *)
Definition tuple_ok (t : fin_tuple) : Prop :=
  match t with
  | (mc, vol, vtmr0, _, _) =>
    (exists w1, mc = strip_money w1) /\ (exists w2, vol = strip_money w2) /\
    exists w5, vtmr0 = Some w5 /\ matches trailing_decimal w5
  end.

(** A continuation whose failure does not depend on the groups. *)
Definition blind (A : Type) (k : pystr -> groups -> option A) : Prop :=
  forall s g1 g2, k s g1 = None -> k s g2 = None.

(** What the pattern leaves in its two optional groups. *)
Definition optional_ok (o : opt_str) : Prop :=
  o = None \/ exists w, o = Some w /\ matches percent_or_placeholder w.

(** What the first loop knows about the optional fields of a tuple. *)
Definition tuple_optional_ok (t : fin_tuple) : Prop :=
  match t with
  | (_, _, _, oi, fund) =>
    optional_ok oi /\ optional_ok fund /\ (oi = None -> fund = None)
  end.

(** A spot table that already has a ticker column, beside a symbol column. *)
Definition ticker_table : Frame label :=
  {| columns := [LStr (py "Symbol"); LStr (py "Ticker"); LStr (py "Price")];
     rows := [ [VStr (py "btc/usd"); VStr (py "btc"); VStr (py "64,000")] ] |}.

(** A spot table without any ticker-like column. *)
Definition coin_table : Frame label :=
  {| columns := [LStr (py "Coin"); LStr (py "Price")];
     rows := [ [VStr (py "btc"); VStr (py "64,000")] ] |}.

(** Paths as strings, joined with a slash. *)
Definition demo_join (p name : pystr) : pystr := p ++ py "/" ++ name.

(** An answer of the rendering service: status 200 and the first bytes of
    a PDF. *)
Definition pdf_answer : response := {| status_code := 200; content := [37; 80; 68; 70]%N |}.

(** A small world: one page of futures text, one spot table, a rendering
    service that answers with a PDF. *)
Definition demo_pdf (_ : pystr) : exn + list (exn + opt_str) :=
  inr [inr (Some (py "Bitcoin" ++ nl ++ py "BTC" ++ nl ++ py "1.2M 500K - - 0.87"))].

Definition demo_html (_ : pystr) : exn + list (Frame label) :=
  inr [ {| columns := [LStr (py "Ticker"); LStr (py "Price")];
           rows := [[VStr (py "btc"); VStr (py "64000")]] |} ].

Definition demo_run (path_exists : pystr -> bool) (user_id : pystr) : io pystr unit :=
  run_futures_analysis demo_join path_exists (py "/uploads") (py "key")
                       (fun _ => inr pdf_answer) (fun _ _ => inr tt) (fun _ _ => inr None)
                       (Some demo_pdf) demo_html (fun _ => []) (fun _ => []) user_id.

(** Two characters that are equal, or are both a small sigma (the final
    one, U+03C2, or the other one, U+03C3). *)
Definition same_but_sigma (a b : char) : Prop :=
  a = b \/ ((a = 0x3C2 \/ a = 0x3C3) /\ (b = 0x3C2 \/ b = 0x3C3))%N.

(** A text without a capital or a small sigma. *)
Definition sigma_free (s : pystr) : bool :=
  forallb (fun c => negb (c =? 0x3A3)%N && negb (c =? 0x3C2)%N && negb (c =? 0x3C3)%N) s.

(** ** Vocabulary of the properties of the log catcher *)

Section LogVocabulary.
Import State.

(** Every stored log holds at most 500 messages. *)
Definition logs_bounded (st : globals) : Prop :=
  forall uid l, dict_get (USER_LOGS st) uid = Some l -> length l <= 500.

(** The user that a thread name stands for. *)
Definition uid_of (thread_name : pystr) : pystr := replace (py "user_") [] thread_name.

(** The writes that reach the log of [uid]. *)
Definition logged_for (uid : pystr) (w : pystr * pystr) : bool :=
  nonblank (snd w) && starts_with (py "user_") (fst w) && str_eqb (uid_of (fst w)) uid.

(** The last [n] elements of a list. *)
Definition lastn {A} (n : nat) (l : list A) : list A := skipn (length l - n) l.

(** The line that [PDFParser.extract] hands to [write], through [print],
    when reading the PDF failed with the exception whose text is [e]. *)
Definition pdf_error_message (e : pystr) : pystr := py "   PDF Error: " ++ e.

(** The keywords that the log catcher looks for before it looks for
    [error]. *)
Definition earlier_keywords : list pystr :=
  [py "scanning coingecko"; py "scanning livecoinwatch"; py "parsing spot file";
   py "parsing futures pdf"; py "converting to pdf"; py "completed"; py "pdf saved"].

End LogVocabulary.

(** * Properties *)

(** ** The runtime model on concrete inputs *)

Example py_em_dash : py "—" = [8212%N].
Proof. reflexivity. Qed.

Example py_source_dash_class :
  py "-‚Äì‚Äî" = [45; 0x201A; 0xC4; 0xEC; 0x201A; 0xC4; 0xEE]%N.
Proof. reflexivity. Qed.

Example float_plain :
  py_float (py "0.87") = Ok (binary64 (87 # 100))
  /\ binary64 (87 # 100) = Finite (7836263351624663 # 9007199254740992).
Proof. split; vm_compute; reflexivity. Qed.

Example float_rounds :
  py_float (py "0.1") = Ok (Finite (3602879701896397 # 36028797018963968))
  /\ py_float (py "9007199254740993") = Ok (Finite (9007199254740992 # 1))
  /\ py_float (py "1e400") = Ok (Infinity false)
  /\ py_float (py "-1e400") = Ok (Infinity true)
  /\ py_float (py "1e-400") = Ok (Finite 0)
  /\ py_float (py "-1e-400") = Ok NegZero
  /\ py_float (py "-0.0") = Ok NegZero
  /\ py_float (py "5e-324") = py_float (py "3e-324").
Proof. repeat split; vm_compute; reflexivity. Qed.

Example float_overflow : py_float (repeat 57%N 310) = Ok (Infinity false).
Proof. vm_compute. reflexivity. Qed.

Example record_with_infinite_vtmr :
  _parse_page_smart [py "Bitcoin"; py "BTC"; py "1 2 " ++ repeat 57%N 310]
  = Ok [ {| ticker := py "BTC"; name := py "Bitcoin"; market_cap := py "1";
            volume := py "2"; vtmr := Infinity false; funding := None; oiss := None |} ].
Proof. vm_compute. reflexivity. Qed.

Example float_forms :
  py_float (py " 1_000.5 ") = Ok (Finite (2001 # 2))
  /\ py_float (py "-2.5e-1") = Ok (Finite (-1 # 4))
  /\ py_float (py ".5") = Ok (Finite (1 # 2))
  /\ py_float (py "5.") = Ok (Finite (5 # 1))
  /\ py_float (py "٣.٥") = Ok (Finite (7 # 2))
  /\ py_float (py "-Infinity") = Ok (Infinity true)
  /\ py_float (py "nan") = Ok NaN.
Proof. repeat split; vm_compute; reflexivity. Qed.

Example float_rejects :
  py_float (py "N/A") = Raise ValueError
  /\ py_float (py "") = Raise ValueError
  /\ py_float (py ".") = Raise ValueError
  /\ py_float (py "1e") = Raise ValueError
  /\ py_float (py "1__0") = Raise ValueError
  /\ py_float (py "1,000") = Raise ValueError
  /\ py_float (py "12%") = Raise ValueError.
Proof. repeat split; vm_compute; reflexivity. Qed.

Example normalize_examples :
  normalize_ticker (py "btc-usd") = py "BTCUSD"
  /\ normalize_ticker (py "Straße 7") = py "STRASSE7"
  /\ normalize_ticker (py "—") = [].
Proof. repeat split; vm_compute; reflexivity. Qed.

Example page_lines_example :
  page_lines (Some (py "  Bitcoin " ++ nl ++ nl ++ py " BTC" ++ nl)) = [py "Bitcoin"; py "BTC"]
  /\ page_lines None = [].
Proof. split; vm_compute; reflexivity. Qed.

Example search_skips_a_prefix :
  search FINANCIAL_PATTERN (py "rank 7: $1,200.5M 500K +1.5% 0.87 tail")
  = Some [Some (py "$1,200.5M"); Some (py "500K"); Some (py "+1.5%"); None;
          Some (py "0.87")].
Proof. vm_compute. reflexivity. Qed.

Example extract_one_page :
  extract (Some (fun _ : unit =>
                   inr [inr (Some (py "Coinalyze - page 1" ++ nl ++ py "Bitcoin" ++ nl
                                   ++ py "btc" ++ nl ++ py "$1.2M 500K - - 0.87"))]))
          (fun _ => []) tt
  = Ok {| columns := token_columns;
          rows := [ [VStr (py "BTC"); VStr (py "Bitcoin"); VStr (py "1.2M");
                     VStr (py "500K"); VFloat (binary64 (87 # 100));
                     VStr (py "-"); VStr (py "-")] ] |}.
Proof. vm_compute. reflexivity. Qed.

(** ** The matcher returns only what the pattern describes *)

Section MatcherSound.

Variable A : Type.

Lemma greedy_sound cs : forall s (k : pystr -> option A) a,
  greedy cs s k = Some a ->
  exists w s', s = w ++ s' /\ Forall (fun c => cset_mem cs c = true) w /\ k s' = Some a.
Proof.
  induction s as [|c s IH]; intros k a H; simpl in H.
  - exists [], []. auto.
  - destruct (cset_mem cs c) eqn:Hc.
    + destruct (greedy cs s k) eqn:Hg.
      * inversion H; subst. apply IH in Hg. destruct Hg as (w & s' & -> & Hw & Hk).
        exists (c :: w), s'. auto.
      * exists [], (c :: s). auto.
    + exists [], (c :: s). auto.
Qed.

Lemma starts_with_split : forall p s,
  starts_with p s = true -> s = p ++ skipn (length p) s.
Proof.
  induction p as [|a p IH]; intros [|b s] H; simpl in *; try discriminate; auto.
  apply andb_true_iff in H. destruct H as [Hab Hp].
  apply N.eqb_eq in Hab. subst. f_equal. auto.
Qed.

Lemma consumed_app (w s' : pystr) : consumed (w ++ s') s' = w.
Proof.
  unfold consumed. rewrite length_app.
  replace (length w + length s' - length s') with (length w) by lia.
  rewrite firstn_app, Nat.sub_diag, firstn_all. simpl. apply app_nil_r.
Qed.

Lemma rmatch_sound : forall r s g (k : pystr -> groups -> option A) a,
  rmatch r s g k = Some a ->
  exists w s' g',
    s = w ++ s' /\ matches r w /\
    (forall j, ~ In j (groups_of r) -> g' j = g j) /\
    k s' g' = Some a.
Proof.
  induction r as [p|cs|r1 IH1 r2 IH2|r1 IH1 r2 IH2|r1 IH1|cs|cs|i r1 IH1];
    intros s g k a H; simpl in H.
  - destruct (starts_with p s) eqn:Hp; [|discriminate].
    exists p, (skipn (length p) s), g. repeat split; auto using starts_with_split.
    constructor.
  - destruct s as [|c s]; [discriminate|].
    destruct (cset_mem cs c) eqn:Hc; [|discriminate].
    exists [c], s, g. repeat split; auto. now constructor.
  - apply IH1 in H. destruct H as (w1 & s1 & g1 & -> & M1 & G1 & H).
    apply IH2 in H. destruct H as (w2 & s2 & g2 & -> & M2 & G2 & H).
    exists (w1 ++ w2), s2, g2. repeat split; auto.
    + now rewrite app_assoc.
    + now constructor.
    + intros j Hj. simpl in Hj. rewrite in_app_iff in Hj.
      rewrite G2, G1; tauto.
  - destruct (rmatch r1 s g k) eqn:H1.
    + inversion H; subst. apply IH1 in H1.
      destruct H1 as (w & s' & g' & -> & M & G & Hk).
      exists w, s', g'. repeat split; auto.
      * now apply MAltL.
      * intros j Hj. apply G. simpl in Hj. rewrite in_app_iff in Hj. tauto.
    + apply IH2 in H. destruct H as (w & s' & g' & -> & M & G & Hk).
      exists w, s', g'. repeat split; auto.
      * now apply MAltR.
      * intros j Hj. apply G. simpl in Hj. rewrite in_app_iff in Hj. tauto.
  - destruct (rmatch r1 s g k) eqn:H1.
    + inversion H; subst. apply IH1 in H1.
      destruct H1 as (w & s' & g' & -> & M & G & Hk).
      exists w, s', g'. repeat split; auto. now apply MOptSome.
    + exists [], s, g. repeat split; auto. apply MOptNone.
  - apply greedy_sound in H. destruct H as (w & s' & -> & Hw & Hk).
    exists w, s', g. repeat split; auto. now constructor.
  - destruct s as [|c s]; [discriminate|].
    destruct (cset_mem cs c) eqn:Hc; [|discriminate].
    apply greedy_sound in H. destruct H as (w & s' & -> & Hw & Hk).
    exists (c :: w), s', g. repeat split; auto. now constructor.
  - apply IH1 in H. destruct H as (w & s' & g' & -> & M & G & Hk).
    rewrite consumed_app in Hk.
    exists w, s', (set_group i w g'). repeat split; auto.
    + now constructor.
    + intros j Hj. simpl in Hj. unfold set_group.
      destruct (Nat.eqb_spec j i); [subst; tauto|]. apply G. tauto.
Qed.

(** What a capturing group leaves behind. *)
Lemma rmatch_group i r s g (k : pystr -> groups -> option A) a :
  rmatch (Group i r) s g k = Some a ->
  exists w s' g',
    s = w ++ s' /\ matches r w /\ g' i = Some w /\
    (forall j, ~ In j (i :: groups_of r) -> g' j = g j) /\
    k s' g' = Some a.
Proof.
  simpl. intros H. apply rmatch_sound in H.
  destruct H as (w & s' & g' & -> & M & G & Hk).
  rewrite consumed_app in Hk.
  exists w, s', (set_group i w g'). repeat split; auto.
  - unfold set_group. now rewrite Nat.eqb_refl.
  - intros j Hj. simpl in Hj. unfold set_group.
    destruct (Nat.eqb_spec j i); [subst; tauto|]. apply G. tauto.
Qed.

End MatcherSound.

(** ** What a match of [FINANCIAL_PATTERN] captures *)

Lemma rmatch_cat A r1 r2 s g (k : pystr -> groups -> option A) :
  rmatch (Cat r1 r2) s g k = rmatch r1 s g (fun s' g' => rmatch r2 s' g' k).
Proof. reflexivity. Qed.

Lemma financial_match_groups s gs :
  rmatch (body FINANCIAL_PATTERN) s no_groups (fun _ g => Some (match_groups 5 g)) = Some gs ->
  exists w1 w2 o3 o4 w5,
    gs = [Some w1; Some w2; o3; o4; Some w5] /\
    matches money w1 /\ matches money w2 /\ matches trailing_decimal w5.
Proof.
  unfold FINANCIAL_PATTERN, body. intros H.
  rewrite rmatch_cat in H. apply rmatch_group in H.
  destruct H as (w1 & s1 & g1 & _ & M1 & C1 & _ & H).
  rewrite rmatch_cat in H. apply rmatch_sound in H.
  destruct H as (_ & s2 & g2 & _ & _ & P2 & H).
  rewrite rmatch_cat in H. apply rmatch_group in H.
  destruct H as (w2 & s3 & g3 & _ & M2 & C2 & P3 & H).
  rewrite rmatch_cat in H. apply rmatch_sound in H.
  destruct H as (_ & s4 & g4 & _ & _ & P4 & H).
  rewrite rmatch_cat in H. apply rmatch_sound in H.
  destruct H as (_ & s5 & g5 & _ & _ & P5 & H).
  rewrite rmatch_cat in H. apply rmatch_sound in H.
  destruct H as (_ & s6 & g6 & _ & _ & P6 & H).
  apply rmatch_group in H.
  destruct H as (w5 & s7 & g7 & _ & M5 & C5 & P7 & H).
  inversion H; subst gs; clear H.
  exists w1, w2, (g7 3), (g7 4), w5.
  repeat split; auto.
  unfold match_groups. cbn [seq map].
  assert (E1 : g7 1 = Some w1).
  { rewrite P7, P6, P5, P4, P3, P2 by (cbn; intuition discriminate). exact C1. }
  assert (E2 : g7 2 = Some w2).
  { rewrite P7, P6, P5, P4 by (cbn; intuition discriminate). exact C2. }
  now rewrite E1, E2, C5.
Qed.

Lemma search_financial_groups : forall s gs,
  search FINANCIAL_PATTERN s = Some gs ->
  exists w1 w2 o3 o4 w5,
    gs = [Some w1; Some w2; o3; o4; Some w5] /\
    matches money w1 /\ matches money w2 /\ matches trailing_decimal w5.
Proof.
  unfold search. change (ngroups FINANCIAL_PATTERN) with 5.
  induction s as [|c s IH]; intros gs H; cbn [search_from] in H.
  - destruct (rmatch _ _ _ _) eqn:E; [|discriminate].
    inversion H; subst. now apply financial_match_groups in E.
  - destruct (rmatch _ _ _ _) eqn:E.
    + inversion H; subst. now apply financial_match_groups in E.
    + now apply IH.
Qed.

(** ** [float()] accepts every text that [\d*\.?\d+] matches *)

Section FloatAccepts.
Local Open Scope N_scope.

Lemma decimal_in_spec zeros c d :
  decimal_in zeros c = Some d ->
  exists z, In z zeros /\ z <= c /\ c <= z + 9 /\ d = c - z.
Proof.
  induction zeros as [|z zs IH]; simpl; [discriminate|].
  unfold in_range. destruct ((z <=? c) && (c <=? z + 9)) eqn:E.
  - intros H; inversion H; subst. apply andb_true_iff in E.
    destruct E as [E1 E2]. apply N.leb_le in E1, E2. exists z. auto.
  - intros H. apply IH in H. destruct H as (z' & Hin & H). exists z'. auto.
Qed.

Lemma decimal_zeros_ascii :
  forallb (fun z => (z =? 48) || (128 <=? z)) decimal_zeros = true.
Proof. vm_compute. reflexivity. Qed.

Lemma decimal_zeros_no_space :
  forallb (fun z => forallb (fun i => negb (uni_isspace (z + i))) [0;1;2;3;4;5;6;7;8;9])
          decimal_zeros = true.
Proof. vm_compute. reflexivity. Qed.

Lemma isdecimal_to_ascii c :
  uni_isdecimal c = true -> is_ascii_digit (to_ascii_char c) = true.
Proof.
  unfold uni_isdecimal, uni_todecimal. destruct (decimal_in decimal_zeros c) as [d|] eqn:E;
    [intros _|discriminate].
  unfold to_ascii_char, uni_todecimal. rewrite E.
  apply decimal_in_spec in E. destruct E as (z & Hin & Hlo & Hhi & ->).
  unfold is_ascii_digit, in_range.
  destruct (c <=? 127) eqn:Hc.
  - apply N.leb_le in Hc.
    pose proof decimal_zeros_ascii as Hz. rewrite forallb_forall in Hz.
    specialize (Hz z Hin). apply orb_true_iff in Hz. destruct Hz as [Hz|Hz].
    + apply N.eqb_eq in Hz. subst z.
      apply andb_true_iff; split; apply N.leb_le; lia.
    + apply N.leb_le in Hz. lia.
  - pose proof decimal_zeros_no_space as Hs. rewrite forallb_forall in Hs.
    specialize (Hs z Hin). rewrite forallb_forall in Hs.
    assert (Hi : In (c - z) [0;1;2;3;4;5;6;7;8;9]).
    { assert (c - z <= 9) by lia. simpl.
      assert (c - z = 0 \/ c - z = 1 \/ c - z = 2 \/ c - z = 3 \/ c - z = 4 \/
              c - z = 5 \/ c - z = 6 \/ c - z = 7 \/ c - z = 8 \/ c - z = 9) by lia.
      intuition auto. }
    specialize (Hs _ Hi). replace (z + (c - z)) with c in Hs by lia.
    apply negb_true_iff in Hs. rewrite Hs.
    apply andb_true_iff; split; apply N.leb_le; lia.
Qed.

Lemma span_digits_app d r :
  Forall (fun c => is_ascii_digit c = true) d ->
  span_digits (d ++ r) = (d ++ fst (span_digits r), snd (span_digits r)).
Proof.
  induction 1 as [|c d Hc Hd IH]; simpl.
  - now destruct (span_digits r).
  - rewrite Hc, IH. reflexivity.
Qed.

Lemma span_digits_all d :
  Forall (fun c => is_ascii_digit c = true) d -> span_digits d = (d, []).
Proof.
  intros H. rewrite <- (app_nil_r d) at 1. rewrite span_digits_app by assumption.
  simpl. now rewrite app_nil_r.
Qed.

Lemma parse_decimal_digits d1 d3 :
  Forall (fun c => is_ascii_digit c = true) d1 ->
  Forall (fun c => is_ascii_digit c = true) d3 ->
  d3 <> [] ->
  (exists q, parse_decimal (d1 ++ d3) = Some (q, [])) /\
  (exists q, parse_decimal (d1 ++ 46 :: d3) = Some (q, [])).
Proof.
  intros H1 H3 Hne. split; unfold parse_decimal.
  - rewrite span_digits_all by (apply Forall_app; auto).
    rewrite app_nil_r. destruct (d1 ++ d3) eqn:E.
    + apply app_eq_nil in E. tauto.
    + simpl. eauto.
  - rewrite span_digits_app by assumption. simpl.
    rewrite app_nil_r, span_digits_all by assumption.
    destruct (d1 ++ d3) eqn:E.
    + apply app_eq_nil in E. tauto.
    + simpl. eauto.
Qed.

Lemma drop_underscores_plain : forall s prev,
  prev <> 95 -> Forall (fun c => plain c = true) s -> drop_underscores prev s = Some s.
Proof.
  induction s as [|c s IH]; intros prev Hp Hs; simpl.
  - destruct (N.eqb_spec prev 95); [contradiction|reflexivity].
  - inversion Hs as [|? ? Hc Hs']; subst.
    assert (Hc95 : c <> 95).
    { intros ->. vm_compute in Hc. discriminate. }
    destruct (N.eqb_spec c 95); [contradiction|].
    destruct (N.eqb_spec prev 95); [contradiction|]. simpl.
    now rewrite IH.
Qed.

Lemma plain_not_space c : plain c = true -> ascii_isspace c = false.
Proof.
  unfold plain, is_ascii_digit, ascii_isspace, in_range. intros H.
  apply orb_true_iff in H. destruct H as [H|H].
  - apply andb_true_iff in H. destruct H as [Ha Hb]. apply N.leb_le in Ha, Hb.
    apply orb_false_iff; split.
    + apply andb_false_iff. right. apply N.leb_gt. lia.
    + apply N.eqb_neq. lia.
  - apply N.eqb_eq in H. subst. reflexivity.
Qed.

Lemma ascii_lstrip_plain s :
  Forall (fun c => plain c = true) s -> ascii_lstrip s = s.
Proof.
  intros H. destruct H as [|c s Hc Hs]; simpl; [reflexivity|].
  now rewrite (plain_not_space _ Hc).
Qed.

Lemma ascii_strip_plain s :
  Forall (fun c => plain c = true) s -> ascii_strip s = s.
Proof.
  intros H. unfold ascii_strip. rewrite (ascii_lstrip_plain H).
  rewrite ascii_lstrip_plain by now apply Forall_rev.
  apply rev_involutive.
Qed.

Lemma split_sign_plain s :
  Forall (fun c => plain c = true) s -> split_sign s = (false, s).
Proof.
  intros H. destruct H as [|c s Hc Hs]; simpl; [reflexivity|].
  destruct (N.eqb_spec c 45); [subst; vm_compute in Hc; discriminate|].
  destruct (N.eqb_spec c 43); [subst; vm_compute in Hc; discriminate|].
  reflexivity.
Qed.

Lemma digit_set_mem c : cset_mem (cls [ClassD]) c = uni_isdecimal c.
Proof. unfold cset_mem. simpl. now rewrite orb_false_r. Qed.

Lemma to_ascii_digits w :
  Forall (fun c => cset_mem (cls [ClassD]) c = true) w ->
  Forall (fun c => is_ascii_digit c = true) (map to_ascii_char w).
Proof.
  induction 1 as [|c w Hc Hw IH]; simpl; constructor; auto.
  apply isdecimal_to_ascii. now rewrite <- digit_set_mem.
Qed.

Lemma digits_plain d :
  Forall (fun c => is_ascii_digit c = true) d -> Forall (fun c => plain c = true) d.
Proof.
  apply Forall_impl. intros c H. unfold plain. now rewrite H.
Qed.

Lemma trailing_decimal_shape w :
  matches trailing_decimal w ->
  exists w1 dot w3,
    w = w1 ++ dot ++ w3 /\ (dot = [] \/ dot = [46]) /\ w3 <> [] /\
    Forall (fun c => cset_mem (cls [ClassD]) c = true) w1 /\
    Forall (fun c => cset_mem (cls [ClassD]) c = true) w3.
Proof.
  unfold trailing_decimal. intros M.
  inversion M as [| |r1 r2 w1 w23 M1 M23| | | | | | |]; subst; clear M.
  inversion M23 as [| |r1 r2 w2 w3 M2 M3| | | | | | |]; subst; clear M23.
  exists w1, w2, w3.
  inversion M1; subst. inversion M3; subst.
  repeat split; auto; try discriminate.
  inversion M2 as [| | | | |r3 w4 ML|r3| | |]; subst; [|now left].
  inversion ML; subst. now right.
Qed.

Lemma trailing_decimal_parses w :
  matches trailing_decimal w -> exists v, py_float w = Ok v.
Proof.
  intros M. apply trailing_decimal_shape in M.
  destruct M as (w1 & dot & w3 & -> & Hdot & Hne & F1 & F3).
  assert (D1 := to_ascii_digits F1). assert (D3 := to_ascii_digits F3).
  assert (Hne' : map to_ascii_char w3 <> []).
  { destruct w3; [contradiction|discriminate]. }
  destruct (parse_decimal_digits D1 D3 Hne') as [[q0 P0] [q1 P1]].
  unfold py_float. rewrite !map_app.
  destruct Hdot as [-> | ->].
  - simpl app at 2.
    set (t := map to_ascii_char w1 ++ map to_ascii_char w3).
    assert (Ht : Forall (fun c => plain c = true) t).
    { unfold t. apply Forall_app; split; now apply digits_plain. }
    rewrite drop_underscores_plain by (auto; lia).
    rewrite ascii_strip_plain by assumption.
    unfold parse_float. rewrite split_sign_plain by assumption.
    unfold t. rewrite P0. eauto.
  - change (map to_ascii_char [46]) with [46].
    change ([46] ++ map to_ascii_char w3) with (46 :: map to_ascii_char w3).
    set (t := map to_ascii_char w1 ++ 46 :: map to_ascii_char w3).
    assert (Ht : Forall (fun c => plain c = true) t).
    { unfold t. apply Forall_app; split; [now apply digits_plain|].
      constructor; [reflexivity|now apply digits_plain]. }
    rewrite drop_underscores_plain by (auto; lia).
    rewrite ascii_strip_plain by assumption.
    unfold parse_float. rewrite split_sign_plain by assumption.
    unfold t. rewrite P1. eauto.
Qed.

End FloatAccepts.

(** ** The first loop: line classification *)

Lemma classify_line_cases fins raws line :
  (is_noise line = true /\ classify_line (fins, raws) line = Ok (fins, raws))
  \/ (is_noise line = false /\
      exists w1 w2 o3 o4 w5 q,
        search FINANCIAL_PATTERN line = Some [Some w1; Some w2; o3; o4; Some w5] /\
        py_float w5 = Ok q /\
        classify_line (fins, raws) line
        = Ok (fins ++ [(strip_money w1, strip_money w2, Some w5, o3, o4)], raws))
  \/ (is_noise line = false /\ search FINANCIAL_PATTERN line = None /\
      classify_line (fins, raws) line
      = Ok (fins, if is_label line then raws ++ [line] else raws)).
Proof.
  unfold classify_line. fold (is_noise line).
  destruct (is_noise line); [now left|right].
  destruct (search FINANCIAL_PATTERN line) as [gs|] eqn:Hs.
  - left. split; [reflexivity|].
    destruct (search_financial_groups _ Hs) as (w1 & w2 & o3 & o4 & w5 & -> & _ & _ & M5).
    destruct (trailing_decimal_parses M5) as [q Hq].
    exists w1, w2, o3, o4, w5, q. repeat split; auto.
    cbn. rewrite Hq. reflexivity.
  - right. repeat split; auto. fold (is_label line). now destruct (is_label line).
Qed.

Lemma classify_loop_ok : forall lines fins raws,
  Forall vtmr_parses fins ->
  exists fins' raws',
    for_each classify_line lines (fins, raws) = Ok (fins', raws') /\
    Forall vtmr_parses fins'.
Proof.
  induction lines as [|line lines IH]; intros fins raws Hf; cbn [for_each].
  - eauto.
  - destruct (classify_line_cases fins raws line)
      as [[_ E]|[(_ & w1 & w2 & o3 & o4 & w5 & q & _ & Hq & E)|(_ & _ & E)]];
      rewrite E; cbn [bind].
    + now apply IH.
    + apply IH. apply Forall_app; split; auto.
      constructor; [|constructor]. simpl. eauto.
    + now apply IH.
Qed.

(** ** The second loop: the pair resolver *)

Lemma truthy_clean l :
  truthy (_clean_ticker_strict l)
  = if Spec.is_strict_ticker l then Some (normalize_ticker l) else None.
Proof.
  unfold _clean_ticker_strict, Spec.is_strict_ticker.
  set (cleaned := normalize_ticker l).
  set (ok := (2 <=? length cleaned) && (length cleaned <=? 12)).
  rewrite <- andb_assoc. fold ok.
  destruct (Nat.ltb_spec 15 (length l)), (Nat.leb_spec (length l) 15);
    try lia; cbn [andb]; [reflexivity|].
  destruct ok eqn:E; [|reflexivity].
  destruct cleaned; [discriminate|reflexivity].
Qed.

Lemma skipn_cons_nth A (l : list A) i x :
  nth_error l i = Some x -> skipn i l = x :: skipn (S i) l.
Proof.
  revert i. induction l as [|a l IH]; intros [|i] H; simpl in *; try discriminate.
  - now inversion H.
  - now apply IH.
Qed.

Lemma getitem_lt A (l : list A) i :
  i < length l -> exists x, nth_error l i = Some x /\ getitem l i = Ok x.
Proof.
  intros H. unfold getitem. destruct (nth_error l i) eqn:E; eauto.
  apply nth_error_None in E. lia.
Qed.

Lemma pair_loop_spec : forall fuel raw i acc,
  length raw - i <= fuel ->
  pair_loop fuel raw i acc = Ok (acc ++ Spec.resolve_pairs (skipn i raw)).
Proof.
  induction fuel as [|fuel IH]; intros raw i acc Hfuel.
  - simpl. destruct (Nat.ltb_spec i (length raw)); [lia|].
    rewrite skipn_all2 by lia. simpl. now rewrite app_nil_r.
  - cbn [pair_loop]. destruct (Nat.ltb_spec i (length raw)) as [Hi|Hi].
    2:{ rewrite skipn_all2 by lia. simpl. now rewrite app_nil_r. }
    destruct (getitem_lt raw Hi) as (line & Hn & ->). cbn [bind].
    rewrite (skipn_cons_nth _ _ Hn).
    destruct (Nat.ltb_spec (i + 1) (length raw)) as [Hi1|Hi1].
    + destruct (getitem_lt raw Hi1) as (next & Hn1 & ->). cbn [bind].
      replace (S i) with (i + 1) by lia.
      rewrite (skipn_cons_nth _ _ Hn1). cbn [Spec.resolve_pairs].
      rewrite !truthy_clean.
      destruct (Spec.is_strict_ticker next).
      * replace (S (i + 1)) with (i + 2) by lia.
        destruct (Spec.is_strict_ticker line); cbn [bind];
          rewrite IH by lia; now rewrite <- app_assoc.
      * destruct (Spec.is_strict_ticker line); cbn [bind]; rewrite IH by lia;
          now rewrite (skipn_cons_nth _ _ Hn1).
    + rewrite (skipn_all2 raw (n := S i)) by lia. cbn [Spec.resolve_pairs].
      rewrite truthy_clean.
      destruct (Spec.is_strict_ticker line); cbn [bind]; rewrite IH by lia;
        rewrite skipn_all2 by lia; reflexivity.
Qed.

(** ** The third loop: zipping pairs and financial tuples *)

Lemma nth_error_combine A B (l : list A) (l' : list B) : forall k a b,
  nth_error l k = Some a -> nth_error l' k = Some b ->
  nth_error (combine l l') k = Some (a, b).
Proof.
  revert l'. induction l as [|x l IH]; intros [|y l'] [|k] a b Ha Hb;
    simpl in *; try discriminate.
  - now inversion Ha; inversion Hb.
  - now apply IH.
Qed.

Lemma build_loop_ok pairs fins :
  Forall vtmr_parses fins ->
  forall n k0 tokens,
    k0 + n <= Nat.min (length pairs) (length fins) ->
    exists recs,
      for_each (build_token pairs fins) (seq k0 n) tokens = Ok (tokens ++ recs) /\
      Forall2 record_of recs (firstn n (skipn k0 (combine pairs fins))).
Proof.
  intros Hf. induction n as [|n IH]; intros k0 tokens Hk; cbn [seq for_each].
  - exists []. rewrite app_nil_r. split; [reflexivity|constructor].
  - assert (Hp : k0 < length pairs) by lia. assert (Hq : k0 < length fins) by lia.
    destruct (getitem_lt pairs Hp) as ([name0 ticker0] & Np & Gp).
    destruct (getitem_lt fins Hq) as ([[[[mc vol] vtmr0] oi] fund] & Nf & Gf).
    assert (Hv : vtmr_parses (mc, vol, vtmr0, oi, fund)).
    { rewrite Forall_forall in Hf. apply Hf. eapply nth_error_In; eauto. }
    destruct Hv as [v Hv].
    unfold build_token at 1. rewrite Gp, Gf. cbn [bind]. rewrite Hv. cbn [bind].
    destruct (IH (S k0) (tokens ++ [new_TokenData ticker0 name0 mc vol v (Some fund) (Some oi)]))
      as (recs & E & F); [lia|].
    rewrite E, <- app_assoc.
    eexists. split; [reflexivity|].
    rewrite (skipn_cons_nth _ _ (nth_error_combine _ _ _ Np Nf)). cbn [firstn app].
    constructor; [|exact F]. simpl. eauto.
Qed.

Lemma parse_page_structure lines :
  exists fins raws recs,
    for_each classify_line lines ([], []) = Ok (fins, raws) /\
    _parse_page_smart lines = Ok recs /\
    Forall2 record_of recs (combine (Spec.resolve_pairs raws) fins).
Proof.
  destruct (classify_loop_ok lines (fins := []) [] (Forall_nil _))
    as (fins & raws & E & Hf).
  destruct (build_loop_ok (Spec.resolve_pairs raws) Hf
              (Nat.min (length (Spec.resolve_pairs raws)) (length fins)) 0 [])
    as (recs & B & F); [lia|].
  exists fins, raws, recs. split; [exact E|]. split.
  - unfold _parse_page_smart. rewrite E. cbn [bind].
    rewrite pair_loop_spec by lia. cbn [bind skipn app]. exact B.
  - rewrite skipn_O, <- length_combine, firstn_all in F. exact F.
Qed.

Lemma parse_page_total lines : exists recs, _parse_page_smart lines = Ok recs.
Proof.
  destruct (parse_page_structure lines) as (_ & _ & recs & _ & E & _). eauto.
Qed.

(** ** Ticker validity *)

Lemma ascii_alnum_keeps_one_table :
  forallb (fun n => implb (Spec.ascii_alnum (N.of_nat n)) (keeps_one (N.of_nat n)))
          (seq 0 128) = true.
Proof. vm_compute. reflexivity. Qed.

Lemma ascii_alnum_keeps_one c : Spec.ascii_alnum c = true -> keeps_one c = true.
Proof.
  intros H.
  assert (Hc : (c < 128)%N).
  { unfold Spec.ascii_alnum, in_range in H.
    change (chr "A") with 65%N in H. change (chr "Z") with 90%N in H.
    change (chr "a") with 97%N in H. change (chr "z") with 122%N in H.
    change (chr "0") with 48%N in H. change (chr "9") with 57%N in H.
    rewrite !orb_true_iff, !andb_true_iff, !N.leb_le in H. lia. }
  pose proof ascii_alnum_keeps_one_table as T. rewrite forallb_forall in T.
  specialize (T (N.to_nat c)). rewrite N2Nat.id, H in T. apply T.
  apply in_seq. lia.
Qed.

Lemma normalize_ticker_cons c s :
  normalize_ticker (c :: s) = normalize_ticker [c] ++ normalize_ticker s.
Proof.
  unfold normalize_ticker, sub_delete, upper. simpl flat_map.
  now rewrite app_nil_r, filter_app.
Qed.

Lemma normalize_alnum_length s :
  forallb Spec.ascii_alnum s = true -> length (normalize_ticker s) = length s.
Proof.
  induction s as [|c s IH]; intros H; [reflexivity|].
  simpl in H. apply andb_true_iff in H. destruct H as [Hc Hs].
  rewrite normalize_ticker_cons, length_app, IH by assumption.
  apply ascii_alnum_keeps_one in Hc. unfold keeps_one in Hc.
  destruct (normalize_ticker [c]) as [|x [|y l]]; try discriminate. reflexivity.
Qed.

Lemma clean_ticker_strict_spec text :
  _clean_ticker_strict text
  = if Spec.is_strict_ticker text then Some (normalize_ticker text) else None.
Proof.
  unfold _clean_ticker_strict, Spec.is_strict_ticker.
  rewrite <- andb_assoc.
  destruct (Nat.ltb_spec 15 (length text)), (Nat.leb_spec (length text) 15);
    try lia; reflexivity.
Qed.

Lemma is_strict_ticker_iff text :
  Spec.is_strict_ticker text = true <->
  length text <= 15 /\ 2 <= length (normalize_ticker text) <= 12.
Proof.
  unfold Spec.is_strict_ticker. rewrite !andb_true_iff, !Nat.leb_le. tauto.
Qed.

(** * The claims *)

(** C1 (failing input).  On the page [Bitcoin / BTC / 1.2M 500K 0.87] both
    optional percentage groups are absent from the financial line; the
    record built from it has [funding = None] and [oiss = None], not the
    string ["-"]: the call passes both keyword arguments, so the defaults of
    the dataclass never apply. *)
Theorem absent_group_gives_None :
  _parse_page_smart [py "Bitcoin"; py "BTC"; py "1.2M 500K 0.87"]
  = Ok [ {| ticker := py "BTC"; name := py "Bitcoin"; market_cap := py "1.2M";
            volume := py "500K"; vtmr := binary64 (87 # 100);
            funding := None; oiss := None |} ]
  /\ new_TokenData (py "BTC") (py "Bitcoin") (py "1.2M") (py "500K") (binary64 (87 # 100))
                   None None
     = {| ticker := py "BTC"; name := py "Bitcoin"; market_cap := py "1.2M";
          volume := py "500K"; vtmr := binary64 (87 # 100);
          funding := Some (py "-"); oiss := Some (py "-") |}.
Proof. split; vm_compute; reflexivity. Qed.

(** C2 (counterexample).  The line [page 1 2 3] matches the pattern and its
    trailing token [3] parses as a float, yet it is not classified as
    financial: the noise filter drops it first. *)
Lemma noise_line_matches_but_is_dropped :
  pattern_and_float (py "page 1 2 3") /\ ~ classified_financial (py "page 1 2 3").
Proof.
  split.
  - exists [Some (py "1"); Some (py "2"); None; None; Some (py "3")], (py "3"),
      (Finite (3 # 1)).
    repeat split; vm_compute; reflexivity.
  - intros [t H]. specialize (H [] []). vm_compute in H. discriminate.
Qed.

(** C2 (amended).  A line that holds none of the noise keywords is
    classified as financial exactly when the pattern matches it and the
    trailing decimal token parses as a float.  The line [1.2M 500K - - 0.87]
    is classified financial with market cap [1.2M], volume [500K], open
    interest [-], funding [-] and the trailing text [0.87], whose float value
    is 0.87; the line [1.2M 500K - - N/A] is not classified financial. *)
Theorem financial_line_iff :
  (forall line, is_noise line = false ->
                (classified_financial line <-> pattern_and_float line))
  /\ (forall fins raws,
         classify_line (fins, raws) (py "1.2M 500K - - 0.87")
         = Ok (fins ++ [(py "1.2M", py "500K", Some (py "0.87"),
                         Some (py "-"), Some (py "-"))], raws))
  /\ py_float (py "0.87") = Ok (binary64 (87 # 100))
  /\ ~ classified_financial (py "1.2M 500K - - N/A").
Proof.
  split; [|split; [|split]].
  - intros line Hn. split.
    + intros [t H]. specialize (H [] []).
      destruct (classify_line_cases [] [] line)
        as [[Hn' _]|[(_ & w1 & w2 & o3 & o4 & w5 & q & Hs & Hq & _)|(_ & _ & E)]].
      * congruence.
      * exists [Some w1; Some w2; o3; o4; Some w5], w5, q. auto.
      * rewrite E in H. inversion H.
    + intros (groups & w & v & Hs & _ & _).
      destruct (classify_line_cases [] [] line)
        as [[Hn' _]|[(_ & w1 & w2 & o3 & o4 & w5 & q & Hs' & Hq & _)|(_ & Hs' & _)]];
        [congruence| |congruence].
      exists (strip_money w1, strip_money w2, Some w5, o3, o4). intros fins raws.
      destruct (classify_line_cases fins raws line)
        as [[Hn' _]|[(_ & x1 & x2 & y3 & y4 & x5 & q' & Hs'' & _ & E)|(_ & Hs'' & _)]];
        [congruence| |congruence].
      rewrite Hs' in Hs''. inversion Hs''; subst. exact E.
  - intros fins raws. vm_compute. reflexivity.
  - vm_compute. reflexivity.
  - intros [t H]. specialize (H [] []). vm_compute in H. discriminate.
Qed.

Lemma financial_line_iff_witness :
  is_noise (py "1.2M 500K - - 0.87") = false /\
  (classified_financial (py "1.2M 500K - - 0.87")
   <-> pattern_and_float (py "1.2M 500K - - 0.87")).
Proof.
  split; [reflexivity|].
  apply (proj1 financial_line_iff (py "1.2M 500K - - 0.87")). reflexivity.
Defined.

(** C3 (failing input).  With an em-dash or an en-dash in an optional
    percentage position the pattern does not match at all, so the line
    [1.2M 500K — N/A 0.87] is not a financial line: the character set of the
    pattern holds the characters [‚], [Ä], [ì], [î] of a mis-decoded dash
    instead.  A signed percentage, a plain dash and [N/A] are accepted. *)
Theorem dash_glyphs_rejected :
  search FINANCIAL_PATTERN (py "1.2M 500K — N/A 0.87") = None
  /\ search FINANCIAL_PATTERN (py "1.2M 500K – N/A 0.87") = None
  /\ (forall fins raws,
         classify_line (fins, raws) (py "1.2M 500K — N/A 0.87")
         = Ok (fins, raws ++ [py "1.2M 500K — N/A 0.87"]))
  /\ search FINANCIAL_PATTERN (py "1.2M 500K - N/A 0.87")
     = Some [Some (py "1.2M"); Some (py "500K"); Some (py "-"); Some (py "N/A");
             Some (py "0.87")]
  /\ search FINANCIAL_PATTERN (py "1.2M 500K +1.5% -0.01% 0.87")
     = Some [Some (py "1.2M"); Some (py "500K"); Some (py "+1.5%"); Some (py "-0.01%");
             Some (py "0.87")]
  /\ search FINANCIAL_PATTERN (py "1.2M 500K ‚ Ä 0.87")
     = Some [Some (py "1.2M"); Some (py "500K"); Some (py "‚"); Some (py "Ä");
             Some (py "0.87")].
Proof. repeat split; intros; vm_compute; reflexivity. Qed.

(** C4.  The resolver loop, run with fuel for one step per label line,
    returns exactly the pairs of the single greedy forward pass: at each
    position it emits (line[i], normalized line[i+1]) and skips two lines
    when line[i+1] is a strict ticker, and skips one line otherwise.  On
    [BTC, BTC, Bitcoin, ETH] it yields (BTC, BTC) and (Bitcoin, ETH). *)
Theorem resolver_greedy_pass :
  (forall raw_text_lines,
      pair_loop (length raw_text_lines) raw_text_lines 0 []
      = Ok (Spec.resolve_pairs raw_text_lines))
  /\ pair_loop 4 [py "BTC"; py "BTC"; py "Bitcoin"; py "ETH"] 0 []
     = Ok [(py "BTC", py "BTC"); (py "Bitcoin", py "ETH")].
Proof.
  split.
  - intros raw. rewrite pair_loop_spec by lia. reflexivity.
  - vm_compute. reflexivity.
Qed.

(** C5.  For every page the parser returns, without raising, one record per
    position of the zip of the resolved pairs with the financial tuples:
    their number is the minimum of the two lengths and the k-th record is
    built from the k-th pair and the k-th tuple.  A page with three pairs
    and two financial lines yields the two records of the first two pairs. *)
Theorem page_records_zip :
  (forall lines,
      exists financials raw_text_lines token_pairs tokens,
        for_each classify_line lines ([], []) = Ok (financials, raw_text_lines) /\
        pair_loop (length raw_text_lines) raw_text_lines 0 [] = Ok token_pairs /\
        _parse_page_smart lines = Ok tokens /\
        length tokens = Nat.min (length token_pairs) (length financials) /\
        Forall2 record_of tokens (combine token_pairs financials) /\
        map (fun t => (name t, ticker t)) tokens
        = firstn (length financials) token_pairs)
  /\ (exists f1 f2,
         for_each classify_line page_3_pairs_2_financials ([], [])
         = Ok ([f1; f2], [py "Bitcoin"; py "BTC"; py "Ethereum"; py "ETH";
                          py "Solana"; py "SOL"]))
  /\ pair_loop 6 [py "Bitcoin"; py "BTC"; py "Ethereum"; py "ETH"; py "Solana"; py "SOL"] 0 []
     = Ok [(py "Bitcoin", py "BTC"); (py "Ethereum", py "ETH"); (py "Solana", py "SOL")]
  /\ _parse_page_smart page_3_pairs_2_financials
     = Ok [ {| ticker := py "BTC"; name := py "Bitcoin"; market_cap := py "1.2M";
               volume := py "500K"; vtmr := binary64 (87 # 100);
               funding := Some (py "-"); oiss := Some (py "-") |};
            {| ticker := py "ETH"; name := py "Ethereum"; market_cap := py "2000.5M";
               volume := py "1M"; vtmr := Finite (1 # 2);
               funding := Some (py "-0.01%"); oiss := Some (py "+1.5%") |} ].
Proof.
  split; [|split; [|split]].
  - intros lines.
    destruct (parse_page_structure lines) as (fins & raws & recs & E & P & F).
    exists fins, raws, (Spec.resolve_pairs raws), recs.
    split; [exact E|]. split; [rewrite pair_loop_spec by lia; reflexivity|].
    split; [exact P|].
    assert (L : length recs = Nat.min (length (Spec.resolve_pairs raws)) (length fins)).
    { rewrite <- length_combine. eapply Forall2_length; eauto. }
    split; [exact L|]. split; [exact F|].
    clear E P L. revert fins recs F.
    induction (Spec.resolve_pairs raws) as [|[n0 t0] pairs IH]; intros fins recs F.
    + simpl in F. inversion F. now rewrite firstn_nil.
    + destruct fins as [|[[[[mc vol] v0] oi] fund] fins]; simpl in F; inversion F; subst.
      * reflexivity.
      * simpl. f_equal.
        -- match goal with H : record_of _ _ |- _ => destruct H as (v & _ & ->) end.
           reflexivity.
        -- now apply IH.
  - eexists _, _. vm_compute. reflexivity.
  - vm_compute. reflexivity.
  - vm_compute. reflexivity.
Qed.

(** C8.  [_clean_ticker_strict] accepts a text, returning its normalized
    form, exactly when the raw length is at most 15 and the normalized form
    has between 2 and 12 characters.  [A] is rejected, [AB] is accepted,
    every string of 12 ASCII letters and digits is accepted and every such
    string of 13 characters is rejected. *)
Theorem strict_ticker_boundaries :
  (forall text,
      (_clean_ticker_strict text = Some (normalize_ticker text) <->
       length text <= 15 /\ 2 <= length (normalize_ticker text) <= 12)
      /\ (_clean_ticker_strict text = None <->
          ~ (length text <= 15 /\ 2 <= length (normalize_ticker text) <= 12)))
  /\ _clean_ticker_strict (py "A") = None
  /\ _clean_ticker_strict (py "AB") = Some (py "AB")
  /\ (forall s, forallb Spec.ascii_alnum s = true -> length s = 12 ->
                _clean_ticker_strict s = Some (normalize_ticker s))
  /\ (forall s, forallb Spec.ascii_alnum s = true -> length s = 13 ->
                _clean_ticker_strict s = None).
Proof.
  split; [|split; [|split; [|split]]].
  - intros text. rewrite clean_ticker_strict_spec.
    pose proof (is_strict_ticker_iff text) as I.
    destruct (Spec.is_strict_ticker text); split; split; intros H;
      try reflexivity; try discriminate.
    + now apply I.
    + exfalso. apply H. now apply I.
    + apply I in H. discriminate.
    + intros H'. apply I in H'. discriminate.
  - reflexivity.
  - reflexivity.
  - intros s Ha Hl. rewrite clean_ticker_strict_spec.
    pose proof (normalize_alnum_length s Ha) as N.
    replace (Spec.is_strict_ticker s) with true; [reflexivity|].
    symmetry. apply is_strict_ticker_iff. lia.
  - intros s Ha Hl. rewrite clean_ticker_strict_spec.
    pose proof (normalize_alnum_length s Ha) as N.
    destruct (Spec.is_strict_ticker s) eqn:E; [|reflexivity].
    apply is_strict_ticker_iff in E. lia.
Qed.

Lemma strict_ticker_boundaries_witness :
  _clean_ticker_strict (py "1000SHIBUSDT") = Some (normalize_ticker (py "1000SHIBUSDT"))
  /\ _clean_ticker_strict (py "1000SHIBUSDTX") = None.
Proof.
  split.
  - apply (proj1 (proj2 (proj2 (proj2 strict_ticker_boundaries)))); reflexivity.
  - apply (proj2 (proj2 (proj2 (proj2 strict_ticker_boundaries)))); reflexivity.
Defined.

(** C10 (counterexample).  The pattern matches the line
    [Filter 12.5M 7 0.5] and [float()] accepts its trailing group, yet the
    line does not become a financial tuple: it holds a noise keyword, and the
    loop body leaves both lists as they were. *)
Lemma matched_noise_line_stores_nothing :
  search FINANCIAL_PATTERN (py "Filter 12.5M 7 0.5")
  = Some [Some (py "12.5M"); Some (py "7"); None; None; Some (py "0.5")]
  /\ py_float (py "0.5") = Ok (Finite (1 # 2))
  /\ (forall fins raws,
         classify_line (fins, raws) (py "Filter 12.5M 7 0.5") = Ok (fins, raws))
  /\ ~ classified_financial (py "Filter 12.5M 7 0.5").
Proof.
  split; [vm_compute; reflexivity|]. split; [vm_compute; reflexivity|].
  split; [intros; vm_compute; reflexivity|].
  intros [t H]. specialize (H [] []). vm_compute in H. discriminate.
Qed.

(** C10 (amended).  Whenever the financial pattern matches a line, the
    trailing group is present and [float()] accepts its text, so the
    [except] branch of the classifier, which would keep the line as a label
    line, is never taken.  A matched line that holds no noise keyword becomes
    a financial tuple; a matched line that holds one is dropped. *)
Theorem trailing_group_always_parses line groups :
  search FINANCIAL_PATTERN line = Some groups ->
  (exists w v, nth_error groups 4 = Some (Some w) /\ float_of (Some w) = Ok v)
  /\ (forall fins raws, classify_line (fins, raws) line <> Ok (fins, raws ++ [line]))
  /\ (is_noise line = false -> classified_financial line)
  /\ (is_noise line = true ->
      forall fins raws, classify_line (fins, raws) line = Ok (fins, raws)).
Proof.
  intros Hs.
  destruct (search_financial_groups _ Hs) as (w1 & w2 & o3 & o4 & w5 & -> & _ & _ & M5).
  destruct (trailing_decimal_parses M5) as [v Hv].
  split; [exists w5, v; split; [reflexivity|exact Hv]|].
  assert (C : forall fins raws,
             (is_noise line = true /\ classify_line (fins, raws) line = Ok (fins, raws))
             \/ (is_noise line = false /\
                 classify_line (fins, raws) line
                 = Ok (fins ++ [(strip_money w1, strip_money w2, Some w5, o3, o4)], raws))).
  { intros fins raws.
    destruct (classify_line_cases fins raws line)
      as [[N E]|[(N & x1 & x2 & y3 & y4 & x5 & q & Hs' & _ & E)|(_ & Hs' & _)]];
      [now left| |congruence].
    right. split; [exact N|]. rewrite Hs in Hs'. inversion Hs'; subst. exact E. }
  split; [|split].
  - intros fins raws E.
    assert (L : length raws <> length (raws ++ [line])).
    { rewrite length_app. cbn [length]. lia. }
    destruct (C fins raws) as [[_ E']|[_ E']]; rewrite E' in E; inversion E;
      apply L; congruence.
  - intros N. exists (strip_money w1, strip_money w2, Some w5, o3, o4).
    intros fins raws. destruct (C fins raws) as [[N' _]|[_ E]]; [congruence|exact E].
  - intros N fins raws. destruct (C fins raws) as [[_ E]|[N' _]]; [exact E|congruence].
Qed.

Lemma trailing_group_always_parses_witness :
  (exists w v,
      nth_error [Some (py "1.2M"); Some (py "500K"); Some (py "-"); Some (py "-");
                 Some (py "0.87")] 4 = Some (Some w)
      /\ float_of (Some w) = Ok v)
  /\ classified_financial (py "1.2M 500K - - 0.87").
Proof.
  destruct (@trailing_group_always_parses (py "1.2M 500K - - 0.87")
              [Some (py "1.2M"); Some (py "500K"); Some (py "-"); Some (py "-");
               Some (py "0.87")]) as (P & _ & F & _).
  - vm_compute. reflexivity.
  - split; [exact P|]. apply F. vm_compute. reflexivity.
Defined.

(** ** Fail-soft loaders *)

Lemma bind_terminates A B (c : outcome A) (k : A -> outcome B) :
  terminates c -> (forall a, terminates (k a)) -> terminates (bind c k).
Proof. unfold terminates. destruct c; simpl; auto; discriminate. Qed.

Lemma call_terminates A (r : exn + A) : terminates (call r).
Proof. destruct r; discriminate. Qed.

Lemma getitem_terminates A (l : list A) i : terminates (getitem l i).
Proof. unfold getitem. destruct (nth_error l i); discriminate. Qed.

Lemma for_each_terminates A S (body : S -> A -> outcome S) :
  (forall st x, terminates (body st x)) ->
  forall xs st, terminates (for_each body xs st).
Proof.
  intros Hb. induction xs as [|x xs IH]; intros st; simpl; [discriminate|].
  apply bind_terminates; auto.
Qed.

Lemma apply_column_terminates c f df : terminates (apply_column c f df).
Proof.
  unfold apply_column. destruct (index_of c (columns df)); [|discriminate].
  destruct (1 <? _); discriminate.
Qed.

Lemma lower_all_terminates cs : terminates (lower_all cs).
Proof.
  induction cs as [|c cs IH]; simpl; [discriminate|].
  apply bind_terminates; [destruct c; discriminate|].
  intros x. apply bind_terminates; [exact IH|]. discriminate.
Qed.

Lemma try_except_default A (body : outcome A) (d : A) :
  terminates body ->
  (exists x, try_except body (fun _ => Ok d) = Ok x) /\
  (forall e, body = Raise e -> try_except body (fun _ => Ok d) = Ok d).
Proof.
  unfold terminates. destruct body; simpl; intros H; split; eauto;
    try discriminate; contradiction.
Qed.

Lemma page_step_terminates data page : terminates (page_step data page).
Proof.
  unfold page_step. apply bind_terminates; [apply call_terminates|].
  intros text. destruct (parse_page_total (page_lines text)) as [recs ->].
  discriminate.
Qed.

Lemma page_loop_raises : forall pages data e,
  In (inl e) pages -> exists e', for_each page_step pages data = Raise e'.
Proof.
  induction pages as [|p pages IH]; intros data e Hin; [contradiction|].
  cbn [for_each]. destruct p as [e0|text].
  - exists e0. reflexivity.
  - destruct Hin as [Hin|Hin]; [discriminate|].
    unfold page_step at 1. cbn [call bind].
    destruct (parse_page_total (page_lines text)) as [recs ->]. cbn [bind].
    eapply IH; eauto.
Qed.

Lemma normalize_token_frame_ok float_repr data :
  exists df,
    (let df0 := frame_of_tokens data in
     if negb (df_empty df0)
     then apply_column (py "ticker") (normalize_cell float_repr) df0
     else Ok df0) = Ok df.
Proof.
  destruct data as [|t data]; [simpl; eauto|].
  cbv zeta. unfold frame_of_tokens.
  change (df_empty _) with false. cbn [negb].
  unfold apply_column. cbn [columns].
  change (index_of (py "ticker") token_columns) with (Some 0).
  change (count_occ (list_eq_dec N.eq_dec) token_columns (py "ticker")) with 1.
  change (1 <? 1) with false. cbv iota. eauto.
Qed.

Lemma extract_total Path pypdf float_repr (path : Path) :
  exists df, extract pypdf float_repr path = Ok df.
Proof.
  unfold extract. destruct pypdf as [reader|]; [|eauto].
  fold page_step.
  match goal with
  | |- context [try_except ?b ?h] =>
    assert (T : terminates b)
  end.
  { apply bind_terminates; [apply call_terminates|]. intros pages.
    apply bind_terminates; [|discriminate].
    apply for_each_terminates. apply page_step_terminates. }
  apply (try_except_default None) in T. destruct T as [[parsed ->] _].
  cbn [bind]. destruct parsed as [data|]; [|eauto].
  apply normalize_token_frame_ok.
Qed.

Lemma load_spot_total Path read_html float_repr (path : Path) :
  exists df, load_spot read_html float_repr path = Ok df.
Proof.
  unfold load_spot.
  match goal with
  | |- context [try_except ?b ?h] => assert (T : terminates b)
  end.
  { apply bind_terminates; [apply call_terminates|]. intros tables.
    apply bind_terminates; [apply getitem_terminates|]. intros t.
    apply bind_terminates; [apply lower_all_terminates|]. intros cols.
    cbv zeta. destruct (has_column _ _); [apply apply_column_terminates|discriminate]. }
  apply (try_except_default empty_frame) in T. destruct T as [T _]. exact T.
Qed.

(** C7.  Whatever the path and whatever pypdf and pandas do with it,
    [extract] and [load_spot] return a frame and raise nothing (and the
    resolver loop inside never runs out of steps).  When pypdf is missing,
    when the reader or the text extraction of some page raises, when
    [read_html] raises or finds no table, the result is the empty frame. *)
Theorem loaders_fail_soft :
  (forall (Path : Type) pypdf float_repr (path : Path),
      exists df, extract pypdf float_repr path = Ok df)
  /\ (forall (Path : Type) float_repr (path : Path),
         extract None float_repr path = Ok empty_frame)
  /\ (forall (Path : Type) reader float_repr (path : Path) e,
         reader path = inl e ->
         extract (Some reader) float_repr path = Ok empty_frame)
  /\ (forall (Path : Type) reader float_repr (path : Path) pages e,
         reader path = inr pages -> In (inl e) pages ->
         extract (Some reader) float_repr path = Ok empty_frame)
  /\ (forall (Path : Type) read_html float_repr (path : Path),
         exists df, load_spot read_html float_repr path = Ok df)
  /\ (forall (Path : Type) read_html float_repr (path : Path) e,
         read_html path = inl e ->
         load_spot read_html float_repr path = Ok empty_frame)
  /\ (forall (Path : Type) read_html float_repr (path : Path),
         read_html path = inr [] ->
         load_spot read_html float_repr path = Ok empty_frame).
Proof.
  repeat split.
  - intros. apply extract_total.
  - intros Path reader float_repr path e H. unfold extract. rewrite H. reflexivity.
  - intros Path reader float_repr path pages e H Hin. unfold extract. rewrite H.
    cbn [call bind]. fold page_step.
    destruct (page_loop_raises pages [] e Hin) as [e' ->]. reflexivity.
  - intros. apply load_spot_total.
  - intros Path read_html float_repr path e H. unfold load_spot. rewrite H. reflexivity.
  - intros Path read_html float_repr path H. unfold load_spot. rewrite H. reflexivity.
Qed.

Lemma loaders_fail_soft_witness :
  extract (Some (fun _ : unit => inl (LibraryError 1))) (fun _ => []) tt = Ok empty_frame
  /\ extract (Some (fun _ : unit => inr [inr (Some (py "BTC")); inl (LibraryError 2)]))
             (fun _ => []) tt = Ok empty_frame
  /\ load_spot (fun _ : unit => inl (LibraryError 3)) (fun _ => []) tt = Ok empty_frame
  /\ load_spot (fun _ : unit => inr []) (fun _ => []) tt = Ok empty_frame.
Proof.
  destruct loaders_fail_soft as (_ & _ & H3 & H4 & _ & H6 & H7).
  split; [|split; [|split]].
  - apply (H3 unit _ _ tt (LibraryError 1)). reflexivity.
  - apply (H4 unit _ _ tt [inr (Some (py "BTC")); inl (LibraryError 2)] (LibraryError 2)).
    + reflexivity.
    + simpl. auto.
  - apply (H6 unit _ _ tt (LibraryError 3)). reflexivity.
  - apply (H7 unit _ _ tt). reflexivity.
Defined.

(** ** Ticker-column inference of the spot loader *)

Lemma str_eqb_eq a b : str_eqb a b = true <-> a = b.
Proof.
  unfold str_eqb. destruct (list_eq_dec N.eq_dec a b); split; congruence.
Qed.

Lemma str_eqb_refl a : str_eqb a a = true.
Proof. now apply str_eqb_eq. Qed.

Lemma str_eqb_neq a b : a <> b -> str_eqb a b = false.
Proof.
  intros H. destruct (str_eqb a b) eqn:E; [|reflexivity].
  apply str_eqb_eq in E. contradiction.
Qed.

Lemma lower_all_strings names : lower_all (map LStr names) = Ok (map lower names).
Proof.
  induction names as [|n names IH]; simpl; [reflexivity|]. now rewrite IH.
Qed.

Lemma rename_first_match : forall pre c post df,
  Forall (fun x => is_ticker_like x = false) pre ->
  is_ticker_like c = true ->
  rename_ticker_column (pre ++ c :: post) df = rename_column c (py "ticker") df.
Proof.
  induction pre as [|x pre IH]; intros c post df Hpre Hc; simpl.
  - unfold is_ticker_like in Hc. now rewrite Hc.
  - inversion Hpre as [|? ? Hx Hpre']; subst. unfold is_ticker_like in Hx.
    rewrite Hx. now apply IH.
Qed.

Lemma rename_absent (c new : pystr) l :
  ~ In c l -> map (fun x => if str_eqb x c then new else x) l = l.
Proof.
  induction l as [|a l IH]; intros H; simpl; [reflexivity|].
  rewrite str_eqb_neq by (intros ->; apply H; now left).
  f_equal. apply IH. intros Hin. apply H. now right.
Qed.

Lemma rename_single (new : pystr) : forall cols j c,
  nth_error cols j = Some c ->
  (forall i, nth_error cols i = Some c -> i = j) ->
  map (fun x => if str_eqb x c then new else x) cols = set_nth j new cols.
Proof.
  induction cols as [|a l IH]; intros [|j] c Hn Hu; simpl in *; try discriminate.
  - inversion Hn; subst. rewrite str_eqb_refl. f_equal.
    apply rename_absent. intros Hin. destruct (In_nth_error _ _ Hin) as [i Hi].
    specialize (Hu (S i) Hi). discriminate.
  - rewrite str_eqb_neq.
    + f_equal. apply IH; [exact Hn|].
      intros i Hi. specialize (Hu (S i) Hi). now inversion Hu.
    + intros ->. specialize (Hu 0 eq_refl). discriminate.
Qed.

Lemma has_column_false_cons t a l :
  has_column t (a :: l) = false -> str_eqb a t = false /\ has_column t l = false.
Proof. unfold has_column. simpl. apply orb_false_iff. Qed.

Lemma index_of_set_nth t : forall cols j,
  has_column t cols = false -> j < length cols ->
  index_of t (set_nth j t cols) = Some j.
Proof.
  induction cols as [|a l IH]; intros [|j] H Hj; simpl in *; try lia.
  - now rewrite str_eqb_refl.
  - apply has_column_false_cons in H. destruct H as [Ha Hl].
    rewrite Ha, IH by (auto; lia). reflexivity.
Qed.

Lemma count_occ_absent t : forall cols,
  has_column t cols = false -> count_occ (list_eq_dec N.eq_dec) cols t = 0.
Proof.
  induction cols as [|a l IH]; intros H; simpl; [reflexivity|].
  apply has_column_false_cons in H. destruct H as [Ha Hl].
  destruct (list_eq_dec N.eq_dec a t) as [->|]; [|auto].
  rewrite str_eqb_refl in Ha. discriminate.
Qed.

Lemma count_occ_set_nth t : forall cols j,
  has_column t cols = false -> j < length cols ->
  count_occ (list_eq_dec N.eq_dec) (set_nth j t cols) t = 1.
Proof.
  induction cols as [|a l IH]; intros [|j] H Hj; simpl in *; try lia;
    apply has_column_false_cons in H; destruct H as [Ha Hl].
  - destruct (list_eq_dec N.eq_dec t t); [|contradiction].
    now rewrite count_occ_absent.
  - destruct (list_eq_dec N.eq_dec a t) as [->|].
    + rewrite str_eqb_refl in Ha. discriminate.
    + apply IH; auto; lia.
Qed.

Lemma has_column_set_nth t : forall cols j,
  j < length cols -> has_column t (set_nth j t cols) = true.
Proof.
  unfold has_column.
  induction cols as [|a l IH]; intros [|j] Hj; simpl in *; try lia.
  - now rewrite str_eqb_refl.
  - rewrite IH by lia. apply orb_true_r.
Qed.

Lemma nth_error_set_nth_eq A (x : A) : forall l j,
  j < length l -> nth_error (set_nth j x l) j = Some x.
Proof.
  induction l as [|a l IH]; intros [|j] Hj; simpl in *; try lia; auto.
  apply IH. lia.
Qed.

(** C9 (counterexample).  In the table headed [Sym], [SYM], [Note] no
    lower-cased name is [ticker] and the first column has [sym] in its name,
    yet nothing is renamed or normalized: both columns are called [sym]
    after lower-casing, the renaming turns both into [ticker], the
    assignment to the ticker column fails and the loader returns the empty
    frame.  The same happens for [SYMÉ] and [symé]. *)
Lemma repeated_symbol_label_gives_empty_frame :
  lower_all (columns sym_twice_table) = Ok [py "sym"; py "sym"; py "note"]
  /\ has_column (py "ticker") [py "sym"; py "sym"; py "note"] = false
  /\ is_ticker_like (py "sym") = true
  /\ load_spot (fun _ : unit => inr [sym_twice_table]) (fun _ => []) tt = Ok empty_frame
  /\ lower_all (columns sym_accent_table) = Ok [py "symé"; py "symé"]
  /\ load_spot (fun _ : unit => inr [sym_accent_table]) (fun _ => []) tt = Ok empty_frame.
Proof. repeat split; vm_compute; reflexivity. Qed.

(** C9 (amended).  Let the first table of the document have string labels whose
    lower-case forms do not include [ticker], and let column [j] be the
    first whose lower-case name contains [tick] or [sym], no other column
    bearing that same lower-case name.  Then [load_spot] returns the table
    with the lower-cased labels, column [j] renamed to [ticker] and every
    value of that column replaced by its upper-case alphanumeric form; the
    other cells are unchanged. *)
Theorem spot_ticker_column_inferred
        (Path : Type) (read_html : Path -> exn + list (Frame label))
        (float_repr : pyfloat -> pystr) (path : Path)
        (t : Frame label) (tables : list (Frame label))
        (names : list pystr) (j : nat) (c : pystr) :
  read_html path = inr (t :: tables) ->
  columns t = map LStr names ->
  has_column (py "ticker") (map lower names) = false ->
  nth_error (map lower names) j = Some c ->
  is_ticker_like c = true ->
  (forall i, nth_error (map lower names) i = Some c -> i = j) ->
  (forall i c', i < j -> nth_error (map lower names) i = Some c' ->
                is_ticker_like c' = false) ->
  exists df,
    load_spot read_html float_repr path = Ok df /\
    columns df = set_nth j (py "ticker") (map lower names) /\
    nth_error (columns df) j = Some (py "ticker") /\
    rows df = map (normalize_at float_repr j) (rows t) /\
    (forall r row v,
        nth_error (rows t) r = Some row -> nth_error row j = Some v ->
        exists row',
          nth_error (rows df) r = Some row' /\
          nth_error row' j = Some (VStr (normalize_ticker (py_str float_repr v)))).
Proof.
  intros Hread Hcols Hno Hj Hc Hnd Hfirst.
  set (cols := map lower names) in *.
  assert (Hlt : j < length cols) by (apply nth_error_Some; congruence).
  destruct (nth_error_split cols j Hj) as (pre & post & Hsplit & Hlen).
  assert (Hpre : Forall (fun x => is_ticker_like x = false) pre).
  { apply Forall_forall. intros x Hx.
    destruct (In_nth_error _ _ Hx) as [i Hi].
    apply (Hfirst i x).
    - rewrite <- Hlen. apply nth_error_Some. congruence.
    - rewrite Hsplit. rewrite nth_error_app1; [exact Hi|].
      apply nth_error_Some. congruence. }
  exists {| columns := set_nth j (py "ticker") cols;
            rows := map (normalize_at float_repr j) (rows t) |}.
  split; [|split; [reflexivity|split; [now apply nth_error_set_nth_eq|split; [reflexivity|]]]].
  - unfold load_spot. rewrite Hread. cbn [call bind getitem nth_error].
    rewrite Hcols, lower_all_strings. fold cols. cbn [bind columns].
    rewrite Hno. cbn [negb].
    assert (Hren : forall df0, rename_ticker_column cols df0
                               = rename_column c (py "ticker") df0).
    { intros df0. rewrite Hsplit. now apply rename_first_match. }
    rewrite !Hren.
    unfold rename_column. cbn [columns rows].
    rewrite (rename_single _ _ Hj Hnd).
    rewrite has_column_set_nth by assumption.
    unfold apply_column. cbn [columns rows].
    rewrite index_of_set_nth, count_occ_set_nth by assumption.
    reflexivity.
  - intros r row v Hr Hv. cbn [rows].
    exists (normalize_at float_repr j row). split.
    + now apply map_nth_error.
    + unfold normalize_at. rewrite Hv. apply nth_error_set_nth_eq.
      apply nth_error_Some. congruence.
Qed.

Lemma spot_ticker_column_inferred_witness :
  exists df,
    load_spot (fun _ : unit => inr [sym_table]) (fun _ => []) tt = Ok df /\
    columns df = [py "name"; py "ticker"; py "price"] /\
    rows df = [ [VStr (py "Bitcoin"); VStr (py "BTCUSD"); VStr (py "64,000")];
                [VStr (py "Ether"); VStr (py "ETH"); VStr (py "3,000")] ].
Proof.
  destruct (@spot_ticker_column_inferred
              unit (fun _ => inr [sym_table]) (fun _ => []) tt sym_table []
              [py "Name"; py "Sym."; py "Price"] 1 (py "sym."))
    as (df & L & C & _ & R & _).
  - reflexivity.
  - reflexivity.
  - reflexivity.
  - reflexivity.
  - reflexivity.
  - intros [|[|[|[|i]]]] Hn; cbv in Hn; try discriminate; reflexivity.
  - intros i c' Hi Hn. destruct i as [|i]; [|lia].
    cbv in Hn. inversion Hn. reflexivity.
  - exists df. split; [exact L|]. split; [exact C|exact R].
Defined.

(** ** The report merger *)

Lemma key_match (l r : list value) i j :
  (exists s, nth_error l i = Some (VStr s)) ->
  (exists s, nth_error r j = Some (VStr s)) ->
  (value_eqb (nth i l VNone) (nth j r VNone) = true <->
   exists k, nth_error l i = Some (VStr k) /\ nth_error r j = Some (VStr k)).
Proof.
  intros [s Hs] [s' Hs'].
  rewrite (nth_error_nth _ _ VNone Hs), (nth_error_nth _ _ VNone Hs'). simpl.
  rewrite str_eqb_eq. split.
  - intros ->. eauto.
  - intros (k & Hk & Hk'). congruence.
Qed.

Lemma merge_rows_inner_join i j (left right : list (list value)) :
  flat_map (fun l => map (fun r => l ++ remove_nth j r)
                         (filter (fun r => value_eqb (nth i l VNone) (nth j r VNone)) right))
           left
  = Spec.inner_join_rows i j left right.
Proof.
  unfold Spec.inner_join_rows.
  induction left as [|l left IH]; [reflexivity|].
  cbn [flat_map list_prod]. rewrite filter_app, map_app, <- IH. f_equal.
  clear IH. induction right as [|r right IH]; [reflexivity|].
  cbn [filter map fst snd]. destruct (value_eqb _ _); cbn [map fst snd]; now rewrite IH.
Qed.

(** The frames that [extract] returns satisfy the precondition of the join. *)
Lemma extract_keyed Path pypdf float_repr (path : Path) df :
  extract pypdf float_repr path = Ok df -> df_empty df = false -> keyed_by_ticker df 0.
Proof.
  unfold extract. intros H Hne. destruct pypdf as [reader|].
  2:{ inversion H; subst. discriminate. }
  destruct (try_except _ _) as [[data|]| |]; cbn [bind] in H; try discriminate.
  2:{ inversion H; subst. discriminate. }
  destruct data as [|t data].
  { cbn in H. inversion H; subst. discriminate. }
  unfold frame_of_tokens in H. change (df_empty _) with false in H. cbn [negb] in H.
  unfold apply_column in H. cbn [columns rows] in H.
  change (index_of (py "ticker") token_columns) with (Some 0) in H.
  change (count_occ (list_eq_dec N.eq_dec) token_columns (py "ticker")) with 1 in H.
  change (1 <? 1) with false in H. cbv iota in H.
  inversion H; subst; clear H. unfold keyed_by_ticker. cbn [columns rows].
  split; [repeat constructor; cbv; intuition discriminate|].
  split; [reflexivity|].
  apply Forall_forall.
  intros row [<- | Hin]; [split; [reflexivity|eexists; reflexivity]|].
  apply in_map_iff in Hin. destruct Hin as (row0 & <- & Hin0).
  apply in_map_iff in Hin0. destruct Hin0 as (t0 & <- & _).
  split; [reflexivity|eexists; reflexivity].
Qed.

Lemma key_position_unique key cols j :
  NoDup cols -> index_of key cols = Some j -> key_position key cols = Ok j.
Proof.
  intros N I. unfold key_position. rewrite I.
  pose proof (proj1 (NoDup_count_occ (list_eq_dec N.eq_dec) cols) N key) as C.
  destruct (Nat.ltb_spec 1 (count_occ (list_eq_dec N.eq_dec) cols key)); [lia|reflexivity].
Qed.

Lemma merge_inner_positions (left right : DataFrame) key ls rs i j :
  key_position key (columns left) = Ok i ->
  key_position key (columns right) = Ok j ->
  suffix_clash key ls rs (columns left) (columns right) = false ->
  merge_inner left right key ls rs
  = Ok {| columns := merged_columns key ls rs (columns left) (columns right);
          rows := flat_map
                    (fun l => map (fun r => l ++ remove_nth j r)
                                  (filter (fun r => value_eqb (nth i l VNone) (nth j r VNone))
                                          (rows right)))
                    (rows left) |}.
Proof.
  intros Il Ir C. unfold merge_inner. rewrite Ir, Il. cbn [bind]. now rewrite C.
Qed.

Lemma merge_inner_keyed (left right : DataFrame) key ls rs i j :
  NoDup (columns left) -> index_of key (columns left) = Some i ->
  NoDup (columns right) -> index_of key (columns right) = Some j ->
  suffix_clash key ls rs (columns left) (columns right) = false ->
  merge_inner left right key ls rs
  = Ok {| columns := merged_columns key ls rs (columns left) (columns right);
          rows := flat_map
                    (fun l => map (fun r => l ++ remove_nth j r)
                                  (filter (fun r => value_eqb (nth i l VNone) (nth j r VNone))
                                          (rows right)))
                    (rows left) |}.
Proof.
  intros Nl Il Nr Ir C. apply merge_inner_positions; [| |exact C];
    now apply key_position_unique.
Qed.

Lemma keyed_is_ticker_keyed df j : keyed_by_ticker df j -> ticker_keyed df j.
Proof.
  intros (N & I & K). split; [now apply key_position_unique|].
  eapply Forall_impl; [|exact K]. intros row [_ H]. exact H.
Qed.

(** C6 (counterexample).  Both frames are non-empty, yet there is no report
    of a join: on the frame that [load_spot] returns for a table headed
    [Coin], [Price], which has no ticker column, [generate_report] raises
    [KeyError]; on a spot frame with the labels [name] and [name_spot] it
    raises [MergeError]. *)
Lemma report_raises_outside_keyed_frames :
  load_spot (fun _ : unit => inr [coin_table]) (fun _ => []) tt = Ok spot_coin
  /\ df_empty futures_btc_eth = false /\ df_empty spot_coin = false
  /\ (forall to_html user_id,
         generate_report to_html futures_btc_eth spot_coin user_id = Raise KeyError)
  /\ df_empty spot_name_clash = false
  /\ (forall to_html user_id,
         generate_report to_html futures_btc_eth spot_name_clash user_id = Raise MergeError).
Proof. repeat split; intros; vm_compute; reflexivity. Qed.

(** C6 (amended).  [generate_report] returns [None] as soon as one of the
    two frames is empty.  For two non-empty frames that have exactly one
    [ticker] column each, holding strings, and no label that the suffixes
    duplicate, it returns the heading, the rendering of the merged frame and
    the legend, where the merged frame is the inner join on [ticker]: its
    labels are the spot labels followed by the futures labels without the
    key, a label present on both sides carrying [_spot] or [_fut]; its rows
    are those of the inner join, in the order of the spot rows: exactly the
    concatenations of a spot row and a futures row with the same ticker.
    Futures records for BTC and ETH joined with spot rows for BTC and SOL
    give the single row of BTC. *)
Theorem report_is_inner_join
        (to_html : DataFrame -> pystr) (futures_df spot_df : DataFrame)
        (user_id : pystr) :
  (df_empty futures_df = true \/ df_empty spot_df = true ->
   generate_report to_html futures_df spot_df user_id = Ok None)
  /\ (forall i j,
         df_empty futures_df = false -> df_empty spot_df = false ->
         ticker_keyed spot_df i -> ticker_keyed futures_df j ->
         suffix_clash (py "ticker") (py "_spot") (py "_fut")
                      (columns spot_df) (columns futures_df) = false ->
         exists merged,
           generate_report to_html futures_df spot_df user_id
           = Ok (Some (report_heading user_id ++ to_html merged ++ report_footer)) /\
           columns merged
           = merged_columns (py "ticker") (py "_spot") (py "_fut")
                            (columns spot_df) (columns futures_df) /\
           rows merged = Spec.inner_join_rows i j (rows spot_df) (rows futures_df) /\
           (forall row,
               In row (rows merged) <->
               exists s f k,
                 In s (rows spot_df) /\ In f (rows futures_df) /\
                 nth_error s i = Some (VStr k) /\ nth_error f j = Some (VStr k) /\
                 row = s ++ remove_nth j f))
  /\ generate_report to_html futures_btc_eth spot_btc_sol user_id
     = Ok (Some (report_heading user_id ++ to_html merged_btc ++ report_footer))
  /\ generate_report to_html futures_btc_eth empty_frame user_id = Ok None.
Proof.
  split; [|split; [|split]].
  - unfold generate_report. intros [-> | ->]; [reflexivity|].
    now rewrite orb_true_r.
  - intros i j Hf Hs (Hi & Ks) (Hj & Kf) Hc.
    unfold generate_report, merged_frame.
    rewrite (@merge_inner_positions _ _ _ _ _ _ _ Hi Hj Hc).
    rewrite Hf, Hs. cbn [orb bind].
    eexists. split; [rewrite <- app_assoc; reflexivity|].
    split; [reflexivity|]. cbn [rows].
    split; [apply merge_rows_inner_join|].
    intros row. rewrite in_flat_map. rewrite Forall_forall in Ks, Kf. split.
    + intros (s0 & Hin & Hrow). apply in_map_iff in Hrow.
      destruct Hrow as (f & <- & Hfil). apply filter_In in Hfil.
      destruct Hfil as [Hinf Hkey].
      apply key_match in Hkey; [|apply Ks; auto|apply Kf; auto].
      destruct Hkey as (k & Hk & Hk'). exists s0, f, k. auto.
    + intros (s0 & f & k & Hins & Hinf & Hk & Hk' & ->).
      exists s0. split; [exact Hins|]. apply in_map_iff. exists f.
      split; [reflexivity|]. apply filter_In. split; [exact Hinf|].
      apply key_match; [apply Ks; auto|apply Kf; auto|eauto].
  - unfold generate_report. change (df_empty futures_btc_eth || df_empty spot_btc_sol)
      with false. cbv iota.
    replace (merged_frame futures_btc_eth spot_btc_sol) with (Ok merged_btc)
      by (vm_compute; reflexivity).
    cbn [bind]. now rewrite <- app_assoc.
  - reflexivity.
Qed.

Lemma report_is_inner_join_witness :
  exists merged : DataFrame,
    generate_report (fun _ => []) futures_btc_eth spot_btc_sol (py "alice")
    = Ok (Some (report_heading (py "alice") ++ [] ++ report_footer)) /\
    (forall row,
        In row (rows merged) <->
        exists s f k,
          In s (rows spot_btc_sol) /\ In f (rows futures_btc_eth) /\
          nth_error s 0 = Some (VStr k) /\ nth_error f 0 = Some (VStr k) /\
          row = s ++ remove_nth 0 f).
Proof.
  destruct (proj1 (proj2 (report_is_inner_join (fun _ => []) futures_btc_eth
                                               spot_btc_sol (py "alice"))) 0 0)
    as (merged & G & _ & _ & R).
  - reflexivity.
  - reflexivity.
  - split; [reflexivity|]. repeat constructor; eexists; reflexivity.
  - split; [reflexivity|]. repeat constructor; eexists; reflexivity.
  - vm_compute. reflexivity.
  - exists merged. split; [exact G|exact R].
Defined.


(** * Further properties of the parser *)

(** ** The normalizer and the strict check *)

Lemma ticker_char_kept c :
  negb (cset_mem (ncls [Range (chr "A") (chr "Z"); Range (chr "0") (chr "9")]) c)
  = is_ticker_char c.
Proof.
  unfold cset_mem, is_ticker_char. cbn [negated items ncls existsb citem_mem].
  rewrite orb_false_r. now destruct (_ || _).
Qed.

Lemma normalize_ticker_chars x : Forall (fun c => is_ticker_char c = true) (normalize_ticker x).
Proof.
  unfold normalize_ticker, sub_delete. apply Forall_forall. intros c Hc.
  apply filter_In in Hc. destruct Hc as [_ Hc]. now rewrite ticker_char_kept in Hc.
Qed.

Lemma ticker_char_upper_table :
  forallb (fun n => implb (is_ticker_char (N.of_nat n))
                          (str_eqb (upper_char (N.of_nat n)) [N.of_nat n]))
          (seq 0 128) = true.
Proof. vm_compute. reflexivity. Qed.

Lemma ticker_char_upper c : is_ticker_char c = true -> upper_char c = [c].
Proof.
  intros H.
  assert (Hc : (c < 128)%N).
  { unfold is_ticker_char, in_range in H.
    change (chr "A") with 65%N in H. change (chr "Z") with 90%N in H.
    change (chr "0") with 48%N in H. change (chr "9") with 57%N in H.
    rewrite !orb_true_iff, !andb_true_iff, !N.leb_le in H. lia. }
  pose proof ticker_char_upper_table as T. rewrite forallb_forall in T.
  specialize (T (N.to_nat c)). rewrite N2Nat.id, H in T.
  apply str_eqb_eq. apply T. apply in_seq. lia.
Qed.

Lemma normalize_ticker_fixed s :
  Forall (fun c => is_ticker_char c = true) s -> normalize_ticker s = s.
Proof.
  induction 1 as [|c s Hc Hs IH]; [reflexivity|].
  rewrite normalize_ticker_cons, IH.
  unfold normalize_ticker, sub_delete, upper. cbn [flat_map].
  rewrite app_nil_r, (ticker_char_upper _ Hc). cbn [filter].
  now rewrite ticker_char_kept, Hc.
Qed.

Lemma normalize_ticker_idem x : normalize_ticker (normalize_ticker x) = normalize_ticker x.
Proof. apply normalize_ticker_fixed, normalize_ticker_chars. Qed.

Lemma strict_ticker_shape text t :
  _clean_ticker_strict text = Some t ->
  t = normalize_ticker text /\ 2 <= length t <= 12.
Proof.
  rewrite clean_ticker_strict_spec.
  destruct (Spec.is_strict_ticker text) eqn:E; [|discriminate].
  intros H; inversion H; subst. apply is_strict_ticker_iff in E. tauto.
Qed.

(** X1.  The ticker normalizer is idempotent: normalizing a normalized
    ticker changes nothing, and its output holds only the characters A-Z and
    0-9. *)
Theorem normalizer_idempotent x :
  normalize_ticker (normalize_ticker x) = normalize_ticker x
  /\ Forall (fun c => is_ticker_char c = true) (normalize_ticker x).
Proof. split; [apply normalize_ticker_idem|apply normalize_ticker_chars]. Qed.

(** X2.  What [_clean_ticker_strict] accepts it returns in a form that it
    accepts again unchanged: the result has 2 to 12 characters, all in A-Z
    and 0-9, and cleaning it a second time gives the same string. *)
Theorem strict_ticker_stable text t :
  _clean_ticker_strict text = Some t ->
  Forall (fun c => is_ticker_char c = true) t
  /\ 2 <= length t <= 12
  /\ _clean_ticker_strict t = Some t.
Proof.
  intros H. apply strict_ticker_shape in H. destruct H as [-> L].
  split; [apply normalize_ticker_chars|]. split; [exact L|].
  rewrite clean_ticker_strict_spec.
  replace (Spec.is_strict_ticker (normalize_ticker text)) with true.
  - now rewrite normalize_ticker_idem.
  - symmetry. apply is_strict_ticker_iff. rewrite normalize_ticker_idem. lia.
Qed.

Lemma strict_ticker_stable_witness :
  Forall (fun c => is_ticker_char c = true) (py "BTCUSD")
  /\ 2 <= length (py "BTCUSD") <= 12
  /\ _clean_ticker_strict (py "BTCUSD") = Some (py "BTCUSD").
Proof. apply (strict_ticker_stable (py "btc-usd")). reflexivity. Defined.

(** ** The first loop as two filters *)

Lemma classify_line_step fins raws line :
  classify_line (fins, raws) line
  = Ok (fins ++ opt_list (line_tuple line),
        raws ++ (if is_label_line line then [line] else [])).
Proof.
  unfold line_tuple, is_label_line.
  destruct (classify_line_cases fins raws line)
    as [[Hn E]|[(Hn & w1 & w2 & o3 & o4 & w5 & q & Hs & _ & E)|(Hn & Hs & E)]];
    rewrite E, Hn; cbn [negb andb opt_list].
  - now rewrite !app_nil_r.
  - rewrite Hs. cbn [opt_list]. now rewrite app_nil_r.
  - rewrite Hs. cbn [opt_list]. rewrite app_nil_r. now destruct (is_label line); rewrite ?app_nil_r.
Qed.

Lemma classify_loop_filters : forall lines fins raws,
  for_each classify_line lines (fins, raws)
  = Ok (fins ++ flat_map (fun l => opt_list (line_tuple l)) lines,
        raws ++ filter is_label_line lines).
Proof.
  induction lines as [|line lines IH]; intros fins raws; cbn [for_each flat_map filter].
  - now rewrite !app_nil_r.
  - rewrite classify_line_step. cbn [bind]. rewrite IH, <- !app_assoc.
    now destruct (is_label_line line).
Qed.

Lemma tuples_of_financial_lines lines :
  flat_map (fun l => opt_list (line_tuple l)) lines
  = flat_map (fun l => opt_list (line_tuple l)) (filter is_financial_line lines).
Proof.
  induction lines as [|l lines IH]; [reflexivity|].
  cbn [flat_map filter]. unfold is_financial_line at 1.
  destruct (line_tuple l) eqn:E; cbn [opt_list flat_map app]; [|exact IH].
  now rewrite E, IH.
Qed.

Lemma tuples_length lines :
  length (flat_map (fun l => opt_list (line_tuple l)) lines)
  = length (filter is_financial_line lines).
Proof.
  induction lines as [|l lines IH]; [reflexivity|].
  cbn [flat_map filter]. unfold is_financial_line at 1.
  rewrite length_app. destruct (line_tuple l); cbn; now rewrite IH.
Qed.

Lemma financial_label_disjoint l :
  is_financial_line l = true -> is_label_line l = false.
Proof.
  unfold is_financial_line, line_tuple, is_label_line.
  destruct (is_noise l); [discriminate|].
  destruct (search FINANCIAL_PATTERN l); [reflexivity|discriminate].
Qed.

Lemma financial_plus_label_length lines :
  length (filter is_financial_line lines) + length (filter is_label_line lines)
  <= length lines.
Proof.
  induction lines as [|l lines IH]; [reflexivity|]. cbn [filter].
  destruct (is_financial_line l) eqn:F.
  - rewrite (financial_label_disjoint _ F). cbn [length]. lia.
  - destruct (is_label_line l); cbn [length]; lia.
Qed.

Lemma resolve_pairs_cons2 l0 l1 rest :
  Spec.resolve_pairs (l0 :: l1 :: rest)
  = if Spec.is_strict_ticker l1
    then (l0, normalize_ticker l1) :: Spec.resolve_pairs rest
    else Spec.resolve_pairs (l1 :: rest).
Proof. reflexivity. Qed.

Lemma resolve_pairs_length_aux : forall n lines,
  length lines <= n -> 2 * length (Spec.resolve_pairs lines) <= length lines.
Proof.
  induction n as [|n IH]; intros [|l0 [|l1 rest]] H; cbn [length] in *;
    try (cbn; lia).
  rewrite resolve_pairs_cons2. destruct (Spec.is_strict_ticker l1).
  - cbn [length]. assert (L := IH rest ltac:(lia)). lia.
  - assert (L := IH (l1 :: rest) ltac:(cbn [length]; lia)). cbn [length] in L. lia.
Qed.

Lemma resolve_pairs_length lines :
  2 * length (Spec.resolve_pairs lines) <= length lines.
Proof. eapply resolve_pairs_length_aux. apply Nat.le_refl. Qed.

Lemma parse_page_by_filters lines :
  exists tokens,
    _parse_page_smart lines = Ok tokens /\
    Forall2 record_of tokens
            (combine (Spec.resolve_pairs (filter is_label_line lines))
                     (flat_map (fun l => opt_list (line_tuple l)) lines)).
Proof.
  destruct (parse_page_structure lines) as (fins & raws & recs & E & P & F).
  rewrite classify_loop_filters in E. inversion E; subst. cbn [app] in *. eauto.
Qed.

(** X3.  A page never yields more records than it has financial lines, nor
    more than half as many as it has label lines; every record uses up
    three lines of the page, so a page of fewer than three lines yields
    none. *)
Theorem page_record_bounds lines :
  exists tokens,
    _parse_page_smart lines = Ok tokens /\
    length tokens <= length (filter is_financial_line lines) /\
    2 * length tokens <= length (filter is_label_line lines) /\
    3 * length tokens <= length lines.
Proof.
  destruct (parse_page_by_filters lines) as (tokens & P & F).
  exists tokens. split; [exact P|].
  apply Forall2_length in F. rewrite length_combine, tuples_length in F.
  pose proof (resolve_pairs_length (filter is_label_line lines)).
  pose proof (financial_plus_label_length lines). lia.
Qed.

(** X4.  The records of a page depend only on its sequence of financial
    lines and its sequence of label lines, not on how the two are
    interleaved, and not on any other line: two pages with the same
    financial lines in order and the same label lines in order give the
    same records. *)
Theorem interleaving_ignored lines1 lines2 :
  filter is_financial_line lines1 = filter is_financial_line lines2 ->
  filter is_label_line lines1 = filter is_label_line lines2 ->
  _parse_page_smart lines1 = _parse_page_smart lines2.
Proof.
  intros Hf Hl. unfold _parse_page_smart.
  rewrite !classify_loop_filters. cbn [app bind].
  now rewrite (tuples_of_financial_lines lines1), (tuples_of_financial_lines lines2), Hf, Hl.
Qed.

Lemma interleaving_ignored_witness :
  _parse_page_smart [py "Bitcoin"; py "BTC"; py "1.2M 500K - - 0.87";
                     py "Ethereum"; py "ETH"; py "2M 1M - - 0.5"]
  = _parse_page_smart [py "1.2M 500K - - 0.87"; py "2M 1M - - 0.5"; py "page 3";
                       py "Bitcoin"; py "BTC"; py "Ethereum"; py "7"; py "ETH"].
Proof. apply interleaving_ignored; reflexivity. Defined.

(** X5.  Lines that hold a noise keyword, in any letter case, have no
    effect on the records of a page, whatever else they hold: dropping them
    beforehand gives the same result. *)
Theorem noise_lines_irrelevant lines :
  _parse_page_smart (filter (fun l => negb (is_noise l)) lines) = _parse_page_smart lines.
Proof.
  assert (K : forall (f : pystr -> bool),
             (forall l, f l = true -> is_noise l = false) ->
             filter f (filter (fun l => negb (is_noise l)) lines) = filter f lines).
  { intros f Hf. induction lines as [|l lines IH]; [reflexivity|].
    cbn [filter]. destruct (is_noise l) eqn:N; cbn [negb filter].
    - destruct (f l) eqn:F; [|exact IH]. apply Hf in F. congruence.
    - now rewrite IH. }
  unfold _parse_page_smart. rewrite !classify_loop_filters. cbn [app bind].
  rewrite (tuples_of_financial_lines lines), (tuples_of_financial_lines (filter _ lines)).
  assert (Kl := K is_label_line). assert (Kf := K is_financial_line).
  rewrite Kl, Kf; [reflexivity| |].
  - intros l. unfold is_financial_line, line_tuple. destruct (is_noise l); congruence.
  - intros l. unfold is_label_line. destruct (is_noise l); cbn; congruence.
Qed.

(** ** What every record of a page looks like *)

Section FloatSign.
Local Open Scope N_scope.

Lemma digits_value_nonneg ds :
  Forall (fun c => is_ascii_digit c = true) ds -> (0 <= digits_value ds)%Z.
Proof.
  unfold digits_value. intros H.
  assert (G : forall acc, (0 <= acc)%Z ->
            (0 <= fold_left (fun a c => (a * 10 + (Z.of_N c - 48))%Z) ds acc)%Z).
  { induction H as [|c ds Hc Hds IH]; intros acc Ha; cbn [fold_left]; [exact Ha|].
    apply IH. unfold is_ascii_digit, in_range in Hc.
    apply andb_true_iff in Hc. destruct Hc as [Hlo _]. apply N.leb_le in Hlo. lia. }
  apply G. lia.
Qed.

Lemma scale10_nonneg m e : (0 <= m)%Z -> (0 <= scale10 m e)%Q.
Proof.
  intros Hm. unfold scale10. rewrite Qred_correct.
  destruct (0 <=? e)%Z eqn:E.
  - apply Z.leb_le in E. unfold Qle. cbn.
    assert (0 <= 10 ^ e)%Z by (apply Z.pow_nonneg; lia). nia.
  - unfold Qle. cbn. lia.
Qed.

Lemma parse_decimal_digits_nonneg d1 d3 :
  Forall (fun c => is_ascii_digit c = true) d1 ->
  Forall (fun c => is_ascii_digit c = true) d3 ->
  d3 <> [] ->
  (exists q, parse_decimal (d1 ++ d3) = Some (q, []) /\ (0 <= q)%Q) /\
  (exists q, parse_decimal (d1 ++ 46 :: d3) = Some (q, []) /\ (0 <= q)%Q).
Proof.
  intros H1 H3 Hne.
  assert (H13 : Forall (fun c => is_ascii_digit c = true) (d1 ++ d3))
    by (apply Forall_app; auto).
  split; unfold parse_decimal.
  - rewrite span_digits_all by assumption.
    rewrite app_nil_r. destruct (d1 ++ d3) eqn:E.
    + apply app_eq_nil in E. tauto.
    + cbn [parse_exponent]. eexists. split; [reflexivity|].
      apply scale10_nonneg, digits_value_nonneg. assumption.
  - rewrite span_digits_app by assumption. simpl.
    rewrite app_nil_r, span_digits_all by assumption.
    destruct (d1 ++ d3) eqn:E.
    + apply app_eq_nil in E. tauto.
    + cbn [parse_exponent]. eexists. split; [reflexivity|].
      apply scale10_nonneg, digits_value_nonneg. assumption.
Qed.

Lemma round_half_even_nonneg a b : (0 <= a)%Z -> (0 < b)%Z -> (0 <= round_half_even a b)%Z.
Proof.
  intros Ha Hb. unfold round_half_even. cbv zeta.
  assert (0 <= a / b)%Z by (apply Z.div_pos; assumption).
  destruct (2 * (a mod b) ?= b)%Z; [destruct (Z.even (a / b))| |]; lia.
Qed.

Lemma binary64_nonneg q : (0 <= q)%Q -> float_nonneg (binary64 q).
Proof.
  destruct q as [n d]. unfold Qle. cbn [Qnum Qden]. intros Hn.
  assert (Hn' : (0 <= n)%Z) by lia. clear Hn.
  unfold binary64. cbn [Qnum Qden]. cbv zeta.
  destruct (Z.eqb_spec n 0) as [|Hne]; [cbn; unfold Qle; cbn; lia|].
  replace (n <? 0)%Z with false by (symmetry; apply Z.ltb_ge; exact Hn').
  set (p := Z.max (floor_log2 (Z.abs n) (Z.pos d) - 52) (-1074)).
  destruct (0 <=? p)%Z eqn:Ep.
  - apply Z.leb_le in Ep.
    assert (P2 : (0 < 2 ^ p)%Z) by (apply Z.pow_pos_nonneg; lia).
    assert (M : (0 <= round_half_even (Z.abs n) (Z.pos d * 2 ^ p))%Z)
      by (apply round_half_even_nonneg; lia).
    cbn [andb]. destruct (2 ^ 1024 <=? _)%Z; [reflexivity|].
    rewrite andb_false_r.
    cbn [float_nonneg]. rewrite Qred_correct. unfold Qle. cbn [Qnum Qden inject_Z]. lia.
  - cbn [andb]. rewrite andb_false_r.
    cbn [float_nonneg]. rewrite Qred_correct. unfold Qle. cbn [Qnum Qden inject_Z].
    assert (P2 : (0 < 2 ^ (- p))%Z) by (apply Z.pow_pos_nonneg; apply Z.leb_gt in Ep; lia).
    assert (M : (0 <= round_half_even (Z.abs n * 2 ^ (- p)) (Z.pos d))%Z)
      by (apply round_half_even_nonneg; lia).
    lia.
Qed.

Lemma trailing_decimal_nonneg w :
  matches trailing_decimal w -> exists v, py_float w = Ok v /\ float_nonneg v.
Proof.
  intros M. apply trailing_decimal_shape in M.
  destruct M as (w1 & dot & w3 & -> & Hdot & Hne & F1 & F3).
  assert (D1 := to_ascii_digits F1). assert (D3 := to_ascii_digits F3).
  assert (Hne' : map to_ascii_char w3 <> []).
  { destruct w3; [contradiction|discriminate]. }
  destruct (parse_decimal_digits_nonneg D1 D3 Hne') as [(q0 & P0 & N0) (q1 & P1 & N1)].
  unfold py_float. rewrite !map_app.
  destruct Hdot as [-> | ->].
  - simpl app at 2.
    set (t := map to_ascii_char w1 ++ map to_ascii_char w3).
    assert (Ht : Forall (fun c => plain c = true) t).
    { unfold t. apply Forall_app; split; now apply digits_plain. }
    rewrite drop_underscores_plain by (auto; lia).
    rewrite ascii_strip_plain by assumption.
    unfold parse_float. rewrite split_sign_plain by assumption.
    unfold t. rewrite P0. eexists. split; [reflexivity|]. now apply binary64_nonneg.
  - change (map to_ascii_char [46]) with [46].
    change ([46] ++ map to_ascii_char w3) with (46 :: map to_ascii_char w3).
    set (t := map to_ascii_char w1 ++ 46 :: map to_ascii_char w3).
    assert (Ht : Forall (fun c => plain c = true) t).
    { unfold t. apply Forall_app; split; [now apply digits_plain|].
      constructor; [reflexivity|now apply digits_plain]. }
    rewrite drop_underscores_plain by (auto; lia).
    rewrite ascii_strip_plain by assumption.
    unfold parse_float. rewrite split_sign_plain by assumption.
    unfold t. rewrite P1. eexists. split; [reflexivity|]. now apply binary64_nonneg.
Qed.

End FloatSign.

Lemma resolve_pairs_members_aux : forall n raws,
  length raws <= n ->
  Forall (fun p => In (fst p) raws /\
                   exists l, In l raws /\ _clean_ticker_strict l = Some (snd p))
         (Spec.resolve_pairs raws).
Proof.
  induction n as [|n IH]; intros [|l0 [|l1 rest]] H; cbn [length] in *;
    try (cbn; constructor); try lia.
  rewrite resolve_pairs_cons2. destruct (Spec.is_strict_ticker l1) eqn:E.
  - constructor.
    + cbn [fst snd]. split; [now left|]. exists l1. split; [right; now left|].
      now rewrite clean_ticker_strict_spec, E.
    + assert (L := IH rest ltac:(lia)).
      eapply Forall_impl; [|exact L]. intros p (Hn & l & Hl & Hc).
      split; [right; right; exact Hn|]. exists l. split; [right; right; exact Hl|exact Hc].
  - assert (L := IH (l1 :: rest) ltac:(cbn [length]; lia)).
    eapply Forall_impl; [|exact L]. intros p (Hn & l & Hl & Hc).
    split; [right; exact Hn|]. exists l. split; [right; exact Hl|exact Hc].
Qed.

Lemma resolve_pairs_members raws :
  Forall (fun p => In (fst p) raws /\
                   exists l, In l raws /\ _clean_ticker_strict l = Some (snd p))
         (Spec.resolve_pairs raws).
Proof. eapply resolve_pairs_members_aux. apply Nat.le_refl. Qed.

Lemma line_tuple_ok line t : line_tuple line = Some t -> tuple_ok t.
Proof.
  unfold line_tuple. destruct (is_noise line); [discriminate|].
  destruct (search FINANCIAL_PATTERN line) as [gs|] eqn:Hs; [|discriminate].
  destruct (search_financial_groups _ Hs) as (w1 & w2 & o3 & o4 & w5 & -> & _ & _ & M5).
  intros H; inversion H; subst. unfold tuple_ok.
  split; [eauto|]. split; [eauto|]. exists w5. auto.
Qed.

Lemma page_tuples_ok lines :
  Forall tuple_ok (flat_map (fun l => opt_list (line_tuple l)) lines).
Proof.
  apply Forall_forall. intros t Ht. apply in_flat_map in Ht.
  destruct Ht as (l & _ & Hl). destruct (line_tuple l) eqn:E; [|contradiction].
  destruct Hl as [<-|[]]. eapply line_tuple_ok; eauto.
Qed.

Lemma Forall2_combine_Forall A B C (R : C -> A * B -> Prop)
      (PA : A -> Prop) (PB : B -> Prop) (Q : C -> Prop) :
  (forall c a b, R c (a, b) -> PA a -> PB b -> Q c) ->
  forall (la : list A) (lb : list B) (lc : list C),
    Forall PA la -> Forall PB lb -> Forall2 R lc (combine la lb) -> Forall Q lc.
Proof.
  intros HR. induction la as [|a la IH]; intros lb lc Ha Hb F.
  - inversion F. constructor.
  - destruct lb as [|b lb]; cbn [combine] in F; inversion F; subst; [constructor|].
    inversion Ha; inversion Hb; subst. constructor; eauto.
Qed.

Lemma remove_char_spec c x s : In x (remove_char c s) <-> In x s /\ x <> c.
Proof.
  unfold remove_char. rewrite filter_In, negb_true_iff, N.eqb_neq. tauto.
Qed.

Lemma strip_money_clean w :
  ~ In (chr "$") (strip_money w) /\ ~ In (chr ",") (strip_money w).
Proof.
  unfold strip_money. split; intros H; apply remove_char_spec in H.
  - destruct H as [H _]. apply remove_char_spec in H. tauto.
  - tauto.
Qed.

(** X6.  In every record of a page the name is one of the page's label
    lines, taken as it stands, and the ticker is the strict cleaning of a
    label line of the page: 2 to 12 characters, all in A-Z and 0-9. *)
Theorem record_names_and_tickers lines tokens :
  _parse_page_smart lines = Ok tokens ->
  Forall (fun t =>
            In (name t) lines /\ is_label_line (name t) = true /\
            (exists l, In l lines /\ is_label_line l = true /\
                       _clean_ticker_strict l = Some (ticker t)) /\
            Forall (fun c => is_ticker_char c = true) (ticker t) /\
            2 <= length (ticker t) <= 12) tokens.
Proof.
  intros P. destruct (parse_page_by_filters lines) as (tokens' & P' & F).
  rewrite P in P'. inversion P'; subst tokens'; clear P'.
  eapply Forall2_combine_Forall;
    [|apply resolve_pairs_members|apply page_tuples_ok|exact F].
  intros t [n0 t0] [[[[mc vol] v0] oi] fund] (v & _ & ->) (Hn & l & Hl & Hc) _.
  cbn [fst snd name ticker] in *.
  apply filter_In in Hn, Hl.
  split; [tauto|]. split; [tauto|]. split; [exists l; tauto|].
  apply strict_ticker_shape in Hc. destruct Hc as [-> L].
  split; [apply normalize_ticker_chars|exact L].
Qed.

Lemma record_names_and_tickers_witness :
  Forall (fun t =>
            In (name t) page_3_pairs_2_financials /\ is_label_line (name t) = true /\
            (exists l, In l page_3_pairs_2_financials /\ is_label_line l = true /\
                       _clean_ticker_strict l = Some (ticker t)) /\
            Forall (fun c => is_ticker_char c = true) (ticker t) /\
            2 <= length (ticker t) <= 12) [btc_token; eth_token].
Proof. apply (record_names_and_tickers page_3_pairs_2_financials). vm_compute. reflexivity. Defined.

(** X7.  The market cap and the volume of every record are free of the
    dollar sign and of the thousands separator. *)
Theorem record_money_fields lines tokens :
  _parse_page_smart lines = Ok tokens ->
  Forall (fun t =>
            ~ In (chr "$") (market_cap t) /\ ~ In (chr ",") (market_cap t) /\
            ~ In (chr "$") (volume t) /\ ~ In (chr ",") (volume t)) tokens.
Proof.
  intros P. destruct (parse_page_by_filters lines) as (tokens' & P' & F).
  rewrite P in P'. inversion P'; subst tokens'; clear P'.
  eapply Forall2_combine_Forall with (PA := fun _ => True);
    [|apply Forall_forall; intros; exact I|apply page_tuples_ok|exact F].
  intros t [n0 t0] [[[[mc vol] v0] oi] fund] (v & _ & ->) _ ([w1 ->] & [w2 ->] & _).
  cbn [market_cap volume].
  destruct (strip_money_clean w1), (strip_money_clean w2). tauto.
Qed.

Lemma record_money_fields_witness :
  Forall (fun t =>
            ~ In (chr "$") (market_cap t) /\ ~ In (chr ",") (market_cap t) /\
            ~ In (chr "$") (volume t) /\ ~ In (chr ",") (volume t)) [btc_token; eth_token].
Proof. apply (record_money_fields page_3_pairs_2_financials). vm_compute. reflexivity. Defined.

(** X8.  The [vtmr] of every record is a number that is not negative: a
    finite value from zero on or, when the digits of the trailing group
    exceed the range of a float, positive infinity; never a NaN, never
    below zero. *)
Theorem record_vtmr_nonnegative lines tokens :
  _parse_page_smart lines = Ok tokens ->
  Forall (fun t => float_nonneg (vtmr t)) tokens.
Proof.
  intros P. destruct (parse_page_by_filters lines) as (tokens' & P' & F).
  rewrite P in P'. inversion P'; subst tokens'; clear P'.
  eapply Forall2_combine_Forall with (PA := fun _ => True);
    [|apply Forall_forall; intros; exact I|apply page_tuples_ok|exact F].
  intros t [n0 t0] [[[[mc vol] v0] oi] fund] (v & Hv & ->) _ (_ & _ & w5 & -> & M5).
  cbn [vtmr]. destruct (trailing_decimal_nonneg M5) as (v' & Hq & Hn).
  cbn [float_of] in Hv. rewrite Hq in Hv. inversion Hv; subst. exact Hn.
Qed.

Lemma record_vtmr_nonnegative_witness :
  Forall (fun t => float_nonneg (vtmr t)) [btc_token; eth_token].
Proof. apply (record_vtmr_nonnegative page_3_pairs_2_financials). vm_compute. reflexivity. Defined.

(** ** Lines without white space *)

Lemma search_from_substring r n : forall s gs,
  search_from r n s = Some gs ->
  exists pre w post, s = pre ++ w ++ post /\ matches r w.
Proof.
  induction s as [|c s IH]; intros gs H; cbn [search_from] in H.
  - destruct (rmatch _ _ _ _) eqn:E; [|discriminate].
    apply rmatch_sound in E. destruct E as (w & s' & _ & Hs & M & _).
    exists [], w, s'. auto.
  - destruct (rmatch _ _ _ _) eqn:E.
    + apply rmatch_sound in E. destruct E as (w & s' & _ & Hs & M & _).
      exists [], w, s'. auto.
    + apply IH in H. destruct H as (pre & w & post & -> & M).
      exists (c :: pre), w, post. auto.
Qed.

Lemma financial_match_has_space w :
  matches (body FINANCIAL_PATTERN) w -> exists c, In c w /\ uni_isspace c = true.
Proof.
  unfold FINANCIAL_PATTERN, body. intros M.
  inversion M as [| |r1 r2 w1 w' M1 M'| | | | | | |]; subst; clear M.
  inversion M' as [| |r1 r2 ws w'' Ms M''| | | | | | |]; subst; clear M'.
  unfold spaces in Ms. inversion Ms as [| | | | | | | |cs c l Hc Hl|]; subst; clear Ms.
  exists c. split.
  - apply in_or_app. right. now left.
  - unfold cset_mem in Hc. cbn in Hc. now rewrite orb_false_r in Hc.
Qed.

(** X9.  A line without any white-space character is never a financial
    line: the pattern does not match it and the first loop stores no tuple
    for it.  Page numbers and single words are of that kind. *)
Theorem unspaced_line_not_financial line :
  forallb (fun c => negb (uni_isspace c)) line = true ->
  search FINANCIAL_PATTERN line = None
  /\ forall fins raws,
      exists raws', classify_line (fins, raws) line = Ok (fins, raws').
Proof.
  intros H.
  assert (Hs : search FINANCIAL_PATTERN line = None).
  { destruct (search FINANCIAL_PATTERN line) as [gs|] eqn:E; [|reflexivity].
    exfalso. unfold search in E. apply search_from_substring in E.
    destruct E as (pre & w & post & -> & M).
    apply financial_match_has_space in M. destruct M as (c & Hin & Hc).
    rewrite forallb_forall in H. specialize (H c).
    rewrite Hc in H. discriminate H.
    apply in_or_app. right. apply in_or_app. now left. }
  split; [exact Hs|]. intros fins raws. rewrite classify_line_step.
  unfold line_tuple. rewrite Hs. destruct (is_noise line); cbn [opt_list];
    rewrite app_nil_r; eauto.
Qed.

Lemma unspaced_line_not_financial_witness :
  search FINANCIAL_PATTERN (py "1.2M,500K,0.87") = None
  /\ forall fins raws,
      exists raws', classify_line (fins, raws) (py "1.2M,500K,0.87") = Ok (fins, raws').
Proof. apply unspaced_line_not_financial. reflexivity. Defined.

(** ** The matcher misses no match: the two optional groups *)

Section MatcherComplete.

Variable A : Type.

Lemma greedy_none_mono cs : forall s (k1 k2 : pystr -> option A),
  (forall s', k1 s' = None -> k2 s' = None) ->
  greedy cs s k1 = None -> greedy cs s k2 = None.
Proof.
  induction s as [|c s IH]; intros k1 k2 Hk H; cbn [greedy] in *; [auto|].
  destruct (cset_mem cs c); [|auto].
  destruct (greedy cs s k1) eqn:E; [discriminate|].
  rewrite (IH _ _ Hk E). auto.
Qed.

Lemma rmatch_none_blind : forall r (k : pystr -> groups -> option A),
  blind k -> forall s g1 g2, rmatch r s g1 k = None -> rmatch r s g2 k = None.
Proof.
  induction r as [p|cs|r1 IH1 r2 IH2|r1 IH1 r2 IH2|r1 IH1|cs|cs|i r1 IH1];
    intros k Hk s g1 g2 H; cbn [rmatch] in *.
  - destruct (starts_with p s); [eapply Hk; eauto|reflexivity].
  - destruct s as [|c s]; [reflexivity|].
    destruct (cset_mem cs c); [eapply Hk; eauto|reflexivity].
  - eapply IH1; [|exact H]. intros s' h1 h2. apply IH2, Hk.
  - destruct (rmatch r1 s g1 k) eqn:E; [discriminate|].
    rewrite (IH1 _ Hk _ _ g2 E). eapply IH2; eauto.
  - destruct (rmatch r1 s g1 k) eqn:E; [discriminate|].
    rewrite (IH1 _ Hk _ _ g2 E). eapply Hk; eauto.
  - eapply greedy_none_mono; [|exact H]. intros s'. apply Hk.
  - destruct s as [|c s]; [reflexivity|].
    destruct (cset_mem cs c); [|reflexivity].
    eapply greedy_none_mono; [|exact H]. intros s'. apply Hk.
  - eapply IH1; [|exact H]. intros s' h1 h2. apply Hk.
Qed.

Lemma greedy_complete cs : forall w s' (k : pystr -> option A),
  Forall (fun c => cset_mem cs c = true) w ->
  greedy cs (w ++ s') k = None -> k s' = None.
Proof.
  induction w as [|c w IH]; intros s' k Hw H.
  - cbn [app] in H. destruct s' as [|c s']; cbn [greedy] in H; [exact H|].
    destruct (cset_mem cs c); [|exact H].
    destruct (greedy cs s' k); [discriminate|exact H].
  - inversion Hw as [|? ? Hc Hw']; subst. cbn [app greedy] in H. rewrite Hc in H.
    destruct (greedy cs (w ++ s') k) eqn:E; [discriminate|]. eapply IH; eauto.
Qed.

Lemma starts_with_app p s : starts_with p (p ++ s) = true.
Proof.
  induction p as [|a p IH]; [reflexivity|]. cbn. now rewrite N.eqb_refl.
Qed.

Lemma skipn_app_exact (p s : pystr) : skipn (length p) (p ++ s) = s.
Proof. induction p as [|a p IH]; [reflexivity|]. exact IH. Qed.

Lemma rmatch_complete : forall r (k : pystr -> groups -> option A),
  blind k ->
  forall w s' g, matches r w -> rmatch r (w ++ s') g k = None ->
                 forall g', k s' g' = None.
Proof.
  induction r as [p|cs|r1 IH1 r2 IH2|r1 IH1 r2 IH2|r1 IH1|cs|cs|i r1 IH1];
    intros k Hk w s' g M H g'; inversion M; subst; clear M; cbn [rmatch] in H.
  - rewrite starts_with_app, skipn_app_exact in H. eapply Hk; eauto.
  - cbn [app] in H. match goal with Hc : cset_mem _ _ = true |- _ => rewrite Hc in H end.
    eapply Hk; eauto.
  - rewrite <- app_assoc in H.
    match goal with
    | M1 : matches r1 ?w1, M2 : matches r2 ?w2 |- _ =>
      assert (K := IH1 _ (fun s0 h1 h2 => rmatch_none_blind r2 Hk s0 h1 h2)
                       w1 (w2 ++ s') g M1 H g');
      exact (IH2 _ Hk w2 s' g' M2 K g')
    end.
  - destruct (rmatch r1 (w ++ s') g k) eqn:E; [discriminate|]. eapply IH1; eauto.
  - destruct (rmatch r1 (w ++ s') g k) eqn:E; [discriminate|]. eapply IH2; eauto.
  - destruct (rmatch r1 (w ++ s') g k) eqn:E; [discriminate|]. eapply IH1; eauto.
  - cbn [app] in H. destruct (rmatch r1 s' g k); [discriminate|]. eapply Hk; eauto.
  - eapply greedy_complete in H; [|eassumption]. cbv beta in H. eapply Hk; exact H.
  - cbn [app] in H. match goal with Hc : cset_mem _ _ = true |- _ => rewrite Hc in H end.
    eapply greedy_complete in H; [|eassumption]. cbv beta in H. eapply Hk; exact H.
  - match goal with
    | M1 : matches r1 _ |- _ =>
      assert (X := IH1 (fun s0 h => k s0 (set_group i (consumed (w ++ s') s0) h))
                       (fun s0 h1 h2 => Hk s0 _ _) w s' g M1 H g')
    end.
    cbv beta in X. eapply Hk; exact X.
Qed.

Lemma rmatch_opt r s g (k : pystr -> groups -> option A) :
  rmatch (Opt r) s g k
  = match rmatch r s g k with
    | Some a => Some a
    | None => k s g
    end.
Proof. reflexivity. Qed.

(** The two ways through an optional group followed by white space. *)
Lemma opt_group_cases i r s g (k : pystr -> groups -> option A) a :
  rmatch (Opt (Group i r ~~ spaces)) s g k = Some a ->
  (exists w wsp s' g',
      s = (w ++ wsp) ++ s' /\ matches r w /\ matches spaces wsp /\
      g' i = Some w /\ (forall j, ~ In j (i :: groups_of r) -> g' j = g j) /\
      k s' g' = Some a)
  \/ (rmatch (Group i r ~~ spaces) s g k = None /\ k s g = Some a).
Proof.
  rewrite rmatch_opt. destruct (rmatch (Group i r ~~ spaces) s g k) eqn:E.
  - intros H; inversion H; subst; clear H. left.
    rewrite rmatch_cat in E. apply rmatch_group in E.
    destruct E as (w & s1 & g1 & -> & M & C & P & E).
    apply rmatch_sound in E. destruct E as (wsp & s2 & g2 & -> & Msp & P2 & E).
    exists w, wsp, s2, g2. rewrite app_assoc. repeat split; auto.
    + rewrite P2; [exact C|]. cbn. tauto.
    + intros j Hj. rewrite P2; [now apply P|]. cbn. tauto.
  - intros H. right. auto.
Qed.

End MatcherComplete.

Lemma trailing_blind : blind (fun (_ : pystr) g => Some (match_groups 5 g)).
Proof. intros s g1 g2 H. discriminate. Qed.

Lemma financial_optional_groups s gs :
  rmatch (body FINANCIAL_PATTERN) s no_groups (fun _ g => Some (match_groups 5 g)) = Some gs ->
  exists o1 o2 o3 o4 o5,
    gs = [o1; o2; o3; o4; o5] /\ optional_ok o3 /\ optional_ok o4 /\
    (o3 = None -> o4 = None).
Proof.
  unfold FINANCIAL_PATTERN, body. intros H.
  set (kfin := fun (_ : pystr) (g : groups) => Some (match_groups 5 g)) in *.
  rewrite rmatch_cat in H. apply rmatch_group in H.
  destruct H as (w1 & s1 & g1 & _ & _ & _ & P1 & H).
  rewrite rmatch_cat in H. apply rmatch_sound in H.
  destruct H as (_ & s2 & g2 & _ & _ & P2 & H).
  rewrite rmatch_cat in H. apply rmatch_group in H.
  destruct H as (w2 & s3 & g3 & _ & _ & _ & P3 & H).
  rewrite rmatch_cat in H. apply rmatch_sound in H.
  destruct H as (_ & s4 & g4 & _ & _ & P4 & H).
  assert (G3 : g4 3 = None).
  { rewrite P4, P3, P2, P1 by (cbn; intuition discriminate). reflexivity. }
  assert (G4 : g4 4 = None).
  { rewrite P4, P3, P2, P1 by (cbn; intuition discriminate). reflexivity. }
  clear P1 P2 P3 P4.
  set (k5 := fun s' g' => rmatch (Group 5 trailing_decimal) s' g' kfin).
  assert (B5 : blind k5).
  { intros s0 h1 h2. apply rmatch_none_blind, trailing_blind. }
  (* the last step, shared by all paths *)
  assert (Last : forall s0 g0,
             k5 s0 g0 = Some gs ->
             exists o5, gs = [g0 1; g0 2; g0 3; g0 4; o5]).
  { intros s0 g0 E. unfold k5 in E. apply rmatch_group in E.
    destruct E as (w5 & s7 & g7 & _ & _ & C5 & P7 & E).
    unfold kfin in E. inversion E; subst gs. unfold match_groups. cbn [seq map].
    rewrite !P7 by (cbn; intuition discriminate). eauto. }
  rewrite rmatch_cat in H. apply opt_group_cases in H.
  destruct H as [(w3 & wsp & s5 & g5 & _ & M3 & _ & C3 & P5 & H)|[N3 H]].
  - (* group 3 present *)
    rewrite rmatch_cat in H. apply opt_group_cases in H.
    destruct H as [(w4 & wsp' & s6 & g6 & _ & M4 & _ & C4 & P6 & H)|[_ H]].
    + destruct (Last _ _ H) as [o5 ->].
      exists (g6 1), (g6 2), (g6 3), (g6 4), o5.
      rewrite C4, (P6 3), C3 by (cbn; intuition discriminate).
      split; [reflexivity|]. split; [right; eauto|]. split; [right; eauto|].
      discriminate.
    + destruct (Last _ _ H) as [o5 ->].
      exists (g5 1), (g5 2), (g5 3), (g5 4), o5.
      rewrite C3, (P5 4), G4 by (cbn; intuition discriminate).
      split; [reflexivity|]. split; [right; eauto|]. split; [now left|].
      discriminate.
  - (* group 3 absent *)
    rewrite rmatch_cat in H. apply opt_group_cases in H.
    destruct H as [(w4 & wsp' & s6 & g6 & Hs & M4 & Msp & C4 & P6 & H)|[_ H]].
    + (* group 4 cannot then be present: group 3 would have matched first *)
      exfalso. subst s4. rewrite rmatch_cat in N3.
      assert (M : matches (Group 3 percent_or_placeholder ~~ spaces) (w4 ++ wsp'))
        by (constructor; [now constructor|assumption]).
      assert (B : blind (fun s' g' =>
                           rmatch (Opt (Group 4 percent_or_placeholder ~~ spaces)
                                   ~~ Group 5 trailing_decimal) s' g' kfin)).
      { intros s0 h1 h2. apply rmatch_none_blind, trailing_blind. }
      rewrite <- rmatch_cat in N3.
      assert (X := rmatch_complete B _ _ M N3 g6). cbv beta in X.
      rewrite rmatch_cat, rmatch_opt in X.
      destruct (rmatch (Group 4 percent_or_placeholder ~~ spaces) s6 g6 _);
        [discriminate|].
      fold k5 in X. fold k5 in H. congruence.
    + destruct (Last _ _ H) as [o5 ->].
      exists (g4 1), (g4 2), (g4 3), (g4 4), o5. rewrite G3, G4.
      split; [reflexivity|]. split; [now left|]. split; [now left|]. reflexivity.
Qed.

Lemma search_optional_groups : forall s gs,
  search FINANCIAL_PATTERN s = Some gs ->
  exists o1 o2 o3 o4 o5,
    gs = [o1; o2; o3; o4; o5] /\ optional_ok o3 /\ optional_ok o4 /\
    (o3 = None -> o4 = None).
Proof.
  unfold search. change (ngroups FINANCIAL_PATTERN) with 5.
  induction s as [|c s IH]; intros gs H; cbn [search_from] in H.
  - destruct (rmatch _ _ _ _) eqn:E; [|discriminate].
    inversion H; subst. now apply financial_optional_groups in E.
  - destruct (rmatch _ _ _ _) eqn:E.
    + inversion H; subst. now apply financial_optional_groups in E.
    + now apply IH.
Qed.

Lemma page_tuples_optional_ok lines :
  Forall tuple_optional_ok (flat_map (fun l => opt_list (line_tuple l)) lines).
Proof.
  apply Forall_forall. intros t Ht. apply in_flat_map in Ht.
  destruct Ht as (l & _ & Hl). destruct (line_tuple l) as [t'|] eqn:E; [|contradiction].
  destruct Hl as [<-|[]]. unfold line_tuple in E.
  destruct (is_noise l); [discriminate|].
  destruct (search FINANCIAL_PATTERN l) as [gs|] eqn:Hs; [|discriminate].
  destruct (search_optional_groups _ Hs) as (o1 & o2 & o3 & o4 & o5 & -> & K3 & K4 & K).
  destruct o1; [|discriminate]. destruct o2; [|discriminate]. destruct o5; [|discriminate].
  inversion E; subst. cbn. auto.
Qed.

(** X10.  In every record [oiss] and [funding] are each either [None] or a
    text of the optional-group form of the pattern: a number with optional
    sign and percent sign, one character of the placeholder set, or [N/A]. *)
Theorem record_optional_fields lines tokens :
  _parse_page_smart lines = Ok tokens ->
  Forall (fun t => optional_ok (oiss t) /\ optional_ok (funding t)) tokens.
Proof.
  intros P. destruct (parse_page_by_filters lines) as (tokens' & P' & F).
  rewrite P in P'. inversion P'; subst tokens'; clear P'.
  eapply Forall2_combine_Forall with (PA := fun _ => True);
    [|apply Forall_forall; intros; exact I|apply page_tuples_optional_ok|exact F].
  intros t [n0 t0] [[[[mc vol] v0] oi] fund] (v & _ & ->) _ (K3 & K4 & _).
  cbn [oiss funding]. auto.
Qed.

Lemma record_optional_fields_witness :
  Forall (fun t => optional_ok (oiss t) /\ optional_ok (funding t)) [btc_token; eth_token].
Proof. apply (record_optional_fields page_3_pairs_2_financials). vm_compute. reflexivity. Defined.

(** X11.  A record never has a funding value without an open-interest
    value: when a financial line holds a single optional column, that
    column is stored as [oiss] and [funding] is [None]. *)
Theorem funding_needs_open_interest lines tokens :
  _parse_page_smart lines = Ok tokens ->
  Forall (fun t => oiss t = None -> funding t = None) tokens.
Proof.
  intros P. destruct (parse_page_by_filters lines) as (tokens' & P' & F).
  rewrite P in P'. inversion P'; subst tokens'; clear P'.
  eapply Forall2_combine_Forall with (PA := fun _ => True);
    [|apply Forall_forall; intros; exact I|apply page_tuples_optional_ok|exact F].
  intros t [n0 t0] [[[[mc vol] v0] oi] fund] (v & _ & ->) _ (_ & _ & K).
  cbn [oiss funding]. exact K.
Qed.

Lemma funding_needs_open_interest_witness :
  Forall (fun t => oiss t = None -> funding t = None)
         [ {| ticker := py "BTC"; name := py "Bitcoin"; market_cap := py "1.2M";
              volume := py "500K"; vtmr := binary64 (87 # 100);
              funding := None; oiss := Some (py "+1.5%") |} ].
Proof.
  apply (funding_needs_open_interest [py "Bitcoin"; py "BTC"; py "1.2M 500K +1.5% 0.87"]).
  vm_compute. reflexivity.
Defined.

(** * Further properties of the loaders and of the report *)

(** ** [extract] on a document that reads well *)

Lemma page_tickers_normalized lines tokens :
  _parse_page_smart lines = Ok tokens ->
  Forall (fun t => normalize_ticker (ticker t) = ticker t) tokens.
Proof.
  intros P. destruct (parse_page_by_filters lines) as (tokens' & P' & F).
  rewrite P in P'. inversion P'; subst tokens'; clear P'.
  eapply Forall2_combine_Forall with (PB := fun _ => True);
    [|apply resolve_pairs_members|apply Forall_forall; intros; exact I|exact F].
  intros t [n0 t0] [[[[mc vol] v0] oi] fund] (v & _ & ->) (_ & l & _ & Hc) _.
  cbn [fst snd ticker] in *. apply strict_ticker_shape in Hc. destruct Hc as [-> _].
  apply normalize_ticker_idem.
Qed.

Lemma page_tokens_normalized text :
  Forall (fun t => normalize_ticker (ticker t) = ticker t) (page_tokens text).
Proof.
  unfold page_tokens. destruct (_parse_page_smart (page_lines text)) eqn:E;
    try constructor. eapply page_tickers_normalized; eauto.
Qed.

Lemma page_loop_ok : forall texts data,
  for_each page_step (map inr texts) data = Ok (data ++ flat_map page_tokens texts).
Proof.
  induction texts as [|text texts IH]; intros data; cbn [map for_each flat_map].
  - now rewrite app_nil_r.
  - unfold page_step at 1. cbn [call bind]. unfold page_tokens at 1.
    destruct (parse_page_total (page_lines text)) as [recs ->]. cbn [bind].
    now rewrite IH, app_assoc.
Qed.

Lemma normalize_rows_fixed float_repr data :
  Forall (fun t => normalize_ticker (ticker t) = ticker t) data ->
  map (fun row => match nth_error row 0 with
                  | Some v => set_nth 0 (normalize_cell float_repr v) row
                  | None => row
                  end) (map token_row data)
  = map token_row data.
Proof.
  induction 1 as [|t data Ht Hd IH]; [reflexivity|].
  cbn [map]. rewrite IH. f_equal.
  unfold token_row. cbn [nth_error set_nth]. unfold normalize_cell. cbn [py_str].
  now rewrite Ht.
Qed.

(** X12.  When pypdf is there and every page gives its text, [extract]
    returns the records of the pages in document order, page after page;
    the final pass over the ticker column finds every ticker already in
    normal form and changes nothing. *)
Theorem extract_concatenates_pages
        (Path : Type) (reader : Path -> exn + list (exn + opt_str))
        (float_repr : pyfloat -> pystr) (path : Path) (texts : list opt_str) :
  reader path = inr (map inr texts) ->
  extract (Some reader) float_repr path
  = Ok (frame_of_tokens (flat_map page_tokens texts)).
Proof.
  intros Hr. unfold extract. rewrite Hr. cbn [call bind]. fold page_step.
  rewrite page_loop_ok. cbn [app bind try_except].
  assert (N : Forall (fun t => normalize_ticker (ticker t) = ticker t)
                     (flat_map page_tokens texts)).
  { apply Forall_forall. intros t Ht. apply in_flat_map in Ht.
    destruct Ht as (text & _ & Ht).
    pose proof (page_tokens_normalized text) as K. rewrite Forall_forall in K. auto. }
  destruct (flat_map page_tokens texts) as [|t data] eqn:E; [reflexivity|].
  cbv zeta. unfold frame_of_tokens. change (df_empty _) with false. cbn [negb].
  unfold apply_column. cbn [columns rows].
  change (index_of (py "ticker") token_columns) with (Some 0).
  change (count_occ (list_eq_dec N.eq_dec) token_columns (py "ticker")) with 1.
  change (1 <? 1) with false. cbv iota.
  now rewrite (normalize_rows_fixed float_repr N).
Qed.

Lemma extract_concatenates_pages_witness :
  extract (Some (fun _ : unit =>
                   inr (map inr [Some (py "Bitcoin" ++ nl ++ py "BTC" ++ nl
                                       ++ py "1.2M 500K - - 0.87");
                                 None;
                                 Some (py "Ethereum" ++ nl ++ py "ETH" ++ nl
                                       ++ py "$2,000.5M 1M +1.5% -0.01% 0.5")])))
          (fun _ => []) tt
  = Ok (frame_of_tokens
          (flat_map page_tokens
                    [Some (py "Bitcoin" ++ nl ++ py "BTC" ++ nl ++ py "1.2M 500K - - 0.87");
                     None;
                     Some (py "Ethereum" ++ nl ++ py "ETH" ++ nl
                           ++ py "$2,000.5M 1M +1.5% -0.01% 0.5")])).
Proof. apply extract_concatenates_pages. reflexivity. Defined.

(** ** [load_spot] beyond the inferred column *)

Lemma index_of_nth c : forall cols j,
  index_of c cols = Some j -> nth_error cols j = Some c.
Proof.
  induction cols as [|a l IH]; intros j H; cbn [index_of] in H; [discriminate|].
  destruct (str_eqb a c) eqn:E.
  - inversion H; subst. apply str_eqb_eq in E. now subst.
  - destruct (index_of c l) as [j'|] eqn:E'; [|discriminate].
    inversion H; subst. cbn. now apply IH.
Qed.

Lemma has_column_index c cols :
  has_column c cols = true <-> exists j, index_of c cols = Some j.
Proof.
  unfold has_column. induction cols as [|a l IH]; cbn [existsb index_of].
  - split; [discriminate|intros [j H]; discriminate].
  - destruct (str_eqb a c); cbn [orb].
    + split; eauto.
    + rewrite IH. split; intros [j H].
      * rewrite H. cbn. eauto.
      * destruct (index_of c l); [eauto|discriminate].
Qed.

Lemma has_column_In c cols : has_column c cols = true <-> In c cols.
Proof.
  unfold has_column. rewrite existsb_exists. split.
  - intros (x & Hx & E). apply str_eqb_eq in E. now subst.
  - intros H. exists c. split; [exact H|apply str_eqb_refl].
Qed.

Lemma single_occurrence c : forall cols j,
  nth_error cols j = Some c ->
  (forall i, nth_error cols i = Some c -> i = j) ->
  index_of c cols = Some j /\ count_occ (list_eq_dec N.eq_dec) cols c = 1.
Proof.
  induction cols as [|a l IH]; intros [|j] Hn Hu; cbn [nth_error] in Hn;
    try discriminate; cbn [index_of count_occ].
  - inversion Hn; subst. rewrite str_eqb_refl.
    destruct (list_eq_dec N.eq_dec c c); [|contradiction]. split; [reflexivity|].
    f_equal. apply count_occ_not_In. intros Hin.
    destruct (In_nth_error _ _ Hin) as [i Hi]. specialize (Hu (S i) Hi). discriminate.
  - assert (Hac : a <> c) by (intros ->; specialize (Hu 0 eq_refl); discriminate).
    rewrite (str_eqb_neq Hac). destruct (list_eq_dec N.eq_dec a c); [contradiction|].
    destruct (IH j Hn) as [I C].
    + intros i Hi. specialize (Hu (S i) Hi). now inversion Hu.
    + rewrite I. auto.
Qed.

Lemma rename_none : forall cols df,
  Forall (fun c => is_ticker_like c = false) cols -> rename_ticker_column cols df = df.
Proof.
  induction 1 as [|c cols Hc Hcs IH]; [reflexivity|].
  cbn [rename_ticker_column]. unfold is_ticker_like in Hc. now rewrite Hc.
Qed.

Lemma lower_all_other : forall cs n, In (LOther n) cs -> exists e, lower_all cs = Raise e.
Proof.
  induction cs as [|c cs IH]; intros n Hin; [contradiction|].
  cbn [lower_all]. destruct c as [s|m]; cbn [label_lower bind]; [|eauto].
  destruct Hin as [Hin|Hin]; [discriminate|].
  destruct (IH _ Hin) as [e ->]. cbn [bind]. eauto.
Qed.

(** X13.  When the first table already has one column whose lower-case
    name is [ticker], [load_spot] renames nothing, not even a column whose
    name contains [sym] or [tick]: it lower-cases the labels and normalizes
    the values of that column only. *)
Theorem spot_existing_ticker_column
        (Path : Type) (read_html : Path -> exn + list (Frame label))
        (float_repr : pyfloat -> pystr) (path : Path)
        (t : Frame label) (tables : list (Frame label))
        (names : list pystr) (j : nat) :
  read_html path = inr (t :: tables) ->
  columns t = map LStr names ->
  nth_error (map lower names) j = Some (py "ticker") ->
  (forall i, nth_error (map lower names) i = Some (py "ticker") -> i = j) ->
  load_spot read_html float_repr path
  = Ok {| columns := map lower names;
          rows := map (normalize_at float_repr j) (rows t) |}.
Proof.
  intros Hread Hcols Hj Hu.
  destruct (@single_occurrence _ _ _ Hj Hu) as [I C].
  assert (Hc : has_column (py "ticker") (map lower names) = true).
  { apply has_column_index. eauto. }
  unfold load_spot. rewrite Hread. cbn [call bind getitem nth_error].
  rewrite Hcols, lower_all_strings. cbn [bind columns].
  rewrite Hc. cbn [negb]. cbv beta iota zeta. cbn [columns]. rewrite Hc.
  unfold apply_column. cbn [columns rows]. rewrite I, C. reflexivity.
Qed.

Lemma spot_existing_ticker_column_witness :
  load_spot (fun _ : unit => inr [ticker_table]) (fun _ => []) tt
  = Ok {| columns := map lower [py "Symbol"; py "Ticker"; py "Price"];
          rows := map (normalize_at (fun _ => []) 1) (rows ticker_table) |}.
Proof.
  apply (@spot_existing_ticker_column unit (fun _ => inr [ticker_table]) (fun _ => []) tt
                                      ticker_table [] [py "Symbol"; py "Ticker"; py "Price"] 1).
  - reflexivity.
  - reflexivity.
  - reflexivity.
  - intros [|[|[|[|i]]]] Hn; cbv in Hn; try discriminate; reflexivity.
Defined.

(** X14.  When no lower-case label of the first table is [ticker] or
    contains [tick] or [sym], [load_spot] returns the table with lower-cased
    labels and untouched rows: no column is renamed, no value is normalized,
    and the result has no ticker column. *)
Theorem spot_without_ticker_column
        (Path : Type) (read_html : Path -> exn + list (Frame label))
        (float_repr : pyfloat -> pystr) (path : Path)
        (t : Frame label) (tables : list (Frame label)) (names : list pystr) :
  read_html path = inr (t :: tables) ->
  columns t = map LStr names ->
  has_column (py "ticker") (map lower names) = false ->
  Forall (fun c => is_ticker_like c = false) (map lower names) ->
  load_spot read_html float_repr path
  = Ok {| columns := map lower names; rows := rows t |}
  /\ has_column (py "ticker") (map lower names) = false.
Proof.
  intros Hread Hcols Hno Hnone. split; [|exact Hno].
  unfold load_spot. rewrite Hread. cbn [call bind getitem nth_error].
  rewrite Hcols, lower_all_strings. cbn [bind columns].
  rewrite Hno. cbn [negb]. cbv beta iota zeta.
  rewrite (@rename_none _ _ Hnone). cbn [columns]. now rewrite Hno.
Qed.

Lemma spot_without_ticker_column_witness :
  load_spot (fun _ : unit => inr [coin_table]) (fun _ => []) tt
  = Ok {| columns := map lower [py "Coin"; py "Price"]; rows := rows coin_table |}
  /\ has_column (py "ticker") (map lower [py "Coin"; py "Price"]) = false.
Proof.
  apply (@spot_without_ticker_column unit (fun _ => inr [coin_table]) (fun _ => []) tt
                                     coin_table [] [py "Coin"; py "Price"]).
  - reflexivity.
  - reflexivity.
  - reflexivity.
  - repeat constructor.
Defined.

(** X15.  When some column label of the first table is not a string (a
    position, a tuple of a multi-level header), lower-casing it raises, and
    [load_spot] returns the empty frame. *)
Theorem spot_non_string_label
        (Path : Type) (read_html : Path -> exn + list (Frame label))
        (float_repr : pyfloat -> pystr) (path : Path)
        (t : Frame label) (tables : list (Frame label)) (n : Z) :
  read_html path = inr (t :: tables) ->
  In (LOther n) (columns t) ->
  load_spot read_html float_repr path = Ok empty_frame.
Proof.
  intros Hread Hin. unfold load_spot. rewrite Hread. cbn [call bind getitem nth_error].
  destruct (@lower_all_other _ _ Hin) as [e ->]. reflexivity.
Qed.

Lemma spot_non_string_label_witness :
  load_spot (fun _ : unit =>
               inr [ {| columns := [LOther 0; LOther 1];
                        rows := [[VStr (py "btc"); VStr (py "1")]] |} ])
            (fun _ => []) tt
  = Ok empty_frame.
Proof.
  eapply (@spot_non_string_label unit _ _ tt _ [] 0%Z).
  - reflexivity.
  - left. reflexivity.
Defined.

(** ** [generate_report] at its edges *)

Lemma index_of_absent c cols : has_column c cols = false -> index_of c cols = None.
Proof.
  intros H. destruct (index_of c cols) as [j|] eqn:E; [|reflexivity].
  assert (K : has_column c cols = true) by (apply has_column_index; eauto). congruence.
Qed.

Lemma key_position_absent c cols :
  has_column c cols = false -> key_position c cols = Raise KeyError.
Proof. intros H. unfold key_position. now rewrite (index_of_absent _ _ H). Qed.

Lemma key_position_once c cols :
  has_column c cols = true -> count_occ (list_eq_dec N.eq_dec) cols c <= 1 ->
  exists j, key_position c cols = Ok j /\ index_of c cols = Some j.
Proof.
  intros H C. apply has_column_index in H. destruct H as [j H].
  exists j. unfold key_position. rewrite H.
  destruct (Nat.ltb_spec 1 (count_occ (list_eq_dec N.eq_dec) cols c)); [lia|auto].
Qed.

(** X16.  [generate_report] does not guard the join: when both frames are
    non-empty and the futures frame has no [ticker] column, or the spot
    frame has none and the futures frame has a single one, the [KeyError]
    of the merge reaches the caller. *)
Theorem report_missing_ticker_raises
        (to_html : DataFrame -> pystr) (futures_df spot_df : DataFrame) (user_id : pystr) :
  df_empty futures_df = false -> df_empty spot_df = false ->
  has_column (py "ticker") (columns futures_df) = false
  \/ (has_column (py "ticker") (columns spot_df) = false /\
      count_occ (list_eq_dec N.eq_dec) (columns futures_df) (py "ticker") <= 1) ->
  generate_report to_html futures_df spot_df user_id = Raise KeyError.
Proof.
  intros Hf Hs H. unfold generate_report, merged_frame, merge_inner.
  rewrite Hf, Hs. cbn [orb]. destruct H as [H|[H C]].
  - now rewrite (key_position_absent _ _ H).
  - destruct (has_column (py "ticker") (columns futures_df)) eqn:F.
    + destruct (key_position_once _ _ F C) as (j & -> & _). cbn [bind].
      now rewrite (key_position_absent _ _ H).
    + now rewrite (key_position_absent _ _ F).
Qed.

Lemma report_missing_ticker_raises_witness :
  generate_report (fun _ => []) futures_btc_eth spot_coin (py "alice") = Raise KeyError.
Proof.
  apply report_missing_ticker_raises; [reflexivity|reflexivity|].
  right. split; [reflexivity|]. vm_compute. lia.
Defined.

Lemma no_common_key_rows i j : forall (ls rs : list (list value)),
  (forall s f, In s ls -> In f rs -> value_eqb (nth i s VNone) (nth j f VNone) = false) ->
  flat_map (fun l => map (fun r => l ++ remove_nth j r)
                         (filter (fun r => value_eqb (nth i l VNone) (nth j r VNone)) rs))
           ls = [].
Proof.
  induction ls as [|s ls IH]; intros rs Hd; [reflexivity|].
  cbn [flat_map]. rewrite IH by (intros; apply Hd; auto; now right).
  rewrite app_nil_r.
  assert (F : forall fs, (forall f, In f fs -> In f rs) ->
                         filter (fun r => value_eqb (nth i s VNone) (nth j r VNone)) fs = []).
  { induction fs as [|f fs IHf]; intros Hin; [reflexivity|].
    cbn [filter]. rewrite (Hd s f); [|now left|apply Hin; now left].
    apply IHf. intros f0 H0. apply Hin. now right. }
  rewrite F by auto. reflexivity.
Qed.

(** X17.  When two non-empty frames that have exactly one [ticker] column
    each, holding strings, and no label that the suffixes duplicate, share
    no ticker, a report is still produced: the heading, the rendering of a
    table that has the merged labels and no row, and the legend.  Only an
    empty input gives [None]. *)
Theorem report_without_common_ticker
        (to_html : DataFrame -> pystr) (futures_df spot_df : DataFrame)
        (user_id : pystr) (i j : nat) :
  df_empty futures_df = false -> df_empty spot_df = false ->
  ticker_keyed spot_df i -> ticker_keyed futures_df j ->
  suffix_clash (py "ticker") (py "_spot") (py "_fut")
               (columns spot_df) (columns futures_df) = false ->
  (forall s f k, In s (rows spot_df) -> In f (rows futures_df) ->
                 nth_error s i = Some (VStr k) -> nth_error f j <> Some (VStr k)) ->
  generate_report to_html futures_df spot_df user_id
  = Ok (Some (report_heading user_id
              ++ to_html {| columns := merged_columns (py "ticker") (py "_spot") (py "_fut")
                                                      (columns spot_df) (columns futures_df);
                            rows := [] |}
              ++ report_footer)).
Proof.
  intros Hf Hs (Hi & Ks) (Hj & Kf) Hc Hd. unfold generate_report, merged_frame.
  rewrite (@merge_inner_positions _ _ _ _ _ _ _ Hi Hj Hc).
  rewrite Hf, Hs. cbn [orb bind].
  rewrite (@no_common_key_rows i j (rows spot_df) (rows futures_df));
    [now rewrite <- app_assoc|].
  intros s0 f Hins Hinf. rewrite Forall_forall in Ks, Kf.
  destruct (value_eqb (nth i s0 VNone) (nth j f VNone)) eqn:E; [|reflexivity].
  apply key_match in E; [|apply Ks; auto|apply Kf; auto].
  destruct E as (k & Hk & Hk'). exfalso. exact (Hd s0 f k Hins Hinf Hk Hk').
Qed.

Lemma report_without_common_ticker_witness :
  generate_report (fun _ => []) futures_btc_eth
                  {| columns := [py "ticker"; py "price"];
                     rows := [[VStr (py "SOL"); VStr (py "150")]] |}
                  (py "alice")
  = Ok (Some (report_heading (py "alice") ++ [] ++ report_footer)).
Proof.
  apply (@report_without_common_ticker (fun _ => []) futures_btc_eth _ (py "alice") 0 0);
    try reflexivity.
  - split; [reflexivity|]. repeat constructor; eexists; reflexivity.
  - split; [reflexivity|]. repeat constructor; eexists; reflexivity.
  - intros s f k Hs Hf. cbn in Hs, Hf. destruct Hs as [<-|[]].
    intros Hk. inversion Hk; subst.
    destruct Hf as [<-|[<-|[]]]; vm_compute; discriminate.
Defined.

Lemma remove_nth_length A : forall (l : list A) j,
  j < length l -> S (length (remove_nth j l)) = length l.
Proof.
  induction l as [|a l IH]; intros [|j] H; cbn [length remove_nth] in *; try lia.
  rewrite IH; lia.
Qed.

Lemma filter_key_length key : forall cols j,
  NoDup cols -> index_of key cols = Some j ->
  S (length (filter (fun c => negb (str_eqb c key)) cols)) = length cols.
Proof.
  induction cols as [|a l IH]; intros j Hnd Hi; cbn [index_of] in Hi; [discriminate|].
  inversion Hnd as [|? ? Ha Hl]; subst. cbn [filter length].
  destruct (str_eqb a key) eqn:E; cbn [negb].
  - apply str_eqb_eq in E. subst a. f_equal.
    assert (F : forall x, In x l -> negb (str_eqb x key) = true).
    { intros x Hx. rewrite str_eqb_neq; [reflexivity|]. intros ->. contradiction. }
    clear - F. induction l as [|b l IH]; [reflexivity|].
    cbn [filter]. rewrite F by now left. cbn [length]. f_equal.
    apply IH. intros x Hx. apply F. now right.
  - destruct (index_of key l) as [j'|] eqn:E'; [|discriminate].
    cbn [length]. f_equal. eapply IH; eauto.
Qed.

(** X18.  The merged frame of two frames keyed by ticker, no label of which
    the suffixes duplicate, is well formed: every row has exactly one cell
    per label, and there is one label less than the two frames have
    together, the key being kept once. *)
Theorem merged_frame_well_formed (futures_df spot_df : DataFrame) (i j : nat) :
  keyed_by_ticker spot_df i -> keyed_by_ticker futures_df j ->
  suffix_clash (py "ticker") (py "_spot") (py "_fut")
               (columns spot_df) (columns futures_df) = false ->
  exists merged,
    merged_frame futures_df spot_df = Ok merged /\
    S (length (columns merged)) = length (columns spot_df) + length (columns futures_df) /\
    Forall (fun row => length row = length (columns merged)) (rows merged).
Proof.
  intros (Ns & Is & Ks) (Nf & If & Kf) Hc. unfold merged_frame.
  rewrite (@merge_inner_keyed _ _ _ _ _ _ _ Ns Is Nf If Hc).
  eexists. split; [reflexivity|]. cbn [columns rows].
  assert (L : S (length (merged_columns (py "ticker") (py "_spot") (py "_fut")
                                        (columns spot_df) (columns futures_df)))
              = length (columns spot_df) + length (columns futures_df)).
  { unfold merged_columns, left_labels, right_labels. rewrite length_app, !length_map.
    rewrite <- (@filter_key_length _ _ _ Nf If). lia. }
  split; [exact L|].
  apply Forall_forall. intros row Hrow. apply in_flat_map in Hrow.
  destruct Hrow as (s0 & Hs & Hrow). apply in_map_iff in Hrow.
  destruct Hrow as (f & <- & Hf). apply filter_In in Hf. destruct Hf as [Hf _].
  rewrite Forall_forall in Ks, Kf.
  destruct (Ks _ Hs) as [Ws _]. destruct (Kf _ Hf) as [Wf [k Hk]].
  assert (Hj : j < length f) by (apply nth_error_Some; congruence).
  pose proof (@remove_nth_length _ f j Hj). rewrite length_app. lia.
Qed.

Lemma merged_frame_well_formed_witness :
  exists merged,
    merged_frame futures_btc_eth spot_btc_sol = Ok merged /\
    S (length (columns merged))
    = length (columns spot_btc_sol) + length (columns futures_btc_eth) /\
    Forall (fun row => length row = length (columns merged)) (rows merged).
Proof.
  apply (@merged_frame_well_formed futures_btc_eth spot_btc_sol 0 0).
  - split; [repeat constructor; cbv; intuition discriminate|].
    split; [reflexivity|]. repeat constructor; eexists; reflexivity.
  - split; [repeat constructor; cbv; intuition discriminate|].
    split; [reflexivity|]. repeat constructor; eexists; reflexivity.
  - vm_compute. reflexivity.
Defined.

(** * Properties of the rendering step and of the analysis run *)

Section DeliveryProps.

Variable Path : Type.
Variable joinpath : Path -> pystr -> Path.
Variable HTML2PDF_API_KEY : pystr.
Variable SESSION_post : request -> exn + response.
Variable write_bytes : Path -> list N -> exn + unit.
Variable upload_report : pystr -> Path -> exn + opt_str.

Local Abbreviation convert :=
  (convert_html_to_pdf joinpath HTML2PDF_API_KEY SESSION_post write_bytes upload_report).
Local Abbreviation req := (render_request HTML2PDF_API_KEY).
Local Abbreviation pdf_of dir uid := (joinpath dir (uid ++ py "_analysis_report.pdf")).

(** Every way through [convert_html_to_pdf]. *)
Lemma convert_cases html dir uid :
  (exists e, SESSION_post (req html) = inl e /\
             convert html dir uid = ([Posted (req html)], Ok None))
  \/ (exists resp, SESSION_post (req html) = inr resp /\ status_code resp <> 200%Z /\
                   convert html dir uid = ([Posted (req html)], Ok None))
  \/ (exists resp e, SESSION_post (req html) = inr resp /\ status_code resp = 200%Z /\
                     write_bytes (pdf_of dir uid) (content resp) = inl e /\
                     convert html dir uid
                     = ([Posted (req html); Wrote (pdf_of dir uid) (content resp)], Ok None))
  \/ (exists resp e, SESSION_post (req html) = inr resp /\ status_code resp = 200%Z /\
                     write_bytes (pdf_of dir uid) (content resp) = inr tt /\
                     upload_report uid (pdf_of dir uid) = inl e /\
                     convert html dir uid
                     = ([Posted (req html); Wrote (pdf_of dir uid) (content resp);
                         Uploaded uid (pdf_of dir uid)], Ok None))
  \/ (exists resp u, SESSION_post (req html) = inr resp /\ status_code resp = 200%Z /\
                     write_bytes (pdf_of dir uid) (content resp) = inr tt /\
                     upload_report uid (pdf_of dir uid) = inr u /\
                     convert html dir uid
                     = ([Posted (req html); Wrote (pdf_of dir uid) (content resp);
                         Uploaded uid (pdf_of dir uid)], Ok (Some (pdf_of dir uid)))).
Proof.
  unfold convert_html_to_pdf. cbv zeta.
  destruct (SESSION_post (req html)) as [e|resp] eqn:Ep.
  - left. exists e. split; reflexivity.
  - right. cbn [io_call call io_bind].
    destruct (status_code resp =? 200)%Z eqn:Es.
    + apply Z.eqb_eq in Es. right.
      destruct (write_bytes (pdf_of dir uid) (content resp)) as [e|[]] eqn:Ew.
      * left. exists resp, e. repeat split; reflexivity || assumption.
      * right. destruct (upload_report uid (pdf_of dir uid)) as [e|u] eqn:Eu.
        -- left. exists resp, e. repeat split; reflexivity || assumption.
        -- right. exists resp, u. repeat split; reflexivity || assumption.
    + apply Z.eqb_neq in Es. left. exists resp. repeat split; reflexivity || assumption.
Qed.

(** X19.  [convert_html_to_pdf] never raises.  It returns the path of the
    PDF exactly when the rendering service answered with status 200, the
    file could be written and the upload call returned; in every other case
    it returns [None]. *)
Theorem convert_returns_path_iff html dir uid :
  let result := snd (convert_html_to_pdf joinpath HTML2PDF_API_KEY SESSION_post write_bytes
                                         upload_report html dir uid) in
  (result = Ok (Some (pdf_of dir uid)) \/ result = Ok None)
  /\ (result = Ok (Some (pdf_of dir uid)) <->
      exists resp u,
        SESSION_post (render_request HTML2PDF_API_KEY html) = inr resp /\
        status_code resp = 200%Z /\
        write_bytes (pdf_of dir uid) (content resp) = inr tt /\
        upload_report uid (pdf_of dir uid) = inr u).
Proof.
  cbv zeta.
  destruct (convert_cases html dir uid)
    as [(e & Hp & ->)|[(resp & Hp & Hs & ->)|[(resp & e & Hp & Hs & Hw & ->)
       |[(resp & e & Hp & Hs & Hw & Hu & ->)|(resp & u & Hp & Hs & Hw & Hu & ->)]]]];
    cbn [snd]; (split; [auto|]); split; try discriminate;
      try (intros (r' & u' & Hp' & Hs' & Hw' & Hu'); congruence).
  all: try (intros _; eauto 6).
Qed.

(** X20.  When the upload raises after the PDF has been written, the
    exception is swallowed and the caller gets [None], although the file is
    there: the request, the write and the upload attempt all took place. *)
Theorem convert_upload_failure html dir uid resp e :
  SESSION_post (render_request HTML2PDF_API_KEY html) = inr resp ->
  status_code resp = 200%Z ->
  write_bytes (pdf_of dir uid) (content resp) = inr tt ->
  upload_report uid (pdf_of dir uid) = inl e ->
  convert_html_to_pdf joinpath HTML2PDF_API_KEY SESSION_post write_bytes upload_report
                      html dir uid
  = ([Posted (render_request HTML2PDF_API_KEY html);
      Wrote (pdf_of dir uid) (content resp);
      Uploaded uid (pdf_of dir uid)], Ok None).
Proof.
  intros Hp Hs Hw Hu.
  destruct (convert_cases html dir uid)
    as [(e' & Hp' & E)|[(r' & Hp' & Hs' & E)|[(r' & e' & Hp' & Hs' & Hw' & E)
       |[(r' & e' & Hp' & Hs' & Hw' & Hu' & E)|(r' & u & Hp' & Hs' & Hw' & Hu' & E)]]]];
    congruence.
Qed.

(** X21.  Exactly one request is sent, first of all, with the report and
    the API key in its body.  A file is written only after an answer with
    status 200, at the path of the user's report and with the content of
    that answer; an upload is attempted only after that write succeeded. *)
Theorem convert_effects_guarded html dir uid :
  let trace := fst (convert_html_to_pdf joinpath HTML2PDF_API_KEY SESSION_post write_bytes
                                        upload_report html dir uid) in
  (exists rest, trace = Posted (render_request HTML2PDF_API_KEY html) :: rest /\
                forall r, ~ In (Posted r) rest)
  /\ (forall p bytes,
         In (Wrote p bytes) trace ->
         p = pdf_of dir uid /\
         exists resp, SESSION_post (render_request HTML2PDF_API_KEY html) = inr resp /\
                      status_code resp = 200%Z /\ bytes = content resp)
  /\ (forall u p,
         In (Uploaded u p) trace ->
         u = uid /\ p = pdf_of dir uid /\
         exists resp, SESSION_post (render_request HTML2PDF_API_KEY html) = inr resp /\
                      write_bytes p (content resp) = inr tt).
Proof.
  cbv zeta.
  destruct (convert_cases html dir uid)
    as [(e & Hp & ->)|[(resp & Hp & Hs & ->)|[(resp & e & Hp & Hs & Hw & ->)
       |[(resp & e & Hp & Hs & Hw & Hu & ->)|(resp & u & Hp & Hs & Hw & Hu & ->)]]]];
    cbn [fst]; (split; [eexists; split; [reflexivity|]|split]).
  all: try (intros r H; cbn in H; intuition discriminate).
  all: try (intros p bytes H; cbn in H; intuition (try discriminate)).
  all: try (intros u0 p H; cbn in H; intuition (try discriminate)).
  all: repeat match goal with
              | H : Wrote _ _ = Wrote _ _ |- _ => inversion H; subst; clear H
              | H : Uploaded _ _ = Uploaded _ _ |- _ => inversion H; subst; clear H
              end; eauto.
Qed.

End DeliveryProps.

Lemma convert_upload_failure_witness :
  convert_html_to_pdf demo_join (py "key") (fun _ => inr pdf_answer)
                      (fun _ _ => inr tt) (fun _ _ => inl (LibraryError 7))
                      (py "<h1>r</h1>") (py "/tmp") (py "alice")
  = ([Posted (render_request (py "key") (py "<h1>r</h1>"));
      Wrote (demo_join (py "/tmp") (py "alice" ++ py "_analysis_report.pdf"))
            (content pdf_answer);
      Uploaded (py "alice") (demo_join (py "/tmp") (py "alice" ++ py "_analysis_report.pdf"))],
     Ok None).
Proof.
  apply (@convert_upload_failure pystr demo_join (py "key") (fun _ => inr pdf_answer)
                                 (fun _ _ => inr tt) (fun _ _ => inl (LibraryError 7))
                                 (py "<h1>r</h1>") (py "/tmp") (py "alice") pdf_answer
                                 (LibraryError 7)); reflexivity.
Defined.

Lemma convert_effects_guarded_witness :
  demo_join (py "/tmp") (py "alice" ++ py "_analysis_report.pdf")
  = demo_join (py "/tmp") (py "alice" ++ py "_analysis_report.pdf")
  /\ exists resp,
      (fun _ : request => @inr exn response pdf_answer)
        (render_request (py "key") (py "<h1>r</h1>")) = inr resp
      /\ status_code resp = 200%Z /\ content pdf_answer = content resp.
Proof.
  apply (proj1 (proj2 (@convert_effects_guarded
                         pystr demo_join (py "key") (fun _ => inr pdf_answer)
                         (fun _ _ => inr tt) (fun _ _ => inr None)
                         (py "<h1>r</h1>") (py "/tmp") (py "alice")))).
  cbn. right. left. reflexivity.
Defined.

Lemma apply_column_once c f df df' :
  apply_column c f df = Ok df' ->
  columns df' = columns df /\ count_occ (list_eq_dec N.eq_dec) (columns df) c <= 1.
Proof.
  unfold apply_column. destruct (index_of c (columns df)); [|discriminate].
  destruct (Nat.ltb_spec 1 (count_occ (list_eq_dec N.eq_dec) (columns df) c));
    [discriminate|].
  intros X; inversion X; subst. cbn [columns]. auto.
Qed.

(** The frame that [load_spot] returns has at most one [ticker] column. *)
Lemma load_spot_ticker_once Path read_html float_repr (path : Path) df :
  load_spot read_html float_repr path = Ok df ->
  count_occ (list_eq_dec N.eq_dec) (columns df) (py "ticker") <= 1.
Proof.
  unfold load_spot. destruct (call (read_html path)) as [tables|e|]; cbn [bind try_except].
  2:{ intros X; inversion X; subst. cbn. lia. }
  2:{ discriminate. }
  destruct (getitem tables 0) as [t|e|]; cbn [bind try_except].
  2:{ intros X; inversion X; subst. cbn. lia. }
  2:{ discriminate. }
  destruct (lower_all (columns t)) as [cols|e|]; cbn [bind try_except].
  2:{ intros X; inversion X; subst. cbn. lia. }
  2:{ discriminate. }
  cbv zeta.
  match goal with
  | |- context [if has_column (py "ticker") (columns ?d) then _ else _] => set (df1 := d)
  end.
  destruct (has_column (py "ticker") (columns df1)) eqn:E.
  - destruct (apply_column _ _ df1) as [df'|e|] eqn:A; cbn [try_except].
    + intros X; inversion X; subst. apply apply_column_once in A.
      destruct A as [-> C]. exact C.
    + intros X; inversion X; subst. cbn. lia.
    + discriminate.
  - cbn [try_except]. intros X; inversion X; subst.
    rewrite (count_occ_absent _ _ E). lia.
Qed.

Section RunProps.

Variable Path : Type.
Variable joinpath : Path -> pystr -> Path.
Variable path_exists : Path -> bool.
Variable UPLOAD_FOLDER : Path.
Variable HTML2PDF_API_KEY : pystr.
Variable SESSION_post : request -> exn + response.
Variable write_bytes : Path -> list N -> exn + unit.
Variable upload_report : pystr -> Path -> exn + opt_str.
Variable pypdf : option (Path -> exn + list (exn + opt_str)).
Variable read_html : Path -> exn + list (Frame label).
Variable float_repr : pyfloat -> pystr.
Variable to_html : DataFrame -> pystr.

Local Abbreviation convert :=
  (convert_html_to_pdf joinpath HTML2PDF_API_KEY SESSION_post write_bytes upload_report).
Local Abbreviation run :=
  (run_futures_analysis joinpath path_exists UPLOAD_FOLDER HTML2PDF_API_KEY SESSION_post
                        write_bytes upload_report pypdf read_html float_repr to_html).
Local Abbreviation spot_file uid :=
  (joinpath UPLOAD_FOLDER (uid ++ py "_Volumed_Spot_Tokens.html")).
Local Abbreviation futures_file uid := (joinpath UPLOAD_FOLDER (uid ++ py "_futures.pdf")).
Local Abbreviation futures_of uid := (extract pypdf float_repr (futures_file uid)).
Local Abbreviation spot_of uid := (load_spot read_html float_repr (spot_file uid)).

Lemma report_not_empty uid (to_html0 : DataFrame -> pystr) merged :
  exists c h, report_heading uid ++ to_html0 merged ++ report_footer = c :: h.
Proof. unfold report_heading. cbn. eauto. Qed.

(** Every way through [run_futures_analysis]. *)
Lemma run_cases uid :
  ((path_exists (spot_file uid) = false \/ path_exists (futures_file uid) = false)
   /\ run uid = ([], Ok tt))
  \/ (path_exists (spot_file uid) = true /\ path_exists (futures_file uid) = true /\
      exists f_df s_df,
        futures_of uid = Ok f_df /\ spot_of uid = Ok s_df /\
        ((generate_report to_html f_df s_df uid = Ok None /\
          (df_empty f_df = true \/ df_empty s_df = true) /\
          run uid = ([], Ok tt))
         \/ (generate_report to_html f_df s_df uid = Raise KeyError /\
             df_empty f_df = false /\ df_empty s_df = false /\
             has_column (py "ticker") (columns s_df) = false /\
             run uid = ([], Raise KeyError))
         \/ (generate_report to_html f_df s_df uid = Raise MergeError /\
             df_empty f_df = false /\ df_empty s_df = false /\
             has_column (py "ticker") (columns s_df) = true /\
             suffix_clash (py "ticker") (py "_spot") (py "_fut")
                          (columns s_df) (columns f_df) = true /\
             run uid = ([], Raise MergeError))
         \/ (exists html,
                generate_report to_html f_df s_df uid = Ok (Some html) /\
                df_empty f_df = false /\ df_empty s_df = false /\
                has_column (py "ticker") (columns s_df) = true /\
                suffix_clash (py "ticker") (py "_spot") (py "_fut")
                             (columns s_df) (columns f_df) = false /\
                run uid = (fst (convert html UPLOAD_FOLDER uid), Ok tt)))).
Proof.
  unfold run_futures_analysis. cbv zeta.
  destruct (path_exists (spot_file uid)) eqn:Es; [|left; split; [now left|reflexivity]].
  destruct (path_exists (futures_file uid)) eqn:Ef; [|left; split; [now right|reflexivity]].
  right. split; [reflexivity|]. split; [reflexivity|]. cbn [negb orb].
  destruct (extract_total pypdf float_repr (futures_file uid)) as [f_df Hf].
  destruct (load_spot_total read_html float_repr (spot_file uid)) as [s_df Hs].
  exists f_df, s_df. split; [exact Hf|]. split; [exact Hs|].
  rewrite Hf, Hs. unfold io_lift. cbn [io_bind].
  destruct (df_empty f_df) eqn:Df.
  { left. unfold generate_report. rewrite Df. cbn [orb]. auto. }
  destruct (df_empty s_df) eqn:Ds.
  { left. unfold generate_report. rewrite Df, Ds. cbn [orb]. auto. }
  right.
  pose proof (extract_keyed _ _ _ Hf Df) as (Nf & If & _).
  pose proof (@key_position_unique _ _ _ Nf If) as Kf.
  destruct (has_column (py "ticker") (columns s_df)) eqn:Hc.
  - right.
    destruct (key_position_once _ _ Hc (load_spot_ticker_once _ _ _ Hs)) as (i & Ks & _).
    destruct (suffix_clash (py "ticker") (py "_spot") (py "_fut")
                           (columns s_df) (columns f_df)) eqn:Hx.
    + left.
      assert (G : generate_report to_html f_df s_df uid = Raise MergeError).
      { unfold generate_report, merged_frame, merge_inner. rewrite Df, Ds, Kf, Ks.
        cbn [orb bind]. now rewrite Hx. }
      rewrite G. auto 7.
    + right.
      assert (G : exists c h, generate_report to_html f_df s_df uid = Ok (Some (c :: h))).
      { unfold generate_report, merged_frame, merge_inner. rewrite Df, Ds, Kf, Ks.
        cbn [orb bind]. rewrite Hx. cbn [bind].
        match goal with
        | |- context [to_html ?m] =>
          destruct (report_not_empty uid to_html m) as (c & h' & Eh)
        end.
        rewrite <- app_assoc in *. rewrite Eh. eauto. }
      destruct G as (c & h' & G). rewrite G. exists (c :: h').
      split; [reflexivity|]. split; [reflexivity|]. split; [reflexivity|].
      split; [reflexivity|]. split; [reflexivity|].
      destruct (convert_cases joinpath HTML2PDF_API_KEY SESSION_post write_bytes upload_report
                              (c :: h') UPLOAD_FOLDER uid)
        as [(e & _ & ->)|[(resp & _ & _ & ->)|[(resp & e & _ & _ & _ & ->)
           |[(resp & e & _ & _ & _ & _ & ->)|(resp & u & _ & _ & _ & _ & ->)]]]];
        cbn [io_bind io_ret fst]; now rewrite app_nil_r.
  - left. assert (G : generate_report to_html f_df s_df uid = Raise KeyError).
    { unfold generate_report, merged_frame, merge_inner. rewrite Df, Ds, Kf. cbn [orb bind].
      now rewrite (key_position_absent _ _ Hc). }
    rewrite G. auto 6.
Qed.

(** X22.  When one of the two files of the user is missing, or one of the
    loaders returns an empty frame (pypdf missing, unreadable document, no
    record, no table), the run has no outside effect at all and returns
    normally: no request, no file, no upload. *)
Theorem run_without_inputs_is_silent uid :
  path_exists (spot_file uid) = false
  \/ path_exists (futures_file uid) = false
  \/ (exists f_df, futures_of uid = Ok f_df /\ df_empty f_df = true)
  \/ (exists s_df, spot_of uid = Ok s_df /\ df_empty s_df = true) ->
  run_futures_analysis joinpath path_exists UPLOAD_FOLDER HTML2PDF_API_KEY SESSION_post
                       write_bytes upload_report pypdf read_html float_repr to_html uid
  = ([], Ok tt).
Proof.
  intros H.
  destruct (run_cases uid)
    as [[_ E]|(Es & Ef & f_df & s_df & Hf & Hs &
               [(_ & _ & E)|[(_ & Df & Ds & _ & _)|[(_ & Df & Ds & _ & _ & _)
                |(html & _ & Df & Ds & _ & _ & _)]]])];
    try exact E;
    destruct H as [H|[H|[(f & Hf' & Df')|(s0 & Hs' & Ds')]]]; congruence.
Qed.

(** X23.  A request reaches the rendering service only when both files
    exist, both loaders returned non-empty frames and the report was built;
    the request then carries that report. *)
Theorem run_posts_only_a_report uid r :
  In (Posted r)
     (fst (run_futures_analysis joinpath path_exists UPLOAD_FOLDER HTML2PDF_API_KEY
                                SESSION_post write_bytes upload_report pypdf read_html
                                float_repr to_html uid)) ->
  path_exists (spot_file uid) = true /\ path_exists (futures_file uid) = true /\
  exists f_df s_df,
    futures_of uid = Ok f_df /\ spot_of uid = Ok s_df /\
    df_empty f_df = false /\ df_empty s_df = false /\
    generate_report to_html f_df s_df uid = Ok (Some (json_html r)).
Proof.
  intros H.
  destruct (run_cases uid)
    as [[_ E]|(Es & Ef & f_df & s_df & Hf & Hs &
               [(_ & _ & E)|[(_ & _ & _ & _ & E)|[(_ & _ & _ & _ & _ & E)
                |(html & G & Df & Ds & _ & _ & E)]]])];
    rewrite E in H; cbn [fst] in H; try contradiction.
  split; [exact Es|]. split; [exact Ef|]. exists f_df, s_df.
  repeat (split; [assumption|]).
  destruct (convert_cases joinpath HTML2PDF_API_KEY SESSION_post write_bytes upload_report
                          html UPLOAD_FOLDER uid)
    as [(e & _ & E')|[(resp & _ & _ & E')|[(resp & e & _ & _ & _ & E')
       |[(resp & e & _ & _ & _ & _ & E')|(resp & u & _ & _ & _ & _ & E')]]]];
    rewrite E' in H; cbn [fst In] in H;
    intuition (try discriminate);
    match goal with
    | P : Posted _ = Posted _ |- _ => inversion P; subst; exact G
    end.
Qed.


End RunProps.

Lemma run_without_inputs_is_silent_witness :
  demo_run (fun _ => false) (py "alice") = ([], Ok tt).
Proof.
  apply run_without_inputs_is_silent. left. reflexivity.
Defined.

Lemma run_posts_only_a_report_witness :
  let r := render_request (py "key") (report_heading (py "alice") ++ report_footer) in
  (fun _ : pystr => true) (demo_join (py "/uploads") (py "alice" ++ py "_Volumed_Spot_Tokens.html"))
  = true /\
  (fun _ : pystr => true) (demo_join (py "/uploads") (py "alice" ++ py "_futures.pdf")) = true /\
  exists f_df s_df,
    extract (Some demo_pdf) (fun _ => [])
            (demo_join (py "/uploads") (py "alice" ++ py "_futures.pdf")) = Ok f_df /\
    load_spot demo_html (fun _ => [])
              (demo_join (py "/uploads") (py "alice" ++ py "_Volumed_Spot_Tokens.html"))
    = Ok s_df /\
    df_empty f_df = false /\ df_empty s_df = false /\
    generate_report (fun _ => []) f_df s_df (py "alice") = Ok (Some (json_html r)).
Proof.
  intros r.
  apply (@run_posts_only_a_report pystr demo_join (fun _ => true) (py "/uploads") (py "key")
                                  (fun _ => inr pdf_answer) (fun _ _ => inr tt)
                                  (fun _ _ => inr None) (Some demo_pdf) demo_html
                                  (fun _ => []) (fun _ => []) (py "alice") r).
  vm_compute. left. reflexivity.
Defined.

(** * Properties of the log catcher *)

Section StateProps.
Import State.

Lemma dict_get_set_same V (d : dict V) k v : dict_get (dict_set d k v) k = Some v.
Proof.
  induction d as [|[k' v'] d IH]; cbn [dict_set dict_get].
  - now rewrite str_eqb_refl.
  - destruct (str_eqb k' k) eqn:E; cbn [dict_get].
    + now rewrite str_eqb_refl.
    + now rewrite E.
Qed.

Lemma dict_get_set_other V (d : dict V) k k' v :
  k' <> k -> dict_get (dict_set d k v) k' = dict_get d k'.
Proof.
  intros Hk. induction d as [|[k0 v0] d IH]; cbn [dict_set dict_get].
  - rewrite str_eqb_neq; [reflexivity|congruence].
  - destruct (str_eqb k0 k) eqn:E; cbn [dict_get].
    + apply str_eqb_eq in E. subst k0.
      rewrite !str_eqb_neq by congruence. reflexivity.
    + destruct (str_eqb k0 k'); [reflexivity|exact IH].
Qed.

Lemma progress_step_logs uid text0 st :
  USER_LOGS (progress_step uid text0 st) = USER_LOGS st
  /\ terminal (progress_step uid text0 st) = terminal st.
Proof.
  unfold progress_step.
  repeat match goal with
         | |- context [if ?b then _ else _] => destruct b
         end; split; reflexivity.
Qed.

Lemma progress_step_other uid text0 st uid' :
  uid' <> uid ->
  dict_get (USER_PROGRESS (progress_step uid text0 st)) uid'
  = dict_get (USER_PROGRESS st) uid'.
Proof.
  intros H. unfold progress_step.
  repeat match goal with
         | |- context [if ?b then _ else _] => destruct b
         end; cbn [update_progress USER_PROGRESS];
    try reflexivity; now apply dict_get_set_other.
Qed.

(** What one write does to the logs. *)
Lemma write_logs th msg st :
  USER_LOGS (write th msg st)
  = if nonblank msg && starts_with (py "user_") th
    then dict_set (USER_LOGS st) (uid_of th)
                  (let logs := match dict_get (USER_LOGS st) (uid_of th) with
                               | Some l => l
                               | None => []
                               end ++ [msg] in
                   if 500 <? length logs then tl logs else logs)
    else USER_LOGS st.
Proof.
  unfold write. cbv zeta. destruct (nonblank msg); [|reflexivity].
  destruct (starts_with (py "user_") th); [|reflexivity]. cbn [andb].
  rewrite (proj1 (progress_step_logs _ _ _)). reflexivity.
Qed.

Lemma capped_length (l : list pystr) :
  length l <= 501 -> length (if 500 <? length l then tl l else l) <= 500.
Proof.
  intros H. destruct (Nat.ltb_spec 500 (length l)) as [G|G]; [|exact G].
  destruct l; cbn [tl length] in *; lia.
Qed.

Lemma write_bounded th msg st : logs_bounded st -> logs_bounded (write th msg st).
Proof.
  intros B uid l. rewrite write_logs.
  destruct (nonblank msg && starts_with (py "user_") th); [|apply B].
  destruct (list_eq_dec N.eq_dec uid (uid_of th)) as [->|Hne].
  - rewrite dict_get_set_same. intros H; inversion H; subst; clear H. cbv zeta.
    apply capped_length. rewrite length_app. cbn [length].
    destruct (dict_get (USER_LOGS st) (uid_of th)) as [l0|] eqn:E; cbn [length]; [|lia].
    specialize (B _ _ E). lia.
  - rewrite dict_get_set_other by assumption. apply B.
Qed.

(** X25.  The log kept for a user never grows beyond 500 messages: if no
    stored log is longer than that, none is after any series of writes, on
    whatever threads. *)
Theorem log_buffer_bounded ws st :
  logs_bounded st -> logs_bounded (writes ws st).
Proof.
  unfold writes. revert st. induction ws as [|w ws IH]; intros st B; cbn [fold_left].
  - exact B.
  - apply IH. now apply write_bounded.
Qed.

Lemma log_buffer_bounded_witness :
  logs_bounded (writes [(py "user_alice", py "Scanning CoinGecko"); (py "MainThread", py "x")]
                       initial).
Proof.
  apply log_buffer_bounded. intros uid l H. discriminate H.
Defined.

Lemma writes_snoc ws w st :
  writes (ws ++ [w]) st = write (fst w) (snd w) (writes ws st).
Proof. unfold writes. rewrite fold_left_app. reflexivity. Qed.

Lemma lastn_short A n (l : list A) : length l <= n -> lastn n l = l.
Proof. intros H. unfold lastn. replace (length l - n) with 0 by lia. reflexivity. Qed.

Lemma lastn_length A n (l : list A) : length (lastn n l) = Nat.min n (length l).
Proof. unfold lastn. rewrite length_skipn. lia. Qed.

Lemma capped_lastn (l : list pystr) m :
  (let logs := lastn 500 l ++ [m] in if 500 <? length logs then tl logs else logs)
  = lastn 500 (l ++ [m]).
Proof.
  cbv zeta. rewrite length_app, lastn_length. cbn [length].
  destruct (Nat.ltb_spec 500 (Nat.min 500 (length l) + 1)) as [G|G].
  - unfold lastn. rewrite length_app. cbn [length].
    replace (length l + 1 - 500) with (S (length l - 500)) by lia.
    rewrite skipn_app.
    replace (S (length l - 500) - length l) with 0 by lia. cbn [skipn].
    assert (E : exists x r, skipn (length l - 500) l = x :: r).
    { destruct (skipn (length l - 500) l) as [|x r] eqn:E; [|eauto].
      apply (f_equal (@length _)) in E. rewrite length_skipn in E. cbn in E. lia. }
    destruct E as (x & r & E).
    rewrite E. cbn [app tl].
    f_equal.
    change (match l with [] => [] | _ :: l0 => skipn (length l - 500) l0 end)
      with (skipn (1 + (length l - 500)) l).
    rewrite <- (skipn_skipn 1 (length l - 500) l), E. reflexivity.
  - rewrite (@lastn_short _ 500 l) by lia.
    rewrite lastn_short; [reflexivity|]. rewrite length_app. cbn [length]. lia.
Qed.

(** X26.  Starting from empty logs, the log of a user is exactly the last
    500 non-blank messages written on the threads that stand for that user,
    oldest first; a user nothing was logged for has no entry. *)
Theorem log_holds_latest ws uid :
  dict_get (USER_LOGS (writes ws initial)) uid
  = match filter (logged_for uid) ws with
    | [] => None
    | _ :: _ => Some (lastn 500 (map snd (filter (logged_for uid) ws)))
    end.
Proof.
  induction ws as [|w ws IH] using rev_ind; [reflexivity|].
  rewrite writes_snoc, write_logs, filter_app. cbn [filter].
  destruct (logged_for uid w) eqn:L; unfold logged_for in L.
  - apply andb_prop in L. destruct L as [C E]. rewrite C.
    apply str_eqb_eq in E. rewrite E, dict_get_set_same, IH.
    destruct (filter (logged_for uid) ws) as [|x F] eqn:EF.
    + reflexivity.
    + change ((x :: F) ++ [w]) with (x :: (F ++ [w])).
      f_equal. rewrite capped_lastn.
      change (x :: (F ++ [w])) with ((x :: F) ++ [w]).
      rewrite map_app. reflexivity.
  - rewrite app_nil_r.
    destruct (nonblank (snd w) && starts_with (py "user_") (fst w)); [|exact IH].
    cbn [andb] in L.
    rewrite dict_get_set_other; [exact IH|].
    intros ->. rewrite str_eqb_refl in L. discriminate.
Qed.

Lemma replace_from_skip old new (p u : pystr) :
  replace_from old new (length p) (p ++ u) = replace_from old new 0 u.
Proof.
  induction p as [|a p IH]; cbn [length app].
  - reflexivity.
  - cbn [replace_from]. exact IH.
Qed.

Lemma replace_prefix a old (u : pystr) :
  replace (a :: old) [] ((a :: old) ++ u) = replace (a :: old) [] u.
Proof.
  unfold replace. change ((a :: old) ++ u) with (a :: (old ++ u)).
  cbn [replace_from].
  change (a :: old ++ u) with ((a :: old) ++ u). rewrite starts_with_app.
  replace (length (a :: old) - 1) with (length old) by (cbn [length]; lia).
  apply replace_from_skip.
Qed.

Lemma replace_absent old new (u : pystr) :
  contains old u = false -> replace old new u = u.
Proof.
  unfold replace. induction u as [|c u IH]; intros H; [reflexivity|].
  cbn [contains] in H. apply orb_false_elim in H. destruct H as [H1 H2].
  cbn [replace_from]. rewrite H1, IH by exact H2. reflexivity.
Qed.

Lemma uid_of_user u : contains (py "user_") u = false -> uid_of (py "user_" ++ u) = u.
Proof.
  intros H. unfold uid_of.
  change (py "user_") with [117; 115; 101; 114; 95]%N in *.
  rewrite replace_prefix. now apply replace_absent.
Qed.

Lemma capped_last (l : list pystr) m :
  exists l', (let logs := l ++ [m] in if 500 <? length logs then tl logs else logs)
             = l' ++ [m].
Proof.
  cbv zeta. destruct l as [|x l]; [exists []; reflexivity|].
  destruct (500 <? length ((x :: l) ++ [m])); [exists l; reflexivity|eauto].
Qed.

(** X27.  A non-blank message written on the thread [user_<u>] becomes the
    newest entry of the log of [u], provided [u] does not itself contain
    the text [user_]. *)
Theorem user_thread_logs_message u msg st :
  contains (py "user_") u = false ->
  nonblank msg = true ->
  exists older,
    dict_get (USER_LOGS (write (py "user_" ++ u) msg st)) u = Some (older ++ [msg]).
Proof.
  intros Hu Hm. rewrite write_logs, Hm, starts_with_app. cbn [andb].
  rewrite (uid_of_user _ Hu), dict_get_set_same.
  destruct (capped_last (match dict_get (USER_LOGS st) u with
                         | Some l => l
                         | None => []
                         end) msg) as [l' E].
  exists l'. f_equal. exact E.
Qed.

Lemma user_thread_logs_message_witness :
  exists older,
    dict_get (USER_LOGS (write (py "user_" ++ py "alice") (py "Scanning CoinGecko")
                               initial))
             (py "alice")
    = Some (older ++ [py "Scanning CoinGecko"]).
Proof.
  apply user_thread_logs_message; reflexivity.
Defined.

(** X28.  Every leading [user_] is removed from a thread name, not only the
    first: a write on the thread [user_user_<u>] has the same effect as the
    same write on the thread [user_<u>], so the two share a log and a
    progress entry. *)
Theorem user_prefix_collapses u msg st :
  write (py "user_" ++ py "user_" ++ u) msg st = write (py "user_" ++ u) msg st.
Proof.
  unfold write. cbv zeta. rewrite !starts_with_app.
  change (replace (py "user_") [] (py "user_" ++ py "user_" ++ u))
    with (uid_of (py "user_" ++ py "user_" ++ u)).
  change (replace (py "user_") [] (py "user_" ++ u)) with (uid_of (py "user_" ++ u)).
  assert (E : uid_of (py "user_" ++ py "user_" ++ u) = uid_of (py "user_" ++ u)).
  { unfold uid_of. change (py "user_") with [117; 115; 101; 114; 95]%N.
    now rewrite replace_prefix. }
  rewrite E. reflexivity.
Qed.

Lemma write_terminal th msg st : terminal (write th msg st) = terminal st ++ [msg].
Proof.
  unfold write. cbv zeta. destruct (nonblank msg); [|reflexivity].
  destruct (starts_with (py "user_") th); [|reflexivity].
  rewrite (proj2 (progress_step_logs _ _ _)). reflexivity.
Qed.

Lemma write_progress_other th msg st uid' :
  uid' <> uid_of th \/ starts_with (py "user_") th = false \/ nonblank msg = false ->
  dict_get (USER_PROGRESS (write th msg st)) uid' = dict_get (USER_PROGRESS st) uid'.
Proof.
  intros H. unfold write. cbv zeta.
  destruct (nonblank msg); [|reflexivity].
  destruct (starts_with (py "user_") th); [|reflexivity].
  destruct H as [H|[H|H]]; try discriminate.
  rewrite progress_step_other by exact H. reflexivity.
Qed.

(** X29.  A write touches the log and the progress of one user at most, the
    one its thread stands for: those of every other user are as before, and
    so are those of every user when the thread is not a [user_] thread or
    the message is blank.  The message reaches the original stream in every
    case. *)
Theorem write_isolated th msg st uid' :
  uid' <> uid_of th \/ starts_with (py "user_") th = false \/ nonblank msg = false ->
  dict_get (USER_LOGS (write th msg st)) uid' = dict_get (USER_LOGS st) uid'
  /\ get_progress (write th msg st) uid' = get_progress st uid'
  /\ terminal (write th msg st) = terminal st ++ [msg].
Proof.
  intros H. split; [|split].
  - rewrite write_logs.
    destruct (nonblank msg); [|reflexivity].
    destruct (starts_with (py "user_") th); [|reflexivity].
    destruct H as [H|[H|H]]; try discriminate.
    cbn [andb]. now apply dict_get_set_other.
  - unfold get_progress. now rewrite write_progress_other.
  - apply write_terminal.
Qed.

Lemma write_isolated_witness :
  dict_get (USER_LOGS (write (py "user_alice") (py "Scanning CoinGecko") initial))
           (py "bob")
  = dict_get (USER_LOGS initial) (py "bob")
  /\ get_progress (write (py "user_alice") (py "Scanning CoinGecko") initial) (py "bob")
     = get_progress initial (py "bob")
  /\ terminal (write (py "user_alice") (py "Scanning CoinGecko") initial)
     = terminal initial ++ [py "Scanning CoinGecko"].
Proof.
  apply write_isolated. left. vm_compute. discriminate.
Defined.

Lemma lstrip_keeps a c (b : pystr) :
  uni_isspace c = false -> exists a', lstrip (a ++ c :: b) = a' ++ c :: b.
Proof.
  intros Hc. induction a as [|x a IH]; cbn [app lstrip].
  - rewrite Hc. now exists [].
  - destruct (uni_isspace x); [exact IH|]. now exists (x :: a).
Qed.

Lemma nonblank_intro a c (b : pystr) : uni_isspace c = false -> nonblank (a ++ c :: b) = true.
Proof.
  intros Hc. unfold nonblank, strip.
  destruct (@lstrip_keeps a c b Hc) as [a1 E1]. rewrite E1.
  rewrite rev_app_distr. cbn [rev]. rewrite <- app_assoc. cbn [app].
  destruct (@lstrip_keeps (rev b) c (rev a1) Hc) as [a2 E2]. rewrite E2.
  destruct (rev (a2 ++ c :: rev a1)) eqn:E; [|reflexivity].
  apply (f_equal (@length _)) in E. rewrite length_rev, length_app in E.
  cbn [length] in E. lia.
Qed.

(** Lower-casing and the search for a keyword without sigma: the context
    of a capital sigma decides between two characters that no such keyword
    holds. *)
Lemma lower_from_app (p : pystr) : forall before e,
  sigma_free p = true ->
  lower_from before (p ++ e) = flat_map lower_char p ++ lower_from (rev p ++ before) e.
Proof.
  induction p as [|c p IH]; intros before e H; [reflexivity|].
  cbn [sigma_free forallb] in H. apply andb_prop in H. destruct H as [Hc Hp].
  apply andb_prop in Hc. destruct Hc as [Hc _]. apply andb_prop in Hc.
  destruct Hc as [Hc _]. apply negb_true_iff in Hc.
  cbn [app lower_from flat_map rev]. rewrite Hc, (IH (c :: before) e Hp).
  now rewrite <- !app_assoc.
Qed.

Lemma same_but_sigma_refl (s : pystr) : Forall2 same_but_sigma s s.
Proof. induction s; constructor; [now left|assumption]. Qed.

Lemma lower_from_context (e : pystr) : forall b b',
  Forall2 same_but_sigma (lower_from b e) (lower_from b' e).
Proof.
  induction e as [|c e IH]; intros b b'; cbn [lower_from]; [constructor|].
  apply Forall2_app; [|apply IH].
  destruct (c =? 0x3A3)%N; [|apply same_but_sigma_refl].
  constructor; [|constructor]. right.
  destruct (final_sigma b e), (final_sigma b' e); auto.
Qed.

Lemma starts_with_sigma kw : forall s t,
  sigma_free kw = true -> Forall2 same_but_sigma s t ->
  starts_with kw s = starts_with kw t.
Proof.
  induction kw as [|a kw IH]; intros s t H F; [reflexivity|].
  cbn [sigma_free forallb] in H. apply andb_prop in H. destruct H as [Ha Hk].
  destruct F as [|x y s t Hxy F]; [reflexivity|]. cbn [starts_with].
  rewrite (IH s t Hk F). destruct Hxy as [->|[Hx Hy]]; [reflexivity|].
  apply andb_prop in Ha. destruct Ha as [Ha H3]. apply andb_prop in Ha.
  destruct Ha as [_ H2]. apply negb_true_iff, N.eqb_neq in H2, H3.
  replace (a =? x)%N with false by (symmetry; apply N.eqb_neq; destruct Hx; congruence).
  replace (a =? y)%N with false by (symmetry; apply N.eqb_neq; destruct Hy; congruence).
  reflexivity.
Qed.

Lemma contains_sigma kw s t :
  sigma_free kw = true -> Forall2 same_but_sigma s t -> contains kw s = contains kw t.
Proof.
  intros H F. induction F as [|x y s t Hxy F IH]; [reflexivity|].
  cbn [contains]. rewrite IH.
  now rewrite (@starts_with_sigma kw (x :: s) (y :: t) H (Forall2_cons _ _ Hxy F)).
Qed.

(** The keyword search in the lower-cased line, in terms of the lower-cased
    text of the exception. *)
Lemma pdf_error_search kw e :
  sigma_free kw = true ->
  contains kw (lower (pdf_error_message e))
  = contains kw (flat_map lower_char (py "   PDF Error: ") ++ lower e).
Proof.
  intros H. unfold pdf_error_message, lower at 1.
  rewrite lower_from_app by reflexivity.
  apply contains_sigma; [exact H|].
  apply Forall2_app; [apply same_but_sigma_refl|apply lower_from_context].
Qed.

Lemma pdf_error_prefix (t : pystr) :
  contains (py "error") (flat_map lower_char (py "   PDF Error: ") ++ t) = true
  /\ forall kw, In kw earlier_keywords ->
                contains kw (flat_map lower_char (py "   PDF Error: ") ++ t)
                = contains kw t.
Proof.
  split; [vm_compute; reflexivity|].
  intros kw H. unfold earlier_keywords in H. cbn [In] in H.
  repeat (destruct H as [<-|H]; [vm_compute; reflexivity|]). contradiction.
Qed.

Lemma pdf_error_keywords e :
  contains (py "error") (lower (pdf_error_message e)) = true
  /\ forall kw, In kw earlier_keywords ->
                contains kw (lower (pdf_error_message e)) = contains kw (lower e).
Proof.
  destruct (pdf_error_prefix (lower e)) as [P1 P2]. split.
  - rewrite pdf_error_search by reflexivity. exact P1.
  - intros kw H. rewrite pdf_error_search; [now apply P2|].
    unfold earlier_keywords in H. cbn [In] in H.
    repeat (destruct H as [<-|H]; [vm_compute; reflexivity|]). contradiction.
Qed.

Lemma pdf_error_nonblank e : nonblank (pdf_error_message e) = true.
Proof.
  exact (@nonblank_intro (py "   ") 80%N (py "DF Error: " ++ e) eq_refl).
Qed.

(** X30.  When reading the PDF fails on a [user_] thread, the line printed
    about it sets that user's progress to the error state exactly when the
    text of the exception, in lower case, contains none of the keywords the
    log catcher looks for first; an exception text with, say, [completed]
    in it is shown as another state. *)
Theorem pdf_error_progress th e st :
  starts_with (py "user_") th = true ->
  get_progress (write th (pdf_error_message e) st) (uid_of th)
  = {| percent := 0; text := py "Error Occurred"; status := py "error" |}
  <-> forallb (fun kw => negb (contains kw (lower e))) earlier_keywords = true.
Proof.
  intros Hth. destruct (pdf_error_keywords e) as [He Hk].
  unfold write. cbv zeta. rewrite pdf_error_nonblank, Hth.
  fold (uid_of th). unfold progress_step. rewrite He.
  rewrite (Hk _ (or_introl eq_refl)).
  rewrite (Hk _ (or_intror (or_introl eq_refl))).
  rewrite (Hk _ (or_intror (or_intror (or_introl eq_refl)))).
  rewrite (Hk _ (or_intror (or_intror (or_intror (or_introl eq_refl))))).
  rewrite (Hk _ (or_intror (or_intror (or_intror (or_intror (or_introl eq_refl)))))).
  rewrite (Hk _ (or_intror (or_intror (or_intror (or_intror (or_intror
                   (or_introl eq_refl))))))).
  rewrite (Hk _ (or_intror (or_intror (or_intror (or_intror (or_intror (or_intror
                   (or_introl eq_refl)))))))).
  unfold earlier_keywords, get_progress. cbn [forallb].
  repeat match goal with
         | |- context [contains ?kw (lower e)] =>
           destruct (contains kw (lower e))
         end;
    cbn [orb negb andb update_progress USER_PROGRESS];
    rewrite dict_get_set_same;
    split; intros H; try reflexivity; discriminate H.
Qed.

Lemma pdf_error_progress_witness :
  get_progress (write (py "user_alice") (pdf_error_message (py "EOF marker not found"))
                      initial)
               (uid_of (py "user_alice"))
  = {| percent := 0; text := py "Error Occurred"; status := py "error" |}
  <-> forallb (fun kw => negb (contains kw (lower (py "EOF marker not found"))))
              earlier_keywords = true.
Proof.
  apply pdf_error_progress. reflexivity.
Defined.

End StateProps.
